(** * GitLineDiffCounter: the statistics pass of [src/extension.ts]

    A shallow embedding of the richer variant of the extension (the one
    with [totalLines], the [error] tag and the debounced display update):
    [getFileTotalLines], [getDeletedFileLinesFromGit], [getLineStats] and
    the body of the callback of [updateStatusBar].

    Conventions of the embedding.
    - A JavaScript string is a [string]; its characters stand for code
      units below 256.  A value that may be [undefined] is an
      [option string].
    - A JavaScript number is a [Z]; [NaN] is the [None] of an [option Z].
      The counts handled here are line counts, far below 2^53, where the
      arithmetic of the source is exact integer arithmetic.
    - A promise is a [result]: it resolves ([Ok]) or rejects ([Throw]);
      [try]/[catch] is [try_catch].
    - The host (workspace, file system, git) is a record [Env] that is
      read, never written, during one pass. *)

From Stdlib Require Import ZArith List String Ascii Bool Lia Permutation.
From Stdlib Require Import Sorting.Sorted DecimalString DecimalPos.
Import ListNotations.

Local Open Scope string_scope.
Local Open Scope Z_scope.

(** ** Promises and exceptions *)

Module Js.

Inductive exn : Type :=
| TypeError
| HostError (msg : string).

Inductive result (A : Type) : Type :=
| Ok (a : A)
| Throw (e : exn).

Arguments Ok {A} a.
Arguments Throw {A} e.

Definition bind {A B : Type} (m : result A) (k : A -> result B) : result B :=
  match m with
  | Ok a => k a
  | Throw e => Throw e
  end.

Definition try_catch {A : Type} (body : result A) (handler : exn -> result A)
  : result A :=
  match body with
  | Ok a => Ok a
  | Throw e => handler e
  end.

(** [for (const x of xs) { acc = body(acc, x) }] with a body that awaits. *)
Fixpoint for_of {A S : Type} (body : S -> A -> result S) (xs : list A) (acc : S)
  : result S :=
  match xs with
  | [] => Ok acc
  | x :: xs' => bind (body acc x) (for_of body xs')
  end.

(** ** Strings *)

(** White space of [String.prototype.trim] and of the prefix skipped by
    [parseInt], among the code units below 256: TAB, LF, VT, FF, CR,
    SP and NBSP. *)
Definition isWhiteSpace (c : ascii) : bool :=
  let n := nat_of_ascii c in
  ((n =? 9) || (n =? 10) || (n =? 11) || (n =? 12) || (n =? 13)
   || (n =? 32) || (n =? 160))%nat.

Fixpoint trimStart (s : string) : string :=
  match s with
  | EmptyString => EmptyString
  | String c s' => if isWhiteSpace c then trimStart s' else s
  end.

Fixpoint trimEnd (s : string) : string :=
  match s with
  | EmptyString => EmptyString
  | String c s' =>
      match trimEnd s' with
      | EmptyString => if isWhiteSpace c then EmptyString else String c EmptyString
      | t => String c t
      end
  end.

(** [s.trim()] *)
Definition trim (s : string) : string := trimEnd (trimStart s).

(** [s.split(sep)] for a separator of one character. *)
Fixpoint split (sep : ascii) (s : string) : list string :=
  match s with
  | EmptyString => [EmptyString]
  | String c s' =>
      if Ascii.eqb c sep then EmptyString :: split sep s'
      else match split sep s' with
           | seg :: rest => String c seg :: rest
           | [] => [String c EmptyString]
           end
  end.

(** Truthiness of a string: every string but the empty one. *)
Definition truthy (s : string) : bool :=
  match s with
  | EmptyString => false
  | String _ _ => true
  end.

Definition LF : ascii := ascii_of_nat 10.
Definition TAB : ascii := ascii_of_nat 9.
Definition nl : string := String LF EmptyString.

(** [lines.join(sep)] *)
Definition join (sep : string) (l : list string) : string := String.concat sep l.

(** ** Numbers *)

(** [`${n}`] for an integer [n]. *)
Definition toString (n : Z) : string := NilZero.string_of_int (Z.to_int n).

(** Value of a character as a digit in some radix up to 36. *)
Definition digitValue (c : ascii) : option Z :=
  let n := Z.of_nat (nat_of_ascii c) in
  if (48 <=? n) && (n <=? 57) then Some (n - 48)
  else if (97 <=? n) && (n <=? 122) then Some (n - 97 + 10)
  else if (65 <=? n) && (n <=? 90) then Some (n - 65 + 10)
  else None.

(** The longest prefix of [s] made of digits of the radix. *)
Fixpoint digitsPrefix (radix : Z) (s : string) : list Z :=
  match s with
  | EmptyString => []
  | String c s' =>
      match digitValue c with
      | Some d => if d <? radix then d :: digitsPrefix radix s' else []
      | None => []
      end
  end.

Definition digitsValue (radix : Z) (ds : list Z) : Z :=
  fold_left (fun acc d => acc * radix + d) ds 0.

Definition parseDigits (radix : Z) (s : string) : option Z :=
  match digitsPrefix radix s with
  | [] => None
  | ds => Some (digitsValue radix ds)
  end.

(** After the sign: a [0x] or [0X] prefix selects radix 16. *)
Definition parseUnsigned (s : string) : option Z :=
  match s with
  | String c0 (String c1 s') =>
      if Ascii.eqb c0 "0" && (Ascii.eqb c1 "x" || Ascii.eqb c1 "X")
      then parseDigits 16 s'
      else parseDigits 10 s
  | _ => parseDigits 10 s
  end.

(** [`${v}`] and [s + v] for a string or [undefined]. *)
Definition strOf (v : option string) : string :=
  match v with
  | Some s => s
  | None => "undefined"
  end.

(** [parseInt(v)] without a radix: leading white space is skipped, a
    sign is read, then the digits; [NaN] when there is no digit.
    [undefined] is first converted to the string ["undefined"]. *)
Definition parseInt (v : option string) : option Z :=
  let inputString := strOf v in
  match trimStart inputString with
  | String c s' =>
      if Ascii.eqb c "-" then option_map Z.opp (parseUnsigned s')
      else if Ascii.eqb c "+" then parseUnsigned s'
      else parseUnsigned (String c s')
  | EmptyString => None
  end.

(** [x || 0] for a number [x]: [NaN] and [0] are falsy. *)
Definition orZero (x : option Z) : Z :=
  match x with
  | None => 0
  | Some n => if n =? 0 then 0 else n
  end.

End Js.

Import Js.

Notation "x <- m ;; k" := (bind m (fun x => k))
  (at level 61, m at next level, right associativity).

(** ** Data model *)

Inductive FileStatus : Type := New | Mod | Del.

(** [path] is the third field of a line of the numeric diff; it is
    [undefined] ([None]) when the line has fewer than three fields. *)
Record FileChange : Type := {
  path : option string;
  linesAdded : Z;
  linesDeleted : Z;
  netLines : Z;
  status : FileStatus;
  totalLines : Z
}.

Inductive ErrorTag : Type := NO_WORKSPACE | NO_REPO.

Record LineStats : Type := {
  changesLinesAdded : Z;
  changesLinesDeleted : Z;
  changesFiles : list FileChange;
  stagedLinesAdded : Z;
  stagedLinesDeleted : Z;
  stagedFiles : list FileChange;
  error : option ErrorTag
}.

(** ** The host: workspace, file system and git *)

(** One entry of [status.files]: the path and the state characters of
    the index slot and of the working-tree slot. *)
Record StatusFile : Type := {
  sf_path : string;
  index : string;
  working_dir : string
}.

Record StatusResult : Type := { files : list StatusFile }.

Record LogEntry : Type := { hash : string }.

Record LogResult : Type := { all : list LogEntry }.

(** The handle returned by [simpleGit(rootPath)]; every call is awaited
    and may reject. *)
Record SimpleGit : Type := {
  checkIsRepo : result bool;
  diff : list string -> result string;
  git_status : result StatusResult;
  show : list string -> result string;
  log : list string -> result LogResult
}.

Record Env : Type := {
  (** [vscode.workspace.workspaceFolders?.[0]?.uri.fsPath] *)
  fsPath : option string;
  (** [path.join] and [path.basename] on strings *)
  path_join : string -> string -> string;
  path_basename : string -> string;
  existsSync : string -> bool;
  readFileSync : string -> result string;
  simpleGit : string -> result SimpleGit
}.

(** [if (!rootPath) { absent } else { present(rootPath) }]: [undefined]
    and the empty string are falsy. *)
Definition ifNoRoot {A : Type} (rootPath : option string)
    (absent : A) (present : string -> A) : A :=
  match rootPath with
  | None => absent
  | Some root => if truthy root then present root else absent
  end.

(** [path.join(rootPath, filePath)] and [path.basename(p)] throw a
    [TypeError] on an argument that is not a string. *)
Definition join_path (env : Env) (rootPath : string) (filePath : option string)
  : result string :=
  match filePath with
  | Some p => Ok (path_join env rootPath p)
  | None => Throw TypeError
  end.

Definition basename (env : Env) (p : option string) : result string :=
  match p with
  | Some p => Ok (path_basename env p)
  | None => Throw TypeError
  end.

(** ** File resolver *)

(** [content.split('\n').length] *)
Definition countLines (content : string) : Z :=
  Z.of_nat (List.length (split LF content)).

Definition getDeletedFileLinesFromGit (env : Env) (filePath : option string)
  : result Z :=
  try_catch
    (let rootPath := fsPath env in
     ifNoRoot rootPath (Ok 0) (fun rootPath =>
       git <- simpleGit env rootPath ;;
       showResult <- show git ["HEAD:" ++ strOf filePath] ;;
       Ok (countLines showResult)))
    (fun _ =>
       try_catch
         (let rootPath := fsPath env in
          ifNoRoot rootPath (Ok 0) (fun rootPath =>
            git <- simpleGit env rootPath ;;
            logResult <- log git
              ["--pretty=format:%H"; "--follow"; "--"; strOf filePath] ;;
            match all logResult with
            | entry :: _ =>
                let lastCommitHash := hash entry in
                showResult <-
                  show git [lastCommitHash ++ ":" ++ strOf filePath] ;;
                Ok (countLines showResult)
            | [] => Ok 0
            end))
         (fun _ => Ok 0)).

Definition getFileTotalLines (env : Env) (filePath : option string)
  : result Z :=
  try_catch
    (let rootPath := fsPath env in
     ifNoRoot rootPath (Ok 0) (fun rootPath =>
       fullPath <- join_path env rootPath filePath ;;
       if existsSync env fullPath then
         content <- readFileSync env fullPath ;;
         Ok (countLines content)
       else
         getDeletedFileLinesFromGit env filePath))
    (fun _ => Ok 0).

(** ** Statistics pass *)

(** [Array.prototype.sort(compareFn)]: the sort is stable, and puts [a]
    before [b] when [compareFn a b < 0].  Insertion from the right: the
    element inserted stood before everything already placed, so it stops
    in front of the first element it does not have to follow. *)
Section ArraySort.
Context {A : Type} (compareFn : A -> A -> Z).

Fixpoint sort_insert (a : A) (l : list A) : list A :=
  match l with
  | [] => [a]
  | b :: l' =>
      if compareFn a b <=? 0 then a :: b :: l'
      else b :: sort_insert a l'
  end.

Fixpoint Array_sort (l : list A) : list A :=
  match l with
  | [] => []
  | a :: l' => sort_insert a (Array_sort l')
  end.
End ArraySort.

(** [(a, b) => b.netLines - a.netLines] *)
Definition byNetLinesDesc (a b : FileChange) : Z := netLines b - netLines a.

(** The three accumulators of one area: the two running sums and the
    array the records are pushed to. *)
Record Area : Type := {
  areaLinesAdded : Z;
  areaLinesDeleted : Z;
  areaFiles : list FileChange
}.

Definition emptyArea : Area :=
  {| areaLinesAdded := 0; areaLinesDeleted := 0; areaFiles := [] |}.

(** Body of the loop over the lines of a numeric diff.  The loop over
    the working diff and the one over the staged diff differ only in the
    slot of the status entry they read: [working_dir] or [index]. *)
Definition diffLine (env : Env) (slot : StatusFile -> string)
    (status : StatusResult) (acc : Area) (line : string) : result Area :=
  if truthy (trim line) then
    let fields := split TAB line in
    let added := nth_error fields 0 in
    let removed := nth_error fields 1 in
    let path := nth_error fields 2 in
    let add := orZero (parseInt added) in
    let del := orZero (parseInt removed) in
    let fileStatus :=
      match
        find (fun f => match path with
                       | Some p => String.eqb (sf_path f) p
                       | None => false
                       end) (files status)
      with
      | Some statusFile =>
          if String.eqb (slot statusFile) "A" then New
          else if String.eqb (slot statusFile) "D" then Del
          else Mod
      | None => Mod
      end in
    totalLines <- getFileTotalLines env path ;;
    Ok {| areaLinesAdded := areaLinesAdded acc + add;
          areaLinesDeleted := areaLinesDeleted acc + del;
          areaFiles := areaFiles acc ++
            [{| path := path;
                linesAdded := add;
                linesDeleted := del;
                netLines := add - del;
                status := fileStatus;
                totalLines := totalLines |}] |}
  else Ok acc.

(** Body of the loop over the untracked files. *)
Definition untrackedFile (env : Env) (acc : Area) (file : StatusFile)
  : result Area :=
  totalLines <- getFileTotalLines env (Some (sf_path file)) ;;
  Ok {| areaLinesAdded := areaLinesAdded acc + totalLines;
        areaLinesDeleted := areaLinesDeleted acc;
        areaFiles := areaFiles acc ++
          [{| path := Some (sf_path file);
              linesAdded := totalLines;
              linesDeleted := 0;
              netLines := totalLines;
              status := New;
              totalLines := totalLines |}] |}.

Definition errorStats (tag : ErrorTag) : LineStats :=
  {| changesLinesAdded := 0;
     changesLinesDeleted := 0;
     changesFiles := [];
     stagedLinesAdded := 0;
     stagedLinesDeleted := 0;
     stagedFiles := [];
     error := Some tag |}.

(** From the first numeric diff to the last [push]: the two areas as
    they are constructed, before the sort. *)
Definition collectAreas (env : Env) (git : SimpleGit) : result (Area * Area) :=
  workingDiff <- diff git ["--numstat"] ;;
  status <- git_status git ;;
  let workingLines := split LF (trim workingDiff) in
  changes <- for_of (diffLine env working_dir status) workingLines emptyArea ;;
  let untrackedFiles :=
    filter (fun f => String.eqb (working_dir f) "?") (files status) in
  changes <- for_of (untrackedFile env) untrackedFiles changes ;;
  stagedDiff <- diff git ["--cached"; "--numstat"] ;;
  let stagedLines := split LF (trim stagedDiff) in
  staged <- for_of (diffLine env index status) stagedLines emptyArea ;;
  Ok (changes, staged).

(** The two sorts and the record returned on success. *)
Definition statsOf (changes staged : Area) : LineStats :=
  {| changesLinesAdded := areaLinesAdded changes;
     changesLinesDeleted := areaLinesDeleted changes;
     changesFiles := Array_sort byNetLinesDesc (areaFiles changes);
     stagedLinesAdded := areaLinesAdded staged;
     stagedLinesDeleted := areaLinesDeleted staged;
     stagedFiles := Array_sort byNetLinesDesc (areaFiles staged);
     error := None |}.

(** The [try] block of [getLineStats]. *)
Definition getLineStats_try (env : Env) : result (option LineStats) :=
  let rootPath := fsPath env in
  ifNoRoot rootPath (Ok (Some (errorStats NO_WORKSPACE))) (fun rootPath =>
    git <- simpleGit env rootPath ;;
    isRepo <- checkIsRepo git ;;
    if negb isRepo then Ok (Some (errorStats NO_REPO))
    else
      areas <- collectAreas env git ;;
      let changes := fst areas in
      let staged := snd areas in
      Ok (Some (statsOf changes staged))).

(** [getLineStats]: [null] is [None]. *)
Definition getLineStats (env : Env) : result (option LineStats) :=
  try_catch (getLineStats_try env) (fun _ => Ok None).

(** ** Display *)

Record StatusBarItem : Type := {
  text : string;
  tooltip : string
}.

(** [`${n >= 0 ? '+' : ''}${n}`] *)
Definition signed (n : Z) : string :=
  (if n >=? 0 then "+" else "") ++ toString n.

(** [` (+${add}-${del})`] without the leading blank *)
Definition addDel (add del : Z) : string :=
  "(+" ++ toString add ++ "-" ++ toString del ++ ")".

Definition statusName (s : FileStatus) : string :=
  match s with
  | New => "New"
  | Mod => "Mod"
  | Del => "Del"
  end.

(** The value of [text] assigned to [statusBarItem.text] for a result
    without error tag. *)
Definition summaryText (stats : LineStats) : string :=
  let changesNetLines := changesLinesAdded stats - changesLinesDeleted stats in
  let stagedNetLines := stagedLinesAdded stats - stagedLinesDeleted stats in
  let totalNetLines := changesNetLines + stagedNetLines in
  let text := "$(git-commit) " in
  let totalAdd := stagedLinesAdded stats + changesLinesAdded stats in
  let totalDel := stagedLinesDeleted stats + changesLinesDeleted stats in
  let hasStaged := negb (stagedNetLines =? 0) in
  let hasChanges := negb (changesNetLines =? 0) in
  let singleArea :=
    (hasStaged && negb hasChanges) || (negb hasStaged && hasChanges) in
  let text :=
    if singleArea then
      let areaNetLines := if hasStaged then stagedNetLines else changesNetLines in
      let areaAdd :=
        if hasStaged then stagedLinesAdded stats else changesLinesAdded stats in
      let areaDel :=
        if hasStaged then stagedLinesDeleted stats
        else changesLinesDeleted stats in
      if hasStaged then
        text ++ signed areaNetLines ++ " " ++ addDel areaAdd areaDel
      else
        text ++ signed areaNetLines ++ " " ++ addDel areaAdd areaDel
    else
      let text :=
        if negb (stagedNetLines =? 0) then
          text ++ "Staged:" ++ signed stagedNetLines ++ " "
               ++ addDel (stagedLinesAdded stats) (stagedLinesDeleted stats)
        else text in
      let text :=
        if negb (changesNetLines =? 0) then
          let text := if negb (stagedNetLines =? 0) then text ++ ", " else text in
          text ++ "Changes:" ++ signed changesNetLines ++ " "
               ++ addDel (changesLinesAdded stats) (changesLinesDeleted stats)
        else text in
      if negb (stagedNetLines =? 0) || negb (changesNetLines =? 0) then
        text ++ ", Total:" ++ signed totalNetLines ++ " "
             ++ addDel totalAdd totalDel
      else text in
  if (stagedNetLines =? 0) && (changesNetLines =? 0) then text ++ "Clean"
  else text.

(** One row of the tooltip. *)
Definition fileRow (env : Env) (file : FileChange) : result string :=
  fileName <- basename env (path file) ;;
  Ok ("  " ++ signed (netLines file) ++ " "
           ++ addDel (linesAdded file) (linesDeleted file)
           ++ "=" ++ toString (totalLines file)
           ++ " [" ++ statusName (status file) ++ "] " ++ fileName).

(** [for (const file of files) { rows.push(row(file)) }] *)
Definition pushRows (env : Env) (files : list FileChange) (rows : list string)
  : result (list string) :=
  for_of (fun rows file => row <- fileRow env file ;; Ok (rows ++ [row])%list)
         files rows.

(** The value assigned to [statusBarItem.tooltip]. *)
Definition tooltipText (env : Env) (stats : LineStats) : result string :=
  let changesNetLines := changesLinesAdded stats - changesLinesDeleted stats in
  let stagedNetLines := stagedLinesAdded stats - stagedLinesDeleted stats in
  let totalNetLines := changesNetLines + stagedNetLines in
  let totalAdd := stagedLinesAdded stats + changesLinesAdded stats in
  let totalDel := stagedLinesDeleted stats + changesLinesDeleted stats in
  stagedTooltip <-
    pushRows env (stagedFiles stats)
      ["Staged: " ++ signed stagedNetLines ++ " "
         ++ addDel (stagedLinesAdded stats) (stagedLinesDeleted stats)] ;;
  changesTooltip <-
    pushRows env (changesFiles stats)
      [nl ++ "Changes: " ++ signed changesNetLines ++ " "
         ++ addDel (changesLinesAdded stats) (changesLinesDeleted stats)] ;;
  let totalTooltip :=
    [nl ++ "Total: " ++ signed totalNetLines ++ " " ++ addDel totalAdd totalDel] in
  Ok (join nl (stagedTooltip ++ changesTooltip ++ totalTooltip)).

(** The callback of [getLineStats().then(...)]: it writes the item and
    may throw after [text] has been written. *)
Definition onStats (env : Env) (stats : option LineStats) (item : StatusBarItem)
  : StatusBarItem * result unit :=
  match stats with
  | None =>
      ({| text := "$(git-commit) Git: Error";
          tooltip := "Error getting git status" |}, Ok tt)
  | Some stats =>
      match error stats with
      | Some NO_WORKSPACE =>
          ({| text := "$(git-commit) Git: No workspace";
              tooltip := "No workspace folder found" |}, Ok tt)
      | Some NO_REPO =>
          ({| text := "$(git-commit) Git: No repo";
              tooltip := "No git repository found" |}, Ok tt)
      | None =>
          let item := {| text := summaryText stats; tooltip := tooltip item |} in
          match tooltipText env stats with
          | Ok tip => ({| text := text item; tooltip := tip |}, Ok tt)
          | Throw e => (item, Throw e)
          end
      end
  end.

(** The handler of [.catch(...)]. *)
Definition onRejected (item : StatusBarItem) : StatusBarItem :=
  {| text := "$(git-commit) Git: Error";
     tooltip := "Error updating git status" |}.

(** What the timer of [updateStatusBar] runs once the delay has elapsed:
    the state of the status bar item after the promise chain settled. *)
Definition updateStatusBar (env : Env) (item : StatusBarItem) : StatusBarItem :=
  match getLineStats env with
  | Ok stats =>
      match onStats env stats item with
      | (item', Ok _) => item'
      | (item', Throw _) => onRejected item'
      end
  | Throw _ => onRejected item
  end.

(** ** Vocabulary of the display properties *)

Definition changesNet (stats : LineStats) : Z :=
  changesLinesAdded stats - changesLinesDeleted stats.

Definition stagedNet (stats : LineStats) : Z :=
  stagedLinesAdded stats - stagedLinesDeleted stats.

(** The segment [{±net} (+{add}-{del})]. *)
Definition delta (net add del : Z) : string :=
  signed net ++ " " ++ addDel add del.

(** The icon reference every status text starts with. *)
Definition icon : string := "$(git-commit) ".

(** The tooltip of a pass that found nothing: three headers, no row. *)
Definition cleanTooltip : string :=
  "Staged: +0 (+0-0)" ++ nl ++ nl ++ "Changes: +0 (+0-0)" ++ nl ++ nl
    ++ "Total: +0 (+0-0)".

(** ** Vocabulary of the resolver properties *)

(** The record the pass pushes for an untracked file of resolved total
    [total]. *)
Definition untrackedRecord (file : StatusFile) (total : Z) : FileChange :=
  {| path := Some (sf_path file);
     linesAdded := total;
     linesDeleted := 0;
     netLines := total;
     status := New;
     totalLines := total |}.

(** The arguments of the [git log] that looks for the commits of a path. *)
Definition logArgs (filePath : string) : list string :=
  ["--pretty=format:%H"; "--follow"; "--"; filePath].

(** ** Vocabulary of the parsing property *)

(** The field is, after leading white space, a minus sign in front of
    something [parseInt] reads as a number. *)
Definition minusDigits (v : option string) : bool :=
  match trimStart (strOf v) with
  | String c s' =>
      Ascii.eqb c "-" &&
      match parseUnsigned s' with Some _ => true | None => false end
  | EmptyString => false
  end.

(** Neither count of the line is such a field. *)
Definition unsignedLine (line : string) : bool :=
  negb (minusDigits (nth_error (split TAB line) 0)) &&
  negb (minusDigits (nth_error (split TAB line) 1)).

Definition nonNegative (f : FileChange) : Prop :=
  0 <= linesAdded f /\ 0 <= linesDeleted f.

(** A count as [git diff --numstat] prints it: a decimal numeral without
    sign, or the [-] of a binary file. *)
Definition isDigit (c : ascii) : bool :=
  let n := nat_of_ascii c in ((48 <=? n) && (n <=? 57))%nat.

Fixpoint allDigits (s : string) : bool :=
  match s with
  | EmptyString => true
  | String c s' => isDigit c && allDigits s'
  end.

Definition numstatCount (field : string) : bool :=
  String.eqb field "-" || (truthy field && allDigits field).

(** A line of [git diff --numstat]: two counts and a path, separated by
    tabs. *)
Definition numstatLine (line : string) : bool :=
  match split TAB line with
  | added :: deleted :: _ :: _ => numstatCount added && numstatCount deleted
  | _ => false
  end.

(** A text whose non-blank lines are all lines of [git diff --numstat]. *)
Definition numstatText (diffText : string) : bool :=
  forallb (fun line => negb (truthy (trim line)) || numstatLine line)
          (split LF (trim diffText)).

(** ** Sums and order over file sequences *)

(** [sum(f(x) for x in l)] *)
Definition sumOf (f : FileChange -> Z) (l : list FileChange) : Z :=
  fold_right (fun x acc => f x + acc) 0 l.

(** The running sums of an area agree with the records pushed so far. *)
Definition sumsAgree (acc : Area) : Prop :=
  areaLinesAdded acc = sumOf linesAdded (areaFiles acc) /\
  areaLinesDeleted acc = sumOf linesDeleted (areaFiles acc).

(** [a] may stand in front of [b]. *)
Definition netGe (a b : FileChange) : Prop := netLines a >= netLines b.

(** Every adjacent pair is in descending order of [netLines]. *)
Definition adjacentDesc (l : list FileChange) : Prop :=
  forall i a b,
    nth_error l i = Some a -> nth_error l (S i) = Some b ->
    netLines a >= netLines b.

(** The files of net [n], in the order they have in [l]. *)
Definition withNet (n : Z) (l : list FileChange) : list FileChange :=
  filter (fun f => netLines f =? n) l.

(** ** Closed forms of the loops *)

(** The total the resolver resolves to for a path. *)
Definition resolved (env : Env) (filePath : option string) : Z :=
  match getFileTotalLines env filePath with
  | Ok n => n
  | Throw _ => 0
  end.

(** The status given to a line of a numeric diff: read off the first
    entry of the listing that has the path of the line. *)
Definition classify (slot : StatusFile -> string) (status : StatusResult)
    (path : option string) : FileStatus :=
  match
    find (fun f => match path with
                   | Some p => String.eqb (sf_path f) p
                   | None => false
                   end) (files status)
  with
  | Some statusFile =>
      if String.eqb (slot statusFile) "A" then New
      else if String.eqb (slot statusFile) "D" then Del
      else Mod
  | None => Mod
  end.

(** The record pushed for one line of a numeric diff. *)
Definition lineRecord (env : Env) (slot : StatusFile -> string)
    (status : StatusResult) (line : string) : FileChange :=
  let fields := split TAB line in
  let add := orZero (parseInt (nth_error fields 0)) in
  let del := orZero (parseInt (nth_error fields 1)) in
  {| path := nth_error fields 2;
     linesAdded := add;
     linesDeleted := del;
     netLines := add - del;
     status := classify slot status (nth_error fields 2);
     totalLines := resolved env (nth_error fields 2) |}.

(** [if (line.trim())] *)
Definition nonBlank (line : string) : bool := truthy (trim line).

(** The records of a numeric diff, in the order of its lines. *)
Definition diffRecords (env : Env) (slot : StatusFile -> string)
    (status : StatusResult) (diffText : string) : list FileChange :=
  map (lineRecord env slot status) (filter nonBlank (split LF (trim diffText))).

(** The entries of the listing marked untracked, and their records. *)
Definition untracked (status : StatusResult) : list StatusFile :=
  filter (fun f => String.eqb (working_dir f) "?") (files status).

Definition untrackedRecords (env : Env) (status : StatusResult)
  : list FileChange :=
  map (fun f => untrackedRecord f (resolved env (Some (sf_path f))))
      (untracked status).

(** The area a loop leaves when it pushed [records] onto [acc]. *)
Definition pushed (acc : Area) (records : list FileChange) : Area :=
  {| areaLinesAdded := areaLinesAdded acc + sumOf linesAdded records;
     areaLinesDeleted := areaLinesDeleted acc + sumOf linesDeleted records;
     areaFiles := areaFiles acc ++ records |}.

Definition hasPath (f : FileChange) : bool :=
  match path f with
  | Some _ => true
  | None => false
  end.

(** The row of a file that has a path. *)
Definition rowOf (env : Env) (f : FileChange) : string :=
  match fileRow env f with
  | Ok row => row
  | Throw _ => ""
  end.

(** Occurrences of a character in a string. *)
Fixpoint countChar (c : ascii) (s : string) : nat :=
  match s with
  | EmptyString => O
  | String c' s' => ((if Ascii.eqb c' c then 1 else 0) + countChar c s')%nat
  end.

(** The status a state character of the listing stands for. *)
Definition slotStatus (code : string) : FileStatus :=
  if String.eqb code "A" then New
  else if String.eqb code "D" then Del
  else Mod.

(** The three headers of the tooltip. *)
Definition stagedHeader (stats : LineStats) : string :=
  "Staged: " ++ delta (stagedNet stats)
                  (stagedLinesAdded stats) (stagedLinesDeleted stats).

Definition changesHeader (stats : LineStats) : string :=
  "Changes: " ++ delta (changesNet stats)
                   (changesLinesAdded stats) (changesLinesDeleted stats).

Definition totalHeader (stats : LineStats) : string :=
  "Total: " ++ delta (changesNet stats + stagedNet stats)
                 (stagedLinesAdded stats + changesLinesAdded stats)
                 (stagedLinesDeleted stats + changesLinesDeleted stats).

(** Every non-blank line of the text of a numeric diff has its three
    tab-separated fields. *)
Definition threeFields (line : string) : bool :=
  (3 <=? List.length (split TAB line))%nat.

Definition completeLines (diffText : string) : bool :=
  forallb (fun line => negb (nonBlank line) || threeFields line)
          (split LF (trim diffText)).

(** The item when the promise chain of [updateStatusBar] rejected. *)
Definition errorItem : StatusBarItem :=
  {| text := "$(git-commit) Git: Error";
     tooltip := "Error updating git status" |}.

(** The digits of a decimal numeral, most significant first. *)
Fixpoint uintDigits (d : Decimal.uint) : list Z :=
  match d with
  | Decimal.Nil => []
  | Decimal.D0 d => 0 :: uintDigits d
  | Decimal.D1 d => 1 :: uintDigits d
  | Decimal.D2 d => 2 :: uintDigits d
  | Decimal.D3 d => 3 :: uintDigits d
  | Decimal.D4 d => 4 :: uintDigits d
  | Decimal.D5 d => 5 :: uintDigits d
  | Decimal.D6 d => 6 :: uintDigits d
  | Decimal.D7 d => 7 :: uintDigits d
  | Decimal.D8 d => 8 :: uintDigits d
  | Decimal.D9 d => 9 :: uintDigits d
  end.

(** ** Debounce and events

    [updateStatusBar] does not run the pass itself: it cancels the timer
    kept in [updateTimeout] and starts a new one of 500 ms whose callback
    runs the pass.  The timers of the host are a list of pending timers
    with fresh handles; time is counted in milliseconds.  Two logs are
    kept beside the variables of the source: the times of the calls of
    [updateStatusBar] and the times at which its callback ran. *)

Module EventLoop.

Inductive Callback : Type :=
| RunPass          (* the callback of the timer of [updateStatusBar] *)
| DelayedUpdate.   (* the callback of the timer of the terminal watcher *)

Record Timer : Type := {
  handle : nat;
  due : nat;
  callback : Callback
}.

Record State : Type := {
  clock : nat;
  nextHandle : nat;
  pending : list Timer;
  updateTimeout : option nat;
  calls : list nat;
  passes : list nat
}.

(** [setTimeout(callback, delay)]: the handle returned and the new state. *)
Definition setTimeout (cb : Callback) (delay : nat) (st : State)
  : nat * State :=
  (nextHandle st,
   {| clock := clock st;
      nextHandle := S (nextHandle st);
      pending := pending st ++
        [{| handle := nextHandle st; due := clock st + delay; callback := cb |}];
      updateTimeout := updateTimeout st;
      calls := calls st;
      passes := passes st |}).

(** [clearTimeout(h)]: a handle that is not pending is ignored. *)
Definition clearTimeout (h : nat) (st : State) : State :=
  {| clock := clock st;
     nextHandle := nextHandle st;
     pending := filter (fun t => negb (Nat.eqb (handle t) h)) (pending st);
     updateTimeout := updateTimeout st;
     calls := calls st;
     passes := passes st |}.

Definition updateStatusBar (st : State) : State :=
  let st :=
    match updateTimeout st with
    | Some h => clearTimeout h st
    | None => st
    end in
  let (h, st) := setTimeout RunPass 500 st in
  {| clock := clock st;
     nextHandle := nextHandle st;
     pending := pending st;
     updateTimeout := Some h;
     calls := clock st :: calls st;
     passes := passes st |}.

(** [s.includes(sub)] *)
Fixpoint includes (s sub : string) : bool :=
  String.prefix sub s ||
  match s with
  | EmptyString => false
  | String _ s' => includes s' sub
  end.

(** The events [activate] subscribes to. *)
Inductive Event : Type :=
| RefreshCommand
| DidChangeTextDocument
| DidSaveTextDocument
| FileCreated
| FileDeleted
| FileChanged
| GitStateChanged
| GitRepositoryOpened
| GitRepositoryClosed
| DidCloseTerminal (name : string)
| DidChangeConfiguration
| DidOpenTextDocument
| DidCloseTextDocument.

(** Whether [vscode.extensions.getExtension('vscode.git')?.exports] and
    the model returned by its [getAPI(1)] are there. *)
Record GitExtension : Type := {
  gitApi : bool;
  gitModel : bool
}.

(** Whether [activate] registered a listener for the event. *)
Definition subscribed (host : GitExtension) (ev : Event) : bool :=
  match ev with
  | GitStateChanged | GitRepositoryOpened | GitRepositoryClosed =>
      gitApi host && gitModel host
  | _ => true
  end.

(** The listener registered for the event. *)
Definition listener (ev : Event) (st : State) : State :=
  match ev with
  | DidCloseTerminal name =>
      if includes name "git" || includes name "Git"
      then snd (setTimeout DelayedUpdate 100 st)
      else st
  | _ => updateStatusBar st
  end.

Definition dispatch (host : GitExtension) (ev : Event) (st : State) : State :=
  if subscribed host ev then listener ev st else st.

(** The state [activate] leaves at time [t0]: it calls [updateStatusBar]
    once itself. *)
Definition activate (t0 : nat) : State :=
  updateStatusBar
    {| clock := t0; nextHandle := 0; pending := []; updateTimeout := None;
       calls := []; passes := [] |}.

(** The host runs the callback of a timer. *)
Definition runCallback (cb : Callback) (st : State) : State :=
  match cb with
  | RunPass =>
      {| clock := clock st;
         nextHandle := nextHandle st;
         pending := pending st;
         updateTimeout := updateTimeout st;
         calls := calls st;
         passes := clock st :: passes st |}
  | DelayedUpdate => updateStatusBar st
  end.

(** What happens to the extension: an event arrives, time passes, or the
    host fires a pending timer that is due. *)
Inductive Input : Type :=
| Dispatch (ev : Event)
| Elapse (ms : nat)
| Fire (h : nat).

Definition step (host : GitExtension) (st : State) (input : Input) : State :=
  match input with
  | Dispatch ev => dispatch host ev st
  | Elapse ms =>
      {| clock := clock st + ms;
         nextHandle := nextHandle st;
         pending := pending st;
         updateTimeout := updateTimeout st;
         calls := calls st;
         passes := passes st |}
  | Fire h =>
      match find (fun t => Nat.eqb (handle t) h) (pending st) with
      | Some t =>
          if (due t <=? clock st)%nat
          then runCallback (callback t) (clearTimeout h st)
          else st
      | None => st
      end
  end.

Definition run (host : GitExtension) (inputs : list Input) (st : State)
  : State :=
  fold_left (step host) inputs st.

(** The events whose listener calls [updateStatusBar] at once. *)
Definition triggers (host : GitExtension) (ev : Event) : bool :=
  subscribed host ev &&
  match ev with
  | DidCloseTerminal _ => false
  | _ => true
  end.

(** Events arriving one after the other, each followed by some time,
    while the host fires no timer. *)
Definition arrivals (burst : list (Event * nat)) : list Input :=
  flat_map (fun arrival => [Dispatch (fst arrival); Elapse (snd arrival)])
           burst.

Definition initial (t0 : nat) : State :=
  {| clock := t0; nextHandle := 0; pending := []; updateTimeout := None;
     calls := []; passes := [] |}.

(** Two hosts and two runs for the examples. *)
Definition withGit : GitExtension := {| gitApi := true; gitModel := true |}.

Definition withoutGit : GitExtension :=
  {| gitApi := false; gitModel := false |}.

Definition twoSaves : list Input :=
  [Dispatch DidSaveTextDocument; Elapse 200; Dispatch FileChanged; Elapse 500].

Definition mixedBurst : list (Event * nat) :=
  [(DidChangeTextDocument, 30%nat); (GitStateChanged, 10%nat);
   (DidCloseTerminal "bash", 700%nat)].

(** The pending timers that will run the pass. *)
Definition passTimers (st : State) : list Timer :=
  filter (fun t => match callback t with RunPass => true | _ => false end)
         (pending st).

(** What holds between two steps. *)
Record Inv (st : State) : Prop := {
  handles_fresh : Forall (fun t => (handle t < nextHandle st)%nat) (pending st);
  handles_distinct : NoDup (map handle (pending st));
  pass_timer_kept :
    forall t, In t (passTimers st) ->
      updateTimeout st = Some (handle t) /\
      exists c rest, calls st = c :: rest /\ due t = (c + 500)%nat;
  kept_fresh :
    forall h, updateTimeout st = Some h -> (h < nextHandle st)%nat;
  delayed_not_kept :
    forall t, In t (pending st) -> callback t = DelayedUpdate ->
      updateTimeout st <> Some (handle t);
  calls_past : Forall (fun c => (c <= clock st)%nat) (calls st);
  passes_counted :
    (List.length (passes st) + List.length (passTimers st)
     <= List.length (calls st))%nat
}.

End EventLoop.

(** ** The minimal variant

    The first variant kept in [src/extension.ts]: no total of lines, no
    untracked files, no error tag, no debounce and no [catch] on the
    promise of the display. *)

Module Minimal.

Record FileChange : Type := {
  path : option string;
  linesAdded : Z;
  linesDeleted : Z;
  netLines : Z;
  status : FileStatus
}.

Record LineStats : Type := {
  changesLinesAdded : Z;
  changesLinesDeleted : Z;
  changesFiles : list FileChange;
  stagedLinesAdded : Z;
  stagedLinesDeleted : Z;
  stagedFiles : list FileChange
}.

Record Area : Type := {
  areaLinesAdded : Z;
  areaLinesDeleted : Z;
  areaFiles : list FileChange
}.

Definition emptyArea : Area :=
  {| areaLinesAdded := 0; areaLinesDeleted := 0; areaFiles := [] |}.

(** Body of the two loops over the lines of a numeric diff; nothing is
    awaited in it. *)
Definition diffLine (slot : StatusFile -> string) (listing : StatusResult)
    (acc : Area) (line : string) : Area :=
  if truthy (trim line) then
    let fields := split TAB line in
    let added := nth_error fields 0 in
    let removed := nth_error fields 1 in
    let path := nth_error fields 2 in
    let add := orZero (parseInt added) in
    let del := orZero (parseInt removed) in
    let fileStatus :=
      match
        find (fun f => match path with
                       | Some p => String.eqb (sf_path f) p
                       | None => false
                       end) (files listing)
      with
      | Some statusFile =>
          if String.eqb (slot statusFile) "A" then New
          else if String.eqb (slot statusFile) "D" then Del
          else Mod
      | None => Mod
      end in
    {| areaLinesAdded := areaLinesAdded acc + add;
       areaLinesDeleted := areaLinesDeleted acc + del;
       areaFiles := areaFiles acc ++
         [{| path := path;
             linesAdded := add;
             linesDeleted := del;
             netLines := add - del;
             status := fileStatus |}] |}
  else acc.

(** [(a, b) => b.netLines - a.netLines] *)
Definition byNetLinesDesc (a b : FileChange) : Z := netLines b - netLines a.

(** The [try] block of [getLineStats]. *)
Definition getLineStats_try (env : Env) : result (option LineStats) :=
  let rootPath := fsPath env in
  ifNoRoot rootPath (Ok None) (fun rootPath =>
    git <- simpleGit env rootPath ;;
    isRepo <- checkIsRepo git ;;
    if negb isRepo then Ok None
    else
      listing <- git_status git ;;
      workingDiff <- diff git ["--numstat"] ;;
      let workingLines := split LF (trim workingDiff) in
      let changes := fold_left (diffLine working_dir listing) workingLines
                       emptyArea in
      stagedDiff <- diff git ["--cached"; "--numstat"] ;;
      let stagedLines := split LF (trim stagedDiff) in
      let staged := fold_left (diffLine index listing) stagedLines emptyArea in
      Ok (Some
        {| changesLinesAdded := areaLinesAdded changes;
           changesLinesDeleted := areaLinesDeleted changes;
           changesFiles := Array_sort byNetLinesDesc (areaFiles changes);
           stagedLinesAdded := areaLinesAdded staged;
           stagedLinesDeleted := areaLinesDeleted staged;
           stagedFiles := Array_sort byNetLinesDesc (areaFiles staged) |})).

Definition getLineStats (env : Env) : result (option LineStats) :=
  try_catch (getLineStats_try env) (fun _ => Ok None).

(** The value of [text] assigned to [statusBarItem.text]. *)
Definition summaryText (stats : LineStats) : string :=
  let changesNetLines := changesLinesAdded stats - changesLinesDeleted stats in
  let stagedNetLines := stagedLinesAdded stats - stagedLinesDeleted stats in
  let totalNetLines := changesNetLines + stagedNetLines in
  let text := "$(git-commit) " in
  let text :=
    if negb (stagedNetLines =? 0) then text ++ "Staged:" ++ signed stagedNetLines
    else text in
  let text :=
    if negb (changesNetLines =? 0) then
      let text := if negb (stagedNetLines =? 0) then text ++ ", " else text in
      text ++ "Changes:" ++ signed changesNetLines
    else text in
  if (stagedNetLines =? 0) && (changesNetLines =? 0) then text ++ "Clean"
  else text ++ ", Total:" ++ signed totalNetLines.

(** [`${n >= 0 ? '-' : ''}${n}`] *)
Definition dashed (n : Z) : string :=
  (if n >=? 0 then "-" else "") ++ toString n.

Definition fileRow (env : Env) (file : FileChange) : result string :=
  fileName <- basename env (path file) ;;
  Ok ("  Net:" ++ signed (netLines file)
        ++ " (+" ++ toString (linesAdded file) ++ dashed (linesDeleted file)
        ++ ") [" ++ statusName (status file) ++ "] " ++ fileName).

Definition pushRows (env : Env) (files : list FileChange) (rows : list string)
  : result (list string) :=
  for_of (fun rows file => row <- fileRow env file ;; Ok (rows ++ [row])%list)
         files rows.

Definition tooltipText (env : Env) (stats : LineStats) : result string :=
  let changesNetLines := changesLinesAdded stats - changesLinesDeleted stats in
  let stagedNetLines := stagedLinesAdded stats - stagedLinesDeleted stats in
  let totalNetLines := changesNetLines + stagedNetLines in
  stagedTooltip <-
    pushRows env (stagedFiles stats)
      ["Staged (" ++ signed stagedNetLines ++ "):"] ;;
  changesTooltip <-
    pushRows env (changesFiles stats)
      [nl ++ "Changes (" ++ signed changesNetLines ++ "):"] ;;
  let totalAdd := stagedLinesAdded stats + changesLinesAdded stats in
  let totalDel := stagedLinesDeleted stats + changesLinesDeleted stats in
  let totalTooltip :=
    [nl ++ "Total: Net:" ++ signed totalNetLines
        ++ " Add:+" ++ toString totalAdd ++ " Del:" ++ dashed totalDel] in
  Ok (join nl (stagedTooltip ++ changesTooltip ++ totalTooltip)).

(** [updateStatusBar]: the item once the promise settled, and whether
    it resolved or rejected; nothing catches a rejection. *)
Definition updateStatusBar (env : Env) (item : StatusBarItem)
  : StatusBarItem * result unit :=
  match getLineStats env with
  | Throw e => (item, Throw e)
  | Ok None =>
      ({| text := "$(git-commit) Git: No repo";
          tooltip := "No git repository found" |}, Ok tt)
  | Ok (Some stats) =>
      let item := {| text := summaryText stats; tooltip := tooltip item |} in
      match tooltipText env stats with
      | Ok tip => ({| text := text item; tooltip := tip |}, Ok tt)
      | Throw e => (item, Throw e)
      end
  end.

End Minimal.

(** A record of the richer variant without its total, a record of the
    minimal variant. *)
Definition forget (f : FileChange) : Minimal.FileChange :=
  {| Minimal.path := path f;
     Minimal.linesAdded := linesAdded f;
     Minimal.linesDeleted := linesDeleted f;
     Minimal.netLines := netLines f;
     Minimal.status := status f |}.

(** ** The resolver of the intermediate variant

    The variant between the two reads a file from disk only. *)

Module DiskOnly.

Definition getFileTotalLines (env : Env) (filePath : option string)
  : result Z :=
  try_catch
    (let rootPath := fsPath env in
     ifNoRoot rootPath (Ok 0) (fun rootPath =>
       fullPath <- join_path env rootPath filePath ;;
       if negb (existsSync env fullPath) then Ok 0
       else
         content <- readFileSync env fullPath ;;
         Ok (countLines content)))
    (fun _ => Ok 0).

End DiskOnly.

(** ** A concrete host for the scenarios *)

Module Scenario.

Definition lookup {V : Type} (k : string) (m : list (string * V)) : option V :=
  option_map snd (find (fun kv => String.eqb (fst kv) k) m).

(** A POSIX flavour of [path.join] and [path.basename], enough for
    relative paths without dots and trailing slashes. *)
Definition posix_join (a b : string) : string := a ++ "/" ++ b.

Definition posix_basename (p : string) : string :=
  List.last (split "/" p) "".

Definition tab : string := String TAB EmptyString.

(** One line of [git diff --numstat]. *)
Definition numstat (added removed path : string) : string :=
  added ++ tab ++ removed ++ tab ++ path ++ nl.

Record Repo : Type := {
  working : string;                          (* git diff --numstat *)
  staged : string;                           (* git diff --cached --numstat *)
  listing : list StatusFile;                 (* git status *)
  objects : list (string * string);          (* rev:path -> content *)
  history : list (string * list string);     (* path -> commits, newest first *)
  disk : list (string * string)              (* full path -> content *)
}.

Definition git_of (r : Repo) : SimpleGit :=
  {| checkIsRepo := Ok true;
     diff := fun args =>
       match args with
       | ["--numstat"] => Ok (working r)
       | ["--cached"; "--numstat"] => Ok (staged r)
       | _ => Throw (HostError "usage: git diff")
       end;
     git_status := Ok {| files := listing r |};
     show := fun args =>
       match args with
       | [object] =>
           match lookup object (objects r) with
           | Some content => Ok content
           | None => Throw (HostError "fatal: path does not exist")
           end
       | _ => Throw (HostError "usage: git show")
       end;
     log := fun args =>
       match args with
       | [_; _; _; p] =>
           match lookup p (history r) with
           | Some commits => Ok {| all := map (fun h => {| hash := h |}) commits |}
           | None => Ok {| all := [] |}
           end
       | _ => Throw (HostError "usage: git log")
       end |}.

Definition env_of (r : Repo) : Env :=
  {| fsPath := Some "/w";
     path_join := posix_join;
     path_basename := posix_basename;
     existsSync := fun p =>
       match lookup p (disk r) with Some _ => true | None => false end;
     readFileSync := fun p =>
       match lookup p (disk r) with
       | Some content => Ok content
       | None => Throw (HostError "ENOENT")
       end;
     simpleGit := fun _ => Ok (git_of r) |}.

(** A text of [n] lines by the count of the resolver: [n - 1] newline
    characters. *)
Definition textOfLines (n : nat) : string :=
  String.concat nl (repeat "x" n).

Definition cleanRepo : Repo :=
  {| working := ""; staged := ""; listing := []; objects := [];
     history := []; disk := [] |}.

(** Scenario B: one unstaged modified file, +15/-5. *)
Definition repoB : Repo :=
  {| working := numstat "15" "5" "src/a.ts";
     staged := "";
     listing := [{| sf_path := "src/a.ts"; index := " "; working_dir := "M" |}];
     objects := []; history := [];
     disk := [("/w/src/a.ts", textOfLines 30)] |}.

(** Scenario C: a staged file +5/-3 and an unstaged file +10/-2. *)
Definition repoC : Repo :=
  {| working := numstat "10" "2" "b.py";
     staged := numstat "5" "3" "a.ts";
     listing := [{| sf_path := "a.ts"; index := "A"; working_dir := " " |};
                 {| sf_path := "b.py"; index := " "; working_dir := "M" |}];
     objects := []; history := [];
     disk := [("/w/a.ts", textOfLines 5); ("/w/b.py", textOfLines 20)] |}.

(** Scenario D: one untracked file whose text has 150 lines. *)
Definition repoD : Repo :=
  {| working := ""; staged := "";
     listing := [{| sf_path := "new.txt"; index := "?"; working_dir := "?" |}];
     objects := []; history := [];
     disk := [("/w/new.txt", textOfLines 150)] |}.

(** Scenario E: a file deleted from disk, present in HEAD with 42 lines. *)
Definition repoE : Repo :=
  {| working := numstat "0" "41" "old.txt";
     staged := "";
     listing := [{| sf_path := "old.txt"; index := " "; working_dir := "D" |}];
     objects := [("HEAD:old.txt", textOfLines 42)];
     history := [("old.txt", ["c0ffee"])];
     disk := [] |}.

(** A text of [n] lines, each ended by a newline character. *)
Definition terminatedLines (n : nat) : string := textOfLines n ++ nl.

(** Scenario D with a file of 150 lines, each ended by a newline. *)
Definition repoDterminated : Repo :=
  {| working := ""; staged := "";
     listing := [{| sf_path := "new.txt"; index := "?"; working_dir := "?" |}];
     objects := []; history := [];
     disk := [("/w/new.txt", terminatedLines 150)] |}.


(** One unstaged file with as many lines added as deleted. *)
Definition repoBalanced : Repo :=
  {| working := numstat "3" "3" "f.txt";
     staged := "";
     listing := [{| sf_path := "f.txt"; index := " "; working_dir := "M" |}];
     objects := []; history := [];
     disk := [("/w/f.txt", textOfLines 4)] |}.

(** A diff text with a signed count, a binary file and a line without
    fields. *)
Definition repoSigned : Repo :=
  {| working := numstat "-5" "0" "f.txt";
     staged := numstat "-" "-" "logo.png" ++ "garbage" ++ nl;
     listing := []; objects := []; history := []; disk := [] |}.

(** A binary file and a text file unstaged, a line without fields in the
    staged diff. *)
Definition repoBinary : Repo :=
  {| working := numstat "-" "-" "logo.png" ++ numstat "3" "1" "a.ts";
     staged := "garbage" ++ nl;
     listing := [{| sf_path := "logo.png"; index := " "; working_dir := "M" |};
                 {| sf_path := "a.ts"; index := " "; working_dir := "M" |}];
     objects := []; history := [];
     disk := [("/w/a.ts", textOfLines 9)] |}.

(** The output of git for a binary file and a text file unstaged and a
    text file staged. *)
Definition repoNumstat : Repo :=
  {| working := numstat "-" "-" "logo.png" ++ numstat "3" "1" "a.ts";
     staged := numstat "0" "12" "b.ts";
     listing := [{| sf_path := "logo.png"; index := " "; working_dir := "M" |};
                 {| sf_path := "a.ts"; index := " "; working_dir := "M" |};
                 {| sf_path := "b.ts"; index := "M"; working_dir := " " |}];
     objects := []; history := [];
     disk := [("/w/a.ts", textOfLines 9); ("/w/b.ts", textOfLines 20)] |}.

(** Three unstaged files, two of them with the same net. *)
Definition repoTies : Repo :=
  {| working := numstat "1" "0" "a" ++ numstat "4" "1" "b" ++ numstat "2" "1" "c";
     staged := "";
     listing := [{| sf_path := "u"; index := "?"; working_dir := "?" |}];
     objects := []; history := [];
     disk := [("/w/u", textOfLines 1)] |}.

(** A host whose git commands fail. *)
Definition brokenGit : SimpleGit :=
  {| checkIsRepo := Ok true;
     diff := fun _ => Throw (HostError "spawn git ENOENT");
     git_status := Throw (HostError "spawn git ENOENT");
     show := fun _ => Throw (HostError "spawn git ENOENT");
     log := fun _ => Throw (HostError "spawn git ENOENT") |}.

Definition envBroken : Env :=
  {| fsPath := Some "/w";
     path_join := posix_join;
     path_basename := posix_basename;
     existsSync := fun _ => false;
     readFileSync := fun _ => Throw (HostError "ENOENT");
     simpleGit := fun _ => Ok brokenGit |}.

Definition envNoWorkspace : Env :=
  {| fsPath := None;
     path_join := posix_join;
     path_basename := posix_basename;
     existsSync := fun _ => false;
     readFileSync := fun _ => Throw (HostError "ENOENT");
     simpleGit := fun _ => Throw (HostError "no directory") |}.

Definition notARepo : SimpleGit :=
  {| checkIsRepo := Ok false;
     diff := fun _ => Throw (HostError "fatal: not a git repository");
     git_status := Throw (HostError "fatal: not a git repository");
     show := fun _ => Throw (HostError "fatal: not a git repository");
     log := fun _ => Throw (HostError "fatal: not a git repository") |}.

Definition envNoRepo : Env :=
  {| fsPath := Some "/w";
     path_join := posix_join;
     path_basename := posix_basename;
     existsSync := fun _ => false;
     readFileSync := fun _ => Throw (HostError "ENOENT");
     simpleGit := fun _ => Ok notARepo |}.

Definition blankItem : StatusBarItem := {| text := ""; tooltip := "" |}.

(** The result of a pass on a host where it resolves to a record. *)
Definition passOf (env : Env) : LineStats :=
  match getLineStats env with
  | Ok (Some stats) => stats
  | _ => errorStats NO_REPO
  end.

Definition statsTies : LineStats := Eval vm_compute in passOf (env_of repoTies).
Definition statsB : LineStats := Eval vm_compute in passOf (env_of repoB).
Definition statsC : LineStats := Eval vm_compute in passOf (env_of repoC).
Definition statsBalanced : LineStats :=
  Eval vm_compute in passOf (env_of repoBalanced).
Definition statsClean : LineStats := Eval vm_compute in passOf (env_of cleanRepo).
Definition statsD : LineStats := Eval vm_compute in passOf (env_of repoD).
Definition statsSigned : LineStats :=
  Eval vm_compute in passOf (env_of repoSigned).
Definition statsBinary : LineStats :=
  Eval vm_compute in passOf (env_of repoBinary).
Definition statsE : LineStats := Eval vm_compute in passOf (env_of repoE).
Definition statsNumstat : LineStats :=
  Eval vm_compute in passOf (env_of repoNumstat).
Definition statsDterminated : LineStats :=
  Eval vm_compute in passOf (env_of repoDterminated).

End Scenario.

(** ** A host whose git answers from a history of commits

    [git show rev:path] gives the text the path has in the tree of the
    commit, and fails when the tree has no such path; [git log -- path]
    lists the commits that changed the path, newest first, the commit
    that removed it included.  The history is linear; renames are not
    followed. *)

Module GitHistory.

Record Commit : Type := {
  commitHash : string;
  tree : list (string * string)              (* path -> content *)
}.

Definition fileAt (c : Commit) (p : string) : option string :=
  Scenario.lookup p (tree c).

Definition sameFile (a b : option string) : bool :=
  match a, b with
  | Some x, Some y => String.eqb x y
  | None, None => true
  | _, _ => false
  end.

(** The commits that changed the path, newest first.  [commits] lists the
    history newest first: the parent of a commit is the next one, and the
    last one has no parent. *)
Fixpoint touching (p : string) (commits : list Commit) : list Commit :=
  match commits with
  | [] => []
  | c :: older =>
      let before :=
        match older with
        | parent :: _ => fileAt parent p
        | [] => None
        end in
      if sameFile (fileAt c p) before then touching p older
      else c :: touching p older
  end.

(** The most recent commit whose tree contains the path. *)
Definition lastContaining (p : string) (commits : list Commit)
  : option Commit :=
  find (fun c => match fileAt c p with Some _ => true | None => false end)
       commits.

(** [rev:path] *)
Fixpoint splitRev (object : string) : string * string :=
  match object with
  | EmptyString => (EmptyString, EmptyString)
  | String c rest =>
      if Ascii.eqb c ":" then (EmptyString, rest)
      else let (rev, p) := splitRev rest in (String c rev, p)
  end.

Definition resolveRev (commits : list Commit) (rev : string)
  : option Commit :=
  if String.eqb rev "HEAD" then hd_error commits
  else find (fun c => String.eqb (commitHash c) rev) commits.

Definition showObject (commits : list Commit) (object : string)
  : result string :=
  let (rev, p) := splitRev object in
  match resolveRev commits rev with
  | Some c =>
      match fileAt c p with
      | Some content => Ok content
      | None => Throw (HostError "fatal: path does not exist in the commit")
      end
  | None => Throw (HostError "fatal: invalid object name")
  end.

(** The diffs, the listing and the disk are those of [r]; [git show] and
    [git log] answer from [commits]. *)
Definition git_of (commits : list Commit) (r : Scenario.Repo) : SimpleGit :=
  {| checkIsRepo := Ok true;
     diff := diff (Scenario.git_of r);
     git_status := git_status (Scenario.git_of r);
     show := fun args =>
       match args with
       | [object] => showObject commits object
       | _ => Throw (HostError "usage: git show")
       end;
     log := fun args =>
       match args with
       | [_; _; _; p] =>
           Ok {| all := map (fun c => {| hash := commitHash c |})
                            (touching p commits) |}
       | _ => Throw (HostError "usage: git log")
       end |}.

Definition env_of (commits : list Commit) (r : Scenario.Repo) : Env :=
  {| fsPath := Some "/w";
     path_join := Scenario.posix_join;
     path_basename := Scenario.posix_basename;
     existsSync := existsSync (Scenario.env_of r);
     readFileSync := readFileSync (Scenario.env_of r);
     simpleGit := fun _ => Ok (git_of commits r) |}.

(** Commit names are distinct, and none is [HEAD] or has a colon. *)
Definition validHash (h : string) : bool :=
  negb (String.eqb h "HEAD") && (countChar ":" h =? 0)%nat.

Fixpoint distinct (l : list string) : bool :=
  match l with
  | [] => true
  | h :: t => negb (existsb (String.eqb h) t) && distinct t
  end.

Definition wellFormed (commits : list Commit) : bool :=
  forallb validHash (map commitHash commits)
  && distinct (map commitHash commits).

(** The path is in no tree of HEAD. *)
Definition absentFromHEAD (p : string) (commits : list Commit) : bool :=
  match commits with
  | c :: _ => match fileAt c p with Some _ => false | None => true end
  | [] => true
  end.

(** A file of seven lines committed in [a1] and removed in [b2], put back
    in the index and deleted from the working tree: the staged diff adds
    it, the working diff deletes it, and neither HEAD nor the disk has
    it. *)
Definition removedFile : list Commit :=
  [{| commitHash := "b2";
      tree := [("README.md", Scenario.textOfLines 3)] |};
   {| commitHash := "a1";
      tree := [("README.md", Scenario.textOfLines 3);
               ("old.txt", Scenario.terminatedLines 7)] |}].

Definition removedRepo : Scenario.Repo :=
  {| Scenario.working := Scenario.numstat "0" "7" "old.txt";
     Scenario.staged := Scenario.numstat "7" "0" "old.txt";
     Scenario.listing :=
       [{| sf_path := "old.txt"; index := "A"; working_dir := "D" |}];
     Scenario.objects := []; Scenario.history := [];
     Scenario.disk := [("/w/README.md", Scenario.textOfLines 3)] |}.

Definition statsRemoved : LineStats :=
  Eval vm_compute in Scenario.passOf (env_of removedFile removedRepo).

End GitHistory.

(** * Properties *)

(** ** Primitives on concrete inputs *)

Example parseInt_12 : parseInt (Some "12") = Some 12.
Proof. reflexivity. Qed.
Example parseInt_dash : parseInt (Some "-") = None.
Proof. reflexivity. Qed.
Example parseInt_hex : parseInt (Some " 0x1F") = Some 31.
Proof. reflexivity. Qed.
Example parseInt_m5 : parseInt (Some "-5abc") = Some (-5).
Proof. reflexivity. Qed.
Example parseInt_undef : parseInt None = None.
Proof. reflexivity. Qed.
Example split_ex : split TAB ("1" ++ String TAB "2" ++ String TAB "a b") = ["1"; "2"; "a b"].
Proof. reflexivity. Qed.
Example split_empty : split LF "" = [""].
Proof. reflexivity. Qed.
Example trim_ex : trim ("  a b " ++ nl) = "a b".
Proof. reflexivity. Qed.
Example toString_ex : (toString 0, toString 15, toString (-3)) = ("0", "15", "-3").
Proof. reflexivity. Qed.

(** ** The promise combinators *)

Lemma bind_Ok {A B : Type} (m : result A) (k : A -> result B) (b : B) :
  bind m k = Ok b -> exists a, m = Ok a /\ k a = Ok b.
Proof.
  destruct m as [a | e]; simpl; intros H; [eauto | discriminate].
Qed.

Lemma for_of_total {A S : Type} (body : S -> A -> result S) (xs : list A) :
  (forall acc x, exists acc', body acc x = Ok acc') ->
  forall acc, exists acc', for_of body xs acc = Ok acc'.
Proof.
  intros Hbody. induction xs as [| x xs IH]; intros acc; simpl.
  - eauto.
  - destruct (Hbody acc x) as [acc1 ->]. simpl. apply IH.
Qed.

(** A property kept by every iteration holds when the loop ends. *)
Lemma for_of_invariant {A S : Type} (P : S -> Prop)
    (body : S -> A -> result S) (xs : list A) :
  (forall acc x acc', P acc -> body acc x = Ok acc' -> P acc') ->
  forall acc acc', P acc -> for_of body xs acc = Ok acc' -> P acc'.
Proof.
  intros Hstep. induction xs as [| x xs IH]; simpl; intros acc acc' HP H.
  - injection H as <-. exact HP.
  - apply bind_Ok in H as (acc1 & H1 & H2). eauto.
Qed.

(** ** The resolver always resolves *)

Lemma countLines_nonneg (content : string) : 0 <= countLines content.
Proof. unfold countLines. lia. Qed.

(** Case analysis on the innermost scrutinee of the goal. *)
Ltac break_match :=
  match goal with
  | |- context [match ?x with _ => _ end] =>
      lazymatch x with
      | context [match _ with _ => _ end] => fail
      | _ => destruct x eqn:?
      end
  end.

Lemma getDeletedFileLinesFromGit_total (env : Env) (filePath : option string) :
  exists n, getDeletedFileLinesFromGit env filePath = Ok n /\ 0 <= n.
Proof.
  unfold getDeletedFileLinesFromGit, ifNoRoot, try_catch, bind.
  repeat break_match; eexists; (split; [reflexivity |]);
    try apply countLines_nonneg; lia.
Qed.

Lemma getFileTotalLines_total (env : Env) (filePath : option string) :
  exists n, getFileTotalLines env filePath = Ok n /\ 0 <= n.
Proof.
  destruct (getDeletedFileLinesFromGit_total env filePath) as (m & Hm & Hm0).
  unfold getFileTotalLines, ifNoRoot, try_catch, bind, join_path.
  rewrite Hm.
  repeat break_match; eexists; (split; [reflexivity |]);
    try apply countLines_nonneg; try lia;
    repeat match goal with H : Ok _ = Ok _ |- _ => injection H as <- end;
    try discriminate; try apply countLines_nonneg; lia.
Qed.

(** ** Shape of a pass that resolves *)

(** What [collectAreas] went through when it resolved. *)
Lemma collectAreas_inv (env : Env) (git : SimpleGit) (changes staged : Area) :
  collectAreas env git = Ok (changes, staged) ->
  exists workingDiff status changes0 stagedDiff,
    diff git ["--numstat"] = Ok workingDiff /\
    git_status git = Ok status /\
    for_of (diffLine env working_dir status)
           (split LF (trim workingDiff)) emptyArea = Ok changes0 /\
    for_of (untrackedFile env)
           (filter (fun f => String.eqb (working_dir f) "?") (files status))
           changes0 = Ok changes /\
    diff git ["--cached"; "--numstat"] = Ok stagedDiff /\
    for_of (diffLine env index status)
           (split LF (trim stagedDiff)) emptyArea = Ok staged.
Proof.
  unfold collectAreas. intros H.
  apply bind_Ok in H as (workingDiff & Hw & H).
  apply bind_Ok in H as (status & Hs & H).
  apply bind_Ok in H as (changes0 & Hc0 & H).
  apply bind_Ok in H as (changes1 & Hc1 & H).
  apply bind_Ok in H as (stagedDiff & Hd & H).
  apply bind_Ok in H as (staged1 & Hs1 & H).
  injection H as <- <-.
  exists workingDiff, status, changes0, stagedDiff. auto 10.
Qed.

(** The three ways [getLineStats] resolves to a [LineStats]. *)
Lemma getLineStats_inv (env : Env) (stats : LineStats) :
  getLineStats env = Ok (Some stats) ->
  stats = errorStats NO_WORKSPACE \/
  stats = errorStats NO_REPO \/
  exists rootPath git changes staged,
    fsPath env = Some rootPath /\ truthy rootPath = true /\
    simpleGit env rootPath = Ok git /\
    checkIsRepo git = Ok true /\
    collectAreas env git = Ok (changes, staged) /\
    stats = statsOf changes staged.
Proof.
  unfold getLineStats, try_catch.
  destruct (getLineStats_try env) as [r | e] eqn:Htry; [| discriminate].
  intros H. injection H as ->.
  unfold getLineStats_try, ifNoRoot in Htry.
  destruct (fsPath env) as [rootPath |] eqn:Hroot;
    [| injection Htry as <-; auto].
  destruct (truthy rootPath) eqn:Htruthy; [| injection Htry as <-; auto].
  apply bind_Ok in Htry as (git & Hgit & Htry).
  apply bind_Ok in Htry as (isRepo & Hrepo & Htry).
  destruct isRepo; simpl in Htry; [| injection Htry as <-; auto].
  apply bind_Ok in Htry as ([changes staged] & Hareas & Htry).
  injection Htry as <-.
  right; right. exists rootPath, git, changes, staged. auto 10.
Qed.

(** A pass without error tag went through [collectAreas]. *)
Lemma getLineStats_success (env : Env) (stats : LineStats) :
  getLineStats env = Ok (Some stats) -> error stats = None ->
  exists rootPath git changes staged,
    fsPath env = Some rootPath /\ truthy rootPath = true /\
    simpleGit env rootPath = Ok git /\
    checkIsRepo git = Ok true /\
    collectAreas env git = Ok (changes, staged) /\
    stats = statsOf changes staged.
Proof.
  intros H Herr.
  destruct (getLineStats_inv env stats H) as [-> | [-> | Hex]];
    [discriminate | discriminate | exact Hex].
Qed.

(** ** Sums *)

Lemma sumOf_app (f : FileChange -> Z) (l1 l2 : list FileChange) :
  sumOf f (l1 ++ l2) = sumOf f l1 + sumOf f l2.
Proof.
  induction l1 as [| x l1 IH]; simpl; [reflexivity | rewrite IH; lia].
Qed.

Lemma sumOf_sort_insert (f : FileChange -> Z) (a : FileChange) (l : list FileChange) :
  sumOf f (sort_insert byNetLinesDesc a l) = f a + sumOf f l.
Proof.
  induction l as [| b l IH]; simpl; [reflexivity |].
  destruct (byNetLinesDesc a b <=? 0); simpl; [reflexivity | rewrite IH; lia].
Qed.

Lemma sumOf_Array_sort (f : FileChange -> Z) (l : list FileChange) :
  sumOf f (Array_sort byNetLinesDesc l) = sumOf f l.
Proof.
  induction l as [| a l IH]; simpl; [reflexivity |].
  rewrite sumOf_sort_insert, IH. reflexivity.
Qed.

Lemma sumsAgree_empty : sumsAgree emptyArea.
Proof. split; reflexivity. Qed.

Lemma diffLine_sumsAgree env slot status acc line acc' :
  sumsAgree acc -> diffLine env slot status acc line = Ok acc' -> sumsAgree acc'.
Proof.
  intros [Ha Hd]. unfold diffLine.
  destruct (truthy (trim line)); [| intros H; injection H as <-; split; assumption].
  intros H. apply bind_Ok in H as (total & _ & H). injection H as <-.
  split; simpl; rewrite sumOf_app; simpl; lia.
Qed.

Lemma untrackedFile_sumsAgree env acc file acc' :
  sumsAgree acc -> untrackedFile env acc file = Ok acc' -> sumsAgree acc'.
Proof.
  intros [Ha Hd]. unfold untrackedFile.
  intros H. apply bind_Ok in H as (total & _ & H). injection H as <-.
  split; simpl; rewrite sumOf_app; simpl; lia.
Qed.

Lemma collectAreas_sumsAgree env git changes staged :
  collectAreas env git = Ok (changes, staged) ->
  sumsAgree changes /\ sumsAgree staged.
Proof.
  intros H.
  apply collectAreas_inv in H
    as (workingDiff & status & changes0 & stagedDiff & _ & _ & H0 & H1 & _ & H2).
  split.
  - eapply for_of_invariant; [| | exact H1].
    + intros; eapply untrackedFile_sumsAgree; eassumption.
    + eapply for_of_invariant; [| exact sumsAgree_empty | exact H0].
      intros; eapply diffLine_sumsAgree; eassumption.
  - eapply for_of_invariant; [| exact sumsAgree_empty | exact H2].
    intros; eapply diffLine_sumsAgree; eassumption.
Qed.

(** What one untracked file contributes: its resolved total goes to the
    running sum of added lines and into the record pushed. *)
Lemma untrackedFile_spec env acc file :
  exists total,
    getFileTotalLines env (Some (sf_path file)) = Ok total /\
    untrackedFile env acc file =
      Ok {| areaLinesAdded := areaLinesAdded acc + total;
            areaLinesDeleted := areaLinesDeleted acc;
            areaFiles := areaFiles acc ++
              [{| path := Some (sf_path file);
                  linesAdded := total;
                  linesDeleted := 0;
                  netLines := total;
                  status := New;
                  totalLines := total |}] |}.
Proof.
  destruct (getFileTotalLines_total env (Some (sf_path file))) as (total & Ht & _).
  exists total. split; [exact Ht |].
  unfold untrackedFile. rewrite Ht. reflexivity.
Qed.

(** ** The sort *)

Lemma sort_insert_perm {A : Type} (cmp : A -> A -> Z) (a : A) (l : list A) :
  Permutation (a :: l) (sort_insert cmp a l).
Proof.
  induction l as [| b l IH]; simpl; [apply Permutation_refl |].
  destruct (cmp a b <=? 0); [apply Permutation_refl |].
  eapply perm_trans; [apply perm_swap | apply perm_skip, IH].
Qed.

Lemma Array_sort_perm {A : Type} (cmp : A -> A -> Z) (l : list A) :
  Permutation l (Array_sort cmp l).
Proof.
  induction l as [| a l IH]; simpl; [apply perm_nil |].
  eapply perm_trans; [apply perm_skip, IH | apply sort_insert_perm].
Qed.

Lemma sort_insert_sorted (a : FileChange) (l : list FileChange) :
  Sorted netGe l -> Sorted netGe (sort_insert byNetLinesDesc a l).
Proof.
  induction l as [| b l IH]; simpl; intros Hs.
  - repeat constructor.
  - destruct (Z.leb_spec (byNetLinesDesc a b) 0) as [Hle | Hgt].
    + constructor; [exact Hs |]. constructor.
      unfold netGe, byNetLinesDesc in *. lia.
    + inversion Hs as [| ? ? Hs' Hhd]; subst.
      constructor; [apply IH, Hs' |].
      destruct l as [| c l]; simpl.
      * constructor. unfold netGe, byNetLinesDesc in *. lia.
      * destruct (byNetLinesDesc a c <=? 0); constructor.
        -- unfold netGe, byNetLinesDesc in *. lia.
        -- inversion Hhd; assumption.
Qed.

Lemma Array_sort_sorted (l : list FileChange) :
  Sorted netGe (Array_sort byNetLinesDesc l).
Proof.
  induction l as [| a l IH]; simpl; [constructor | apply sort_insert_sorted, IH].
Qed.

Lemma Sorted_adjacentDesc (l : list FileChange) :
  Sorted netGe l -> adjacentDesc l.
Proof.
  intros Hs. induction Hs as [| a l Hs IH Hhd]; intros i x y Hx Hy.
  - destruct i; discriminate.
  - destruct i as [| i]; simpl in Hx, Hy.
    + injection Hx as <-. destruct l as [| b l]; [discriminate |].
      injection Hy as <-. inversion Hhd; assumption.
    + eapply IH; eassumption.
Qed.

(** Inserting a file leaves the files of every net in their order and
    puts the new file in front of those of its own net. *)
Lemma withNet_sort_insert (n : Z) (a : FileChange) (l : list FileChange) :
  withNet n (sort_insert byNetLinesDesc a l) = withNet n (a :: l).
Proof.
  induction l as [| b l IH]; simpl; [reflexivity |].
  destruct (Z.leb_spec (byNetLinesDesc a b) 0) as [Hle | Hgt]; [reflexivity |].
  simpl in *. rewrite IH.
  destruct (Z.eqb_spec (netLines a) n) as [Ha | Ha];
    destruct (Z.eqb_spec (netLines b) n) as [Hb | Hb]; try reflexivity.
  unfold byNetLinesDesc in Hgt. lia.
Qed.

Lemma withNet_Array_sort (n : Z) (l : list FileChange) :
  withNet n (Array_sort byNetLinesDesc l) = withNet n l.
Proof.
  induction l as [| a l IH]; simpl; [reflexivity |].
  rewrite withNet_sort_insert. simpl. rewrite IH. reflexivity.
Qed.

(** The model of the sort does not depend on the algorithm: a sequence
    in descending order that keeps, for every net, the files of that net
    in their order is determined by these two properties. *)
Lemma netGe_trans (a b c : FileChange) : netGe a b -> netGe b c -> netGe a c.
Proof. unfold netGe. lia. Qed.

Lemma Sorted_netGe_head (a : FileChange) (l : list FileChange) :
  Sorted netGe (a :: l) -> forall x, In x (a :: l) -> netLines a >= netLines x.
Proof.
  intros Hs x Hx.
  apply Sorted_StronglySorted in Hs; [| exact netGe_trans].
  inversion Hs as [| ? ? _ Hall]; subst.
  destruct Hx as [<- | Hx]; [lia |].
  rewrite Forall_forall in Hall. apply Hall, Hx.
Qed.

Lemma withNet_head (a : FileChange) (l : list FileChange) :
  withNet (netLines a) (a :: l) = a :: withNet (netLines a) l.
Proof. simpl. rewrite Z.eqb_refl. reflexivity. Qed.

Lemma sorted_withNet_unique (l1 : list FileChange) :
  forall l2,
    Sorted netGe l1 -> Sorted netGe l2 ->
    (forall n, withNet n l1 = withNet n l2) -> l1 = l2.
Proof.
  induction l1 as [| a l1 IH]; intros [| b l2] Hs1 Hs2 H.
  - reflexivity.
  - specialize (H (netLines b)). rewrite withNet_head in H. discriminate.
  - specialize (H (netLines a)). rewrite withNet_head in H. discriminate.
  - assert (Hab : netLines a = netLines b).
    { assert (Ha : In a (b :: l2)).
      { eapply proj1. apply (filter_In (fun f => netLines f =? netLines a)).
        fold (withNet (netLines a) (b :: l2)).
        rewrite <- H, withNet_head. left. reflexivity. }
      assert (Hb : In b (a :: l1)).
      { eapply proj1. apply (filter_In (fun f => netLines f =? netLines b)).
        fold (withNet (netLines b) (a :: l1)).
        rewrite H, withNet_head. left. reflexivity. }
      pose proof (Sorted_netGe_head _ _ Hs1 b Hb).
      pose proof (Sorted_netGe_head _ _ Hs2 a Ha).
      lia. }
    assert (a = b).
    { pose proof (H (netLines a)) as Ha.
      rewrite withNet_head in Ha. rewrite Hab in Ha at 2.
      rewrite withNet_head in Ha. injection Ha as Ha _. exact Ha. }
    subst b. f_equal.
    apply IH.
    + inversion Hs1; assumption.
    + inversion Hs2; assumption.
    + intros n. specialize (H n). simpl in H.
      destruct (netLines a =? n); [injection H as H |]; exact H.
Qed.

Lemma Array_sort_unique (l l' : list FileChange) :
  Sorted netGe l' -> (forall n, withNet n l' = withNet n l) ->
  l' = Array_sort byNetLinesDesc l.
Proof.
  intros Hs H. apply sorted_withNet_unique.
  - exact Hs.
  - apply Array_sort_sorted.
  - intros n. rewrite withNet_Array_sort. apply H.
Qed.

(** The sums of a record a pass resolved to agree with its files. *)
Lemma sums_agree_of_pass (env : Env) (stats : LineStats) :
  getLineStats env = Ok (Some stats) ->
  sumsAgree {| areaLinesAdded := changesLinesAdded stats;
               areaLinesDeleted := changesLinesDeleted stats;
               areaFiles := changesFiles stats |} /\
  sumsAgree {| areaLinesAdded := stagedLinesAdded stats;
               areaLinesDeleted := stagedLinesDeleted stats;
               areaFiles := stagedFiles stats |}.
Proof.
  intros H.
  destruct (getLineStats_inv env stats H)
    as [-> | [-> | (root & git & changes & staged & _ & _ & _ & _ & Hc & ->)]].
  - repeat split.
  - repeat split.
  - apply collectAreas_sumsAgree in Hc as [[Hca Hcd] [Hsa Hsd]].
    unfold sumsAgree. simpl. rewrite !sumOf_Array_sort. auto.
Qed.

(** ** The statistics pass *)

(** C1. For every [LineStats] a pass resolves to, [changesLinesAdded] is
    the sum of [linesAdded] over [changesFiles], [changesLinesDeleted]
    the sum of [linesDeleted] over [changesFiles], and the same two
    identities hold for the staged area.  Untracked files take part in
    them: the resolved total of an untracked file is added to the running
    sum of the changes area and is the [linesAdded] of the record pushed
    in the same iteration. *)
Theorem sums_match_files (env : Env) (stats : LineStats) :
  getLineStats env = Ok (Some stats) ->
  (changesLinesAdded stats = sumOf linesAdded (changesFiles stats) /\
   changesLinesDeleted stats = sumOf linesDeleted (changesFiles stats) /\
   stagedLinesAdded stats = sumOf linesAdded (stagedFiles stats) /\
   stagedLinesDeleted stats = sumOf linesDeleted (stagedFiles stats)) /\
  (forall acc file, exists total acc',
      getFileTotalLines env (Some (sf_path file)) = Ok total /\
      untrackedFile env acc file = Ok acc' /\
      areaLinesAdded acc' = areaLinesAdded acc + total /\
      areaLinesDeleted acc' = areaLinesDeleted acc /\
      areaFiles acc' = (areaFiles acc ++
        [{| path := Some (sf_path file); linesAdded := total;
            linesDeleted := 0; netLines := total; status := New;
            totalLines := total |}])%list).
Proof.
  intros H. split.
  - destruct (sums_agree_of_pass env stats H) as [[Hca Hcd] [Hsa Hsd]].
    simpl in *. auto.
  - intros acc file.
    destruct (untrackedFile_spec env acc file) as (total & Ht & Hu).
    exists total. eexists. split; [exact Ht |]. split; [exact Hu |].
    simpl. auto.
Qed.

Lemma sums_match_files_witness :
  getLineStats (Scenario.env_of Scenario.repoTies) = Ok (Some Scenario.statsTies) /\
  changesLinesAdded Scenario.statsTies = 8 /\
  sumOf linesAdded (changesFiles Scenario.statsTies) = 8.
Proof.
  assert (H : getLineStats (Scenario.env_of Scenario.repoTies)
              = Ok (Some Scenario.statsTies)) by (vm_compute; reflexivity).
  split; [exact H |].
  destruct (sums_match_files _ _ H) as [(Ha & _) _].
  split; [reflexivity |]. rewrite <- Ha. reflexivity.
Defined.

(** C2. For every [LineStats] a pass resolves to, [changesFiles] and
    [stagedFiles] are in descending order of [netLines] (every adjacent
    pair has [netLines[i] >= netLines[i+1]]); and when the pass carries no
    error tag, each of them is a rearrangement of the records in the
    order they were constructed in which, for every value of [netLines],
    the files with that value keep their order of construction. *)
Theorem files_sorted_stable (env : Env) (stats : LineStats) :
  getLineStats env = Ok (Some stats) ->
  adjacentDesc (changesFiles stats) /\
  adjacentDesc (stagedFiles stats) /\
  (error stats = None ->
   exists rootPath git changes staged,
     fsPath env = Some rootPath /\
     simpleGit env rootPath = Ok git /\
     collectAreas env git = Ok (changes, staged) /\
     Permutation (areaFiles changes) (changesFiles stats) /\
     Permutation (areaFiles staged) (stagedFiles stats) /\
     forall n,
       withNet n (changesFiles stats) = withNet n (areaFiles changes) /\
       withNet n (stagedFiles stats) = withNet n (areaFiles staged)).
Proof.
  intros H.
  destruct (getLineStats_inv env stats H)
    as [-> | [-> | (root & git & changes & staged & Hr & _ & Hg & _ & Hc & ->)]].
  - repeat split; try (intros [| ?] ? ? ?; discriminate). discriminate.
  - repeat split; try (intros [| ?] ? ? ?; discriminate). discriminate.
  - split; [apply Sorted_adjacentDesc, Array_sort_sorted |].
    split; [apply Sorted_adjacentDesc, Array_sort_sorted |].
    intros _. exists root, git, changes, staged.
    split; [exact Hr |]. split; [exact Hg |]. split; [exact Hc |].
    split; [apply Array_sort_perm |]. split; [apply Array_sort_perm |].
    intros n. split; apply withNet_Array_sort.
Qed.

Lemma files_sorted_stable_witness :
  getLineStats (Scenario.env_of Scenario.repoTies) = Ok (Some Scenario.statsTies) /\
  map path (changesFiles Scenario.statsTies)
    = [Some "b"; Some "a"; Some "c"; Some "u"] /\
  map netLines (changesFiles Scenario.statsTies) = [3; 1; 1; 1] /\
  adjacentDesc (changesFiles Scenario.statsTies).
Proof.
  assert (H : getLineStats (Scenario.env_of Scenario.repoTies)
              = Ok (Some Scenario.statsTies)) by (vm_compute; reflexivity).
  split; [exact H |]. split; [reflexivity |]. split; [reflexivity |].
  exact (proj1 (files_sorted_stable _ _ H)).
Defined.

(** ** The display *)

Lemma append_assoc (s1 s2 s3 : string) : (s1 ++ s2) ++ s3 = s1 ++ (s2 ++ s3).
Proof.
  induction s1 as [| c s1 IH]; simpl; [reflexivity | rewrite IH; reflexivity].
Qed.

(** The callback always leaves the summary in [text], whether or not the
    tooltip could be built. *)
Lemma onStats_text (env : Env) (item : StatusBarItem) (stats : LineStats) :
  error stats = None ->
  text (fst (onStats env (Some stats) item)) = summaryText stats.
Proof.
  intros Herr. unfold onStats. rewrite Herr.
  destruct (tooltipText env stats); reflexivity.
Qed.

(** The item after a pass that resolved and whose tooltip was built. *)
Lemma updateStatusBar_success (env : Env) (item : StatusBarItem)
    (stats : LineStats) (tip : string) :
  getLineStats env = Ok (Some stats) -> error stats = None ->
  tooltipText env stats = Ok tip ->
  updateStatusBar env item = {| text := summaryText stats; tooltip := tip |}.
Proof.
  intros H Herr Htip. unfold updateStatusBar, onStats.
  rewrite H, Herr, Htip. reflexivity.
Qed.

(** C3. For every pass without error in which the staged net and the
    changes net are both nonzero, the summary is the icon token followed
    by [Staged:{±net} (+{add}-{del})], then [, Changes:{±net} (+{add}-{del})],
    then [, Total:{±net} (+{add}-{del})] over the sums of both areas, and
    this is the string the callback writes to the status text.  On a
    staged file +5/-3 and an unstaged file +10/-2 the status text is the
    icon token and [Staged:+2 (+5-3), Changes:+8 (+10-2), Total:+10 (+15-5)]. *)
Theorem summary_both_areas (env : Env) (item : StatusBarItem) (stats : LineStats) :
  getLineStats env = Ok (Some stats) -> error stats = None ->
  stagedNet stats <> 0 -> changesNet stats <> 0 ->
  (summaryText stats =
     icon ++ "Staged:"
       ++ delta (stagedNet stats) (stagedLinesAdded stats) (stagedLinesDeleted stats)
       ++ ", Changes:"
       ++ delta (changesNet stats) (changesLinesAdded stats) (changesLinesDeleted stats)
       ++ ", Total:"
       ++ delta (changesNet stats + stagedNet stats)
            (stagedLinesAdded stats + changesLinesAdded stats)
            (stagedLinesDeleted stats + changesLinesDeleted stats) /\
   text (fst (onStats env (Some stats) item)) = summaryText stats) /\
  text (updateStatusBar (Scenario.env_of Scenario.repoC) Scenario.blankItem)
    = icon ++ "Staged:+2 (+5-3), Changes:+8 (+10-2), Total:+10 (+15-5)".
Proof.
  intros _ Herr Hs Hc. split; [split |].
  - unfold summaryText, delta, icon, stagedNet, changesNet in *.
    destruct (Z.eqb_spec (stagedLinesAdded stats - stagedLinesDeleted stats) 0)
      as [E | _]; [contradiction |].
    destruct (Z.eqb_spec (changesLinesAdded stats - changesLinesDeleted stats) 0)
      as [E | _]; [contradiction |].
    cbn [negb andb orb]. rewrite !append_assoc. reflexivity.
  - apply onStats_text, Herr.
  - vm_compute. reflexivity.
Qed.

Lemma summary_both_areas_witness :
  getLineStats (Scenario.env_of Scenario.repoC) = Ok (Some Scenario.statsC) /\
  (stagedNet Scenario.statsC = 2 /\ changesNet Scenario.statsC = 8) /\
  summaryText Scenario.statsC
    = icon ++ "Staged:+2 (+5-3), Changes:+8 (+10-2), Total:+10 (+15-5)".
Proof.
  assert (H : getLineStats (Scenario.env_of Scenario.repoC)
              = Ok (Some Scenario.statsC)) by (vm_compute; reflexivity).
  assert (Hs : stagedNet Scenario.statsC <> 0) by (vm_compute; discriminate).
  assert (Hc : changesNet Scenario.statsC <> 0) by (vm_compute; discriminate).
  split; [exact H |]. split; [split; reflexivity |].
  destruct (summary_both_areas _ Scenario.blankItem _ H eq_refl Hs Hc)
    as [[Hsum _] _].
  rewrite Hsum. vm_compute. reflexivity.
Defined.

(** C4. For every pass without error in which exactly one area has a
    nonzero net, the summary is the icon token followed by
    [{±net} (+{added}-{deleted})] of that area, with no label and no
    total, and this is the string the callback writes to the status text.
    On one unstaged modified file +15/-5 and nothing staged the status
    text is the icon token and [+10 (+15-5)]. *)
Theorem summary_single_area (env : Env) (item : StatusBarItem) (stats : LineStats) :
  getLineStats env = Ok (Some stats) -> error stats = None ->
  (stagedNet stats <> 0 /\ changesNet stats = 0) \/
  (stagedNet stats = 0 /\ changesNet stats <> 0) ->
  (summaryText stats =
     icon ++ (if stagedNet stats =? 0
              then delta (changesNet stats)
                     (changesLinesAdded stats) (changesLinesDeleted stats)
              else delta (stagedNet stats)
                     (stagedLinesAdded stats) (stagedLinesDeleted stats)) /\
   text (fst (onStats env (Some stats) item)) = summaryText stats) /\
  text (updateStatusBar (Scenario.env_of Scenario.repoB) Scenario.blankItem)
    = icon ++ "+10 (+15-5)".
Proof.
  intros _ Herr Hone. split; [split |].
  - unfold summaryText, delta, icon, stagedNet, changesNet in *.
    destruct (Z.eqb_spec (stagedLinesAdded stats - stagedLinesDeleted stats) 0)
      as [Es | Es];
    destruct (Z.eqb_spec (changesLinesAdded stats - changesLinesDeleted stats) 0)
      as [Ec | Ec]; try (exfalso; lia); cbn [negb andb orb]; reflexivity.
  - apply onStats_text, Herr.
  - vm_compute. reflexivity.
Qed.

Lemma summary_single_area_witness :
  getLineStats (Scenario.env_of Scenario.repoB) = Ok (Some Scenario.statsB) /\
  (stagedNet Scenario.statsB = 0 /\ changesNet Scenario.statsB = 10) /\
  summaryText Scenario.statsB = icon ++ "+10 (+15-5)".
Proof.
  assert (H : getLineStats (Scenario.env_of Scenario.repoB)
              = Ok (Some Scenario.statsB)) by (vm_compute; reflexivity).
  assert (Hone : (stagedNet Scenario.statsB <> 0 /\ changesNet Scenario.statsB = 0) \/
                 (stagedNet Scenario.statsB = 0 /\ changesNet Scenario.statsB <> 0))
    by (right; split; [reflexivity | vm_compute; discriminate]).
  split; [exact H |]. split; [split; reflexivity |].
  destruct (summary_single_area _ Scenario.blankItem _ H eq_refl Hone)
    as [[Hsum _] _].
  rewrite Hsum. vm_compute. reflexivity.
Defined.

(** With both nets at zero the summary is the icon token and [Clean]. *)
Lemma summaryText_clean (stats : LineStats) :
  stagedNet stats = 0 -> changesNet stats = 0 ->
  summaryText stats = icon ++ "Clean".
Proof.
  unfold summaryText, stagedNet, changesNet. intros -> ->. reflexivity.
Qed.

(** The tooltip of a record without files and with sums at zero. *)
Lemma tooltipText_no_files (env : Env) (stats : LineStats) :
  changesFiles stats = [] -> stagedFiles stats = [] ->
  sumsAgree {| areaLinesAdded := changesLinesAdded stats;
               areaLinesDeleted := changesLinesDeleted stats;
               areaFiles := changesFiles stats |} ->
  sumsAgree {| areaLinesAdded := stagedLinesAdded stats;
               areaLinesDeleted := stagedLinesDeleted stats;
               areaFiles := stagedFiles stats |} ->
  tooltipText env stats = Ok cleanTooltip.
Proof.
  unfold sumsAgree, tooltipText. simpl.
  intros -> -> [-> ->] [-> ->]. reflexivity.
Qed.

(** C5, as stated, fails: a pass over one unstaged file with three lines
    added and three deleted has both nets at 0 and the summary [Clean],
    but its tooltip has a file row and headers that are not [+0 (+0-0)]. *)
Lemma clean_tooltip_counterexample :
  getLineStats (Scenario.env_of Scenario.repoBalanced)
    = Ok (Some Scenario.statsBalanced) /\
  error Scenario.statsBalanced = None /\
  stagedNet Scenario.statsBalanced = 0 /\
  changesNet Scenario.statsBalanced = 0 /\
  updateStatusBar (Scenario.env_of Scenario.repoBalanced) Scenario.blankItem
    = {| text := icon ++ "Clean";
         tooltip := "Staged: +0 (+0-0)" ++ nl ++ nl
                    ++ "Changes: +0 (+3-3)" ++ nl
                    ++ "  +0 (+3-3)=4 [Mod] f.txt" ++ nl ++ nl
                    ++ "Total: +0 (+3-3)" |} /\
  tooltip (updateStatusBar (Scenario.env_of Scenario.repoBalanced)
             Scenario.blankItem) <> cleanTooltip.
Proof.
  repeat split; try (vm_compute; reflexivity).
  vm_compute. discriminate.
Qed.

(** ** Error states *)

Lemma getLineStats_rejected (env : Env) (e : exn) :
  getLineStats_try env = Throw e -> getLineStats env = Ok None.
Proof. unfold getLineStats. intros ->. reflexivity. Qed.

(** The loops of the pass never reject. *)
Lemma diffLine_total env slot status acc line :
  exists acc', diffLine env slot status acc line = Ok acc'.
Proof.
  unfold diffLine. destruct (truthy (trim line)); [| eauto].
  destruct (getFileTotalLines_total env (nth_error (split TAB line) 2))
    as (n & -> & _).
  simpl. eauto.
Qed.

Lemma untrackedFile_total env acc file :
  exists acc', untrackedFile env acc file = Ok acc'.
Proof.
  destruct (untrackedFile_spec env acc file) as (n & _ & ->). eauto.
Qed.

(** Only the three git commands can make [collectAreas] reject. *)
Lemma collectAreas_throws (env : Env) (git : SimpleGit) (e : exn) :
  diff git ["--numstat"] = Throw e \/
  (exists workingDiff, diff git ["--numstat"] = Ok workingDiff) /\
    (git_status git = Throw e \/
     (exists status, git_status git = Ok status) /\
       diff git ["--cached"; "--numstat"] = Throw e) ->
  collectAreas env git = Throw e.
Proof.
  unfold collectAreas.
  intros [-> | ((workingDiff & ->) & Hsrc)]; [reflexivity |]. simpl.
  destruct Hsrc as [-> | ((status & ->) & Hsrc)]; [reflexivity |]. simpl.
  destruct (for_of_total (diffLine env working_dir status)
              (split LF (trim workingDiff)) (diffLine_total _ _ _) emptyArea)
    as [changes0 ->].
  simpl.
  destruct (for_of_total (untrackedFile env)
              (filter (fun f => String.eqb (working_dir f) "?") (files status))
              (untrackedFile_total _) changes0)
    as [changes ->].
  simpl. rewrite Hsrc. reflexivity.
Qed.

(** What can throw in the [try] block of [getLineStats]: creating the
    handle, the repository test, and the collection. *)
Lemma getLineStats_try_throws (env : Env) (rootPath : string) (e : exn) :
  fsPath env = Some rootPath -> truthy rootPath = true ->
  simpleGit env rootPath = Throw e \/
  (exists git, simpleGit env rootPath = Ok git /\
     (checkIsRepo git = Throw e \/
      checkIsRepo git = Ok true /\ collectAreas env git = Throw e)) ->
  getLineStats_try env = Throw e.
Proof.
  intros Hroot Htruthy Hsrc.
  unfold getLineStats_try, ifNoRoot. rewrite Hroot, Htruthy.
  destruct Hsrc as [-> | (git & -> & Hsrc)]; [reflexivity |]. simpl.
  destruct Hsrc as [-> | (-> & ->)]; reflexivity.
Qed.

(** C6. The three error kinds give three distinct status texts.  Without
    a workspace root (the root is [undefined] or empty) the pass resolves
    to the record tagged [NO_WORKSPACE] and the status text is the icon
    token and [Git: No workspace]; on a root that is not a repository it
    resolves to the record tagged [NO_REPO] and the text is the icon
    token and [Git: No repo]; when anything throws in the [try] block of
    the pass, the pass resolves to [null] and the text is the icon token
    and [Git: Error].  The two tagged records have all four sums at 0 and
    no file. *)
Theorem error_states (env : Env) (item : StatusBarItem) :
  (fsPath env = None \/ fsPath env = Some "" ->
   getLineStats env = Ok (Some (errorStats NO_WORKSPACE)) /\
   text (updateStatusBar env item) = icon ++ "Git: No workspace") /\
  (forall rootPath git,
     fsPath env = Some rootPath -> truthy rootPath = true ->
     simpleGit env rootPath = Ok git -> checkIsRepo git = Ok false ->
     getLineStats env = Ok (Some (errorStats NO_REPO)) /\
     text (updateStatusBar env item) = icon ++ "Git: No repo") /\
  (forall e, getLineStats_try env = Throw e ->
     getLineStats env = Ok None /\
     text (updateStatusBar env item) = icon ++ "Git: Error") /\
  (forall tag,
     error (errorStats tag) = Some tag /\
     changesLinesAdded (errorStats tag) = 0 /\
     changesLinesDeleted (errorStats tag) = 0 /\
     stagedLinesAdded (errorStats tag) = 0 /\
     stagedLinesDeleted (errorStats tag) = 0 /\
     changesFiles (errorStats tag) = [] /\
     stagedFiles (errorStats tag) = []) /\
  icon ++ "Git: No workspace" <> icon ++ "Git: No repo" /\
  icon ++ "Git: No workspace" <> icon ++ "Git: Error" /\
  icon ++ "Git: No repo" <> icon ++ "Git: Error".
Proof.
  split; [| split; [| split; [| split]]].
  - intros Hroot.
    assert (H : getLineStats env = Ok (Some (errorStats NO_WORKSPACE))).
    { unfold getLineStats, getLineStats_try, ifNoRoot.
      destruct Hroot as [-> | ->]; reflexivity. }
    split; [exact H |]. unfold updateStatusBar. rewrite H. reflexivity.
  - intros rootPath git Hroot Htruthy Hgit Hrepo.
    assert (H : getLineStats env = Ok (Some (errorStats NO_REPO))).
    { unfold getLineStats, getLineStats_try, ifNoRoot.
      rewrite Hroot, Htruthy, Hgit. simpl. rewrite Hrepo. reflexivity. }
    split; [exact H |]. unfold updateStatusBar. rewrite H. reflexivity.
  - intros e He. pose proof (getLineStats_rejected env e He) as H.
    split; [exact H |]. unfold updateStatusBar. rewrite H. reflexivity.
  - intros tag. repeat split.
  - repeat split; vm_compute; discriminate.
Qed.

Lemma error_states_witness :
  (getLineStats Scenario.envNoWorkspace = Ok (Some (errorStats NO_WORKSPACE)) /\
   text (updateStatusBar Scenario.envNoWorkspace Scenario.blankItem)
     = icon ++ "Git: No workspace") /\
  (getLineStats Scenario.envNoRepo = Ok (Some (errorStats NO_REPO)) /\
   text (updateStatusBar Scenario.envNoRepo Scenario.blankItem)
     = icon ++ "Git: No repo") /\
  (getLineStats_try Scenario.envBroken = Throw (HostError "spawn git ENOENT") /\
   getLineStats Scenario.envBroken = Ok None /\
   text (updateStatusBar Scenario.envBroken Scenario.blankItem)
     = icon ++ "Git: Error").
Proof.
  split; [| split].
  - apply (proj1 (error_states Scenario.envNoWorkspace Scenario.blankItem)).
    left. reflexivity.
  - destruct (error_states Scenario.envNoRepo Scenario.blankItem)
      as (_ & Hrepo & _).
    apply (Hrepo "/w" Scenario.notARepo); reflexivity.
  - assert (He : getLineStats_try Scenario.envBroken
                 = Throw (HostError "spawn git ENOENT")).
    { apply (getLineStats_try_throws _ "/w"); [reflexivity | reflexivity |].
      right. exists Scenario.brokenGit. split; [reflexivity |].
      right. split; [reflexivity |].
      apply collectAreas_throws. left. reflexivity. }
    split; [exact He |].
    destruct (error_states Scenario.envBroken Scenario.blankItem)
      as (_ & _ & Hthrow & _).
    exact (Hthrow _ He).
Defined.

(** ** The resolver *)


(** A split has one segment more than the text has separators. *)
Lemma length_split (sep : ascii) (s : string) :
  List.length (split sep s) = S (countChar sep s).
Proof.
  induction s as [| c s IH]; simpl; [reflexivity |].
  destruct (Ascii.eqb c sep); simpl; [rewrite IH; reflexivity |].
  destruct (split sep s) as [| seg rest] eqn:E; simpl in *; [discriminate |].
  exact IH.
Qed.



Section Resolver.
Variable env : Env.
Variable rootPath : string.
Variable filePath : string.
Hypothesis Hroot : fsPath env = Some rootPath.
Hypothesis Htruthy : truthy rootPath = true.

(** On disk: the count of the text read, or 0 when the read throws. *)
Lemma resolve_on_disk :
  existsSync env (path_join env rootPath filePath) = true ->
  getFileTotalLines env (Some filePath) =
    match readFileSync env (path_join env rootPath filePath) with
    | Ok content => Ok (countLines content)
    | Throw _ => Ok 0
    end.
Proof.
  intros Hex. unfold getFileTotalLines, ifNoRoot, join_path.
  rewrite Hroot, Htruthy. simpl. rewrite Hex.
  destruct (readFileSync env _); reflexivity.
Qed.

(** Not on disk: whatever the history lookup gives. *)
Lemma resolve_off_disk :
  existsSync env (path_join env rootPath filePath) = false ->
  getFileTotalLines env (Some filePath)
    = getDeletedFileLinesFromGit env (Some filePath).
Proof.
  intros Hex. unfold getFileTotalLines, ifNoRoot, join_path.
  rewrite Hroot, Htruthy. simpl. rewrite Hex.
  destruct (getDeletedFileLinesFromGit_total env (Some filePath))
    as (n & -> & _).
  reflexivity.
Qed.

(** No git handle: 0. *)
Lemma history_no_handle (e : exn) :
  simpleGit env rootPath = Throw e ->
  getDeletedFileLinesFromGit env (Some filePath) = Ok 0.
Proof.
  intros Hgit. unfold getDeletedFileLinesFromGit, ifNoRoot.
  rewrite Hroot, Htruthy, Hgit. reflexivity.
Qed.

Variable git : SimpleGit.
Hypothesis Hgit : simpleGit env rootPath = Ok git.

(** Present in HEAD: the count of that text. *)
Lemma history_in_HEAD (content : string) :
  show git ["HEAD:" ++ filePath] = Ok content ->
  getDeletedFileLinesFromGit env (Some filePath) = Ok (countLines content).
Proof.
  intros Hshow. unfold getDeletedFileLinesFromGit, ifNoRoot.
  rewrite Hroot, Htruthy, Hgit. simpl. simpl in Hshow. rewrite Hshow.
  reflexivity.
Qed.

(** Absent from HEAD: the first commit of the log of the path is read;
    a log that throws or is empty, or a read that throws, gives 0. *)
Lemma history_from_log (e : exn) :
  show git ["HEAD:" ++ filePath] = Throw e ->
  getDeletedFileLinesFromGit env (Some filePath) =
    match log git (logArgs filePath) with
    | Ok {| all := entry :: _ |} =>
        match show git [hash entry ++ ":" ++ filePath] with
        | Ok content => Ok (countLines content)
        | Throw _ => Ok 0
        end
    | Ok {| all := [] |} => Ok 0
    | Throw _ => Ok 0
    end.
Proof.
  intros Hshow. unfold getDeletedFileLinesFromGit, ifNoRoot, logArgs.
  rewrite Hroot, Htruthy, Hgit. simpl. simpl in Hshow. rewrite Hshow.
  cbn [bind try_catch].
  destruct (log git _) as [[[| entry rest]] | e']; cbn [bind all];
    try reflexivity.
  unfold try_catch, bind.
  destruct (show git [hash entry ++ _]); reflexivity.
Qed.
End Resolver.

(** The chain the resolver follows.  It never rejects, whatever it is
    given.  With a workspace root: a file on disk has the line count of
    the text read from disk; a file not on disk has the count of the text
    [git show] gives for [HEAD:path]; when that throws, the first commit
    listed by [git log --follow] for the path is read; and when the read
    from disk, the git handle, the log (throwing or empty) or the read
    from that commit fails, the total is 0.  Without a workspace root it
    is 0. *)
Lemma resolver_chain (env : Env) (filePath : string) :
  (forall v, exists n, getFileTotalLines env v = Ok n /\ 0 <= n) /\
  (fsPath env = None \/ fsPath env = Some "" ->
   getFileTotalLines env (Some filePath) = Ok 0) /\
  (forall rootPath,
     fsPath env = Some rootPath -> truthy rootPath = true ->
     (existsSync env (path_join env rootPath filePath) = true ->
        (forall content,
           readFileSync env (path_join env rootPath filePath) = Ok content ->
           getFileTotalLines env (Some filePath) = Ok (countLines content)) /\
        (forall e,
           readFileSync env (path_join env rootPath filePath) = Throw e ->
           getFileTotalLines env (Some filePath) = Ok 0)) /\
     (existsSync env (path_join env rootPath filePath) = false ->
        (forall e, simpleGit env rootPath = Throw e ->
           getFileTotalLines env (Some filePath) = Ok 0) /\
        (forall git, simpleGit env rootPath = Ok git ->
           (forall content,
              show git ["HEAD:" ++ filePath] = Ok content ->
              getFileTotalLines env (Some filePath) = Ok (countLines content)) /\
           (forall e, show git ["HEAD:" ++ filePath] = Throw e ->
              (forall entry rest content,
                 log git (logArgs filePath) = Ok {| all := entry :: rest |} ->
                 show git [hash entry ++ ":" ++ filePath] = Ok content ->
                 getFileTotalLines env (Some filePath)
                   = Ok (countLines content)) /\
              (forall entry rest e',
                 log git (logArgs filePath) = Ok {| all := entry :: rest |} ->
                 show git [hash entry ++ ":" ++ filePath] = Throw e' ->
                 getFileTotalLines env (Some filePath) = Ok 0) /\
              (log git (logArgs filePath) = Ok {| all := [] |} ->
                 getFileTotalLines env (Some filePath) = Ok 0) /\
              (forall e', log git (logArgs filePath) = Throw e' ->
                 getFileTotalLines env (Some filePath) = Ok 0))))).
Proof.
  split; [intros v; apply getFileTotalLines_total |].
  split.
  { unfold getFileTotalLines, ifNoRoot. intros [-> | ->]; reflexivity. }
  intros rootPath Hroot Htruthy. split.
  - intros Hex.
    pose proof (resolve_on_disk env rootPath filePath Hroot Htruthy Hex) as H.
    split; [intros content Hread | intros e Hread];
      rewrite Hread in H; exact H.
  - intros Hex.
    rewrite (resolve_off_disk env rootPath filePath Hroot Htruthy Hex).
    split; [intros e Hgit; eapply history_no_handle; eassumption |].
    intros git Hgit.
    split; [intros content Hshow; eapply history_in_HEAD; eassumption |].
    intros e Hshow.
    pose proof (history_from_log env rootPath filePath Hroot Htruthy
                  git Hgit e Hshow) as H.
    repeat split.
    + intros entry rest content Hlog Hread.
      rewrite Hlog, Hread in H. exact H.
    + intros entry rest e' Hlog Hread.
      rewrite Hlog, Hread in H. exact H.
    + intros Hlog. rewrite Hlog in H. exact H.
    + intros e' Hlog. rewrite Hlog in H. exact H.
Qed.

(** ** The history lookup on a history of commits *)

Lemma splitRev_hash (h p : string) :
  countChar ":" h = 0%nat ->
  GitHistory.splitRev (h ++ ":" ++ p) = (h, p).
Proof.
  change (h ++ ":" ++ p) with (h ++ String ":" p).
  induction h as [| c h IH]; simpl; [reflexivity |].
  destruct (Ascii.eqb c ":"); [discriminate |].
  intros Hh. rewrite (IH Hh). reflexivity.
Qed.

Lemma touching_In (p : string) (commits : list GitHistory.Commit)
    (c : GitHistory.Commit) :
  In c (GitHistory.touching p commits) -> In c commits.
Proof.
  induction commits as [| c0 older IH]; simpl; [auto |].
  destruct (GitHistory.sameFile _ _); simpl; intuition.
Qed.

(** When HEAD has no such path, neither has the newest commit that
    changed it: that commit removed the file. *)
Lemma touching_first_absent (p : string) (commits : list GitHistory.Commit) :
  forall c rest,
    GitHistory.absentFromHEAD p commits = true ->
    GitHistory.touching p commits = c :: rest ->
    GitHistory.fileAt c p = None.
Proof.
  induction commits as [| c0 older IH]; intros c rest Habs Ht;
    [discriminate |].
  simpl in Habs, Ht.
  destruct (GitHistory.fileAt c0 p) as [x |] eqn:H0; [discriminate |].
  destruct older as [| parent older'].
  - simpl in Ht. discriminate.
  - destruct (GitHistory.fileAt parent p) as [y |] eqn:Hp.
    + simpl in Ht. injection Ht as <- _. exact H0.
    + cbn [GitHistory.sameFile] in Ht.
      apply (IH c rest); [simpl; rewrite Hp; reflexivity | exact Ht].
Qed.

Lemma distinct_find (commits : list GitHistory.Commit)
    (c : GitHistory.Commit) :
  GitHistory.distinct (map GitHistory.commitHash commits) = true ->
  In c commits ->
  find (fun x => String.eqb (GitHistory.commitHash x)
                            (GitHistory.commitHash c)) commits = Some c.
Proof.
  induction commits as [| c0 older IH]; simpl; intros Hd Hin; [destruct Hin |].
  apply andb_prop in Hd as [Hfresh Hd].
  destruct Hin as [-> | Hin].
  - rewrite String.eqb_refl. reflexivity.
  - destruct (String.eqb_spec (GitHistory.commitHash c0)
                              (GitHistory.commitHash c)) as [Heq | _];
      [| apply IH; assumption].
    exfalso. apply negb_true_iff in Hfresh.
    assert (Hex : existsb (String.eqb (GitHistory.commitHash c0))
                          (map GitHistory.commitHash older) = true).
    { apply existsb_exists. exists (GitHistory.commitHash c).
      split; [apply in_map, Hin | apply String.eqb_eq, Heq]. }
    rewrite Hex in Hfresh. discriminate.
Qed.

(** Reading a commit that changed the path, at the path. *)
Lemma showObject_commit (commits : list GitHistory.Commit)
    (c : GitHistory.Commit) (p : string) :
  GitHistory.wellFormed commits = true -> In c commits ->
  GitHistory.showObject commits (GitHistory.commitHash c ++ ":" ++ p) =
    match GitHistory.fileAt c p with
    | Some content => Ok content
    | None => Throw (HostError "fatal: path does not exist in the commit")
    end.
Proof.
  unfold GitHistory.wellFormed. intros Hwf Hin.
  apply andb_prop in Hwf as [Hvalid Hd].
  rewrite forallb_forall in Hvalid.
  specialize (Hvalid (GitHistory.commitHash c) (in_map _ _ _ Hin)).
  unfold GitHistory.validHash in Hvalid.
  apply andb_prop in Hvalid as [Hhead Hcolon].
  apply negb_true_iff in Hhead. apply Nat.eqb_eq in Hcolon.
  unfold GitHistory.showObject, GitHistory.resolveRev.
  rewrite (splitRev_hash _ p Hcolon), Hhead, (distinct_find commits c Hd Hin).
  reflexivity.
Qed.

(** On such a host, a path that is neither on disk nor in HEAD always
    resolves to 0: the log is empty, or its first commit is the one that
    removed the file. *)
Lemma history_lookup_zero (commits : list GitHistory.Commit)
    (r : Scenario.Repo) (p : string) :
  GitHistory.wellFormed commits = true ->
  existsSync (GitHistory.env_of commits r) (Scenario.posix_join "/w" p)
    = false ->
  GitHistory.absentFromHEAD p commits = true ->
  getFileTotalLines (GitHistory.env_of commits r) (Some p) = Ok 0.
Proof.
  intros Hwf Hex Habs.
  rewrite (resolve_off_disk (GitHistory.env_of commits r) "/w" p
             eq_refl eq_refl Hex).
  assert (Hhead : exists e,
             show (GitHistory.git_of commits r) ["HEAD:" ++ p] = Throw e).
  { simpl. unfold GitHistory.showObject. simpl.
    change (GitHistory.splitRev ("HEAD:" ++ p)) with (("HEAD", p)).
    unfold GitHistory.resolveRev. simpl.
    unfold GitHistory.absentFromHEAD in Habs.
    destruct commits as [| c0 older]; simpl; [eexists; reflexivity |].
    destruct (GitHistory.fileAt c0 p); [discriminate | eexists; reflexivity]. }
  destruct Hhead as [e Hhead].
  rewrite (history_from_log (GitHistory.env_of commits r) "/w" p
             eq_refl eq_refl (GitHistory.git_of commits r) eq_refl e Hhead).
  cbn [log GitHistory.git_of logArgs all].
  destruct (GitHistory.touching p commits) as [| c rest] eqn:Ht;
    [reflexivity |].
  cbn [map hash]. unfold GitHistory.git_of. cbn [show].
  rewrite (showObject_commit commits c p Hwf).
  - rewrite (touching_first_absent p commits c rest Habs Ht). reflexivity.
  - apply (touching_In p). rewrite Ht. left. reflexivity.
Qed.

Lemma countLines_pos (content : string) : 0 < countLines content.
Proof.
  unfold countLines. rewrite length_split. lia.
Qed.

(** C7, where the code departs from it.  On a host whose git answers
    from a history of commits, take a path that is neither on disk nor in
    HEAD, and let [c] be the most recent commit that contained it, with
    text [content].  The claim has the resolver read [content] from [c];
    the code reads the first commit that [git log] lists for the path,
    which is the commit that removed the file, so the read fails and the
    resolver gives 0, never the line count of [content]. *)
Theorem history_lookup_misses_last_commit (commits : list GitHistory.Commit)
    (r : Scenario.Repo) (p : string) (c : GitHistory.Commit)
    (content : string) :
  GitHistory.wellFormed commits = true ->
  existsSync (GitHistory.env_of commits r) (Scenario.posix_join "/w" p)
    = false ->
  GitHistory.absentFromHEAD p commits = true ->
  GitHistory.lastContaining p commits = Some c ->
  GitHistory.fileAt c p = Some content ->
  show (GitHistory.git_of commits r) [GitHistory.commitHash c ++ ":" ++ p]
    = Ok content /\
  getFileTotalLines (GitHistory.env_of commits r) (Some p) = Ok 0 /\
  getFileTotalLines (GitHistory.env_of commits r) (Some p)
    <> Ok (countLines content).
Proof.
  intros Hwf Hex Habs Hlast Hfile.
  pose proof (history_lookup_zero commits r p Hwf Hex Habs) as Hzero.
  split; [| split; [exact Hzero |]].
  - unfold GitHistory.git_of. cbn [show].
    rewrite (showObject_commit commits c p Hwf), Hfile; [reflexivity |].
    unfold GitHistory.lastContaining in Hlast.
    apply find_some in Hlast as [Hin _]. exact Hin.
  - rewrite Hzero. intros Heq. injection Heq as Heq.
    pose proof (countLines_pos content). lia.
Qed.

Lemma history_lookup_misses_last_commit_witness :
  GitHistory.lastContaining "old.txt" GitHistory.removedFile
    = Some {| GitHistory.commitHash := "a1";
              GitHistory.tree :=
                [("README.md", Scenario.textOfLines 3);
                 ("old.txt", Scenario.terminatedLines 7)] |} /\
  map hash
      (match log (GitHistory.git_of GitHistory.removedFile
                    GitHistory.removedRepo) (logArgs "old.txt") with
       | Ok entries => all entries
       | Throw _ => []
       end) = ["b2"; "a1"] /\
  show (GitHistory.git_of GitHistory.removedFile GitHistory.removedRepo)
       ["a1:old.txt"] = Ok (Scenario.terminatedLines 7) /\
  countLines (Scenario.terminatedLines 7) = 8 /\
  getFileTotalLines
    (GitHistory.env_of GitHistory.removedFile GitHistory.removedRepo)
    (Some "old.txt") = Ok 0 /\
  map (fun f => (path f, status f, totalLines f))
      (changesFiles GitHistory.statsRemoved) = [(Some "old.txt", Del, 0)].
Proof.
  split; [reflexivity |]. split; [reflexivity |].
  destruct (history_lookup_misses_last_commit
              GitHistory.removedFile GitHistory.removedRepo "old.txt"
              {| GitHistory.commitHash := "a1";
                 GitHistory.tree :=
                   [("README.md", Scenario.textOfLines 3);
                    ("old.txt", Scenario.terminatedLines 7)] |}
              (Scenario.terminatedLines 7)
              eq_refl eq_refl eq_refl eq_refl eq_refl)
    as (Hshow & Hzero & _).
  split; [exact Hshow |]. split; [reflexivity |].
  split; [exact Hzero | reflexivity].
Defined.




(** ** Untracked files *)

(** The loop over the untracked files keeps the records already pushed
    and pushes one record per file. *)
Lemma for_of_untracked_In (env : Env) (l : list StatusFile) :
  forall acc acc',
    for_of (untrackedFile env) l acc = Ok acc' ->
    (forall x, In x (areaFiles acc) -> In x (areaFiles acc')) /\
    (forall file, In file l ->
       exists total,
         getFileTotalLines env (Some (sf_path file)) = Ok total /\
         In (untrackedRecord file total) (areaFiles acc')).
Proof.
  induction l as [| f l IH]; simpl; intros acc acc' H.
  - injection H as <-. split; [auto | intros ? []].
  - apply bind_Ok in H as (acc1 & H1 & H2).
    destruct (untrackedFile_spec env acc f) as (total & Ht & Hu).
    rewrite Hu in H1. injection H1 as <-.
    destruct (IH _ _ H2) as [Hkeep Hnew]. simpl in Hkeep.
    split.
    + intros x Hx. apply Hkeep, in_or_app. left. exact Hx.
    + intros file [<- | Hin]; [| apply Hnew, Hin].
      exists total. split; [exact Ht |].
      apply Hkeep, in_or_app. right. left. reflexivity.
Qed.

(** C9, as the code has it.  For every file the status listing marks as
    untracked, a pass without error has in its changes area a record with
    [status = New], [linesDeleted = 0] and [linesAdded], [netLines] and
    [totalLines] all equal to the total the resolver gives for the path;
    when the file is on disk, that total is the number of newline
    characters of its text plus one.  A file of 150 lines, each ended by
    a newline, gets [linesAdded = 151], [linesDeleted = 0] and
    [totalLines = 151]; it gets 150 when its last line has no newline at
    the end, as in scenario D. *)
Theorem untracked_is_new (env : Env) (stats : LineStats) (rootPath : string)
    (git : SimpleGit) (listing : StatusResult) (file : StatusFile) :
  getLineStats env = Ok (Some stats) -> error stats = None ->
  fsPath env = Some rootPath -> simpleGit env rootPath = Ok git ->
  git_status git = Ok listing ->
  In file (files listing) -> working_dir file = "?" ->
  (exists total,
     getFileTotalLines env (Some (sf_path file)) = Ok total /\
     In {| path := Some (sf_path file);
           linesAdded := total;
           linesDeleted := 0;
           netLines := total;
           status := New;
           totalLines := total |} (changesFiles stats)) /\
  (forall content,
     existsSync env (path_join env rootPath (sf_path file)) = true ->
     readFileSync env (path_join env rootPath (sf_path file)) = Ok content ->
     In {| path := Some (sf_path file);
           linesAdded := Z.of_nat (countChar LF content) + 1;
           linesDeleted := 0;
           netLines := Z.of_nat (countChar LF content) + 1;
           status := New;
           totalLines := Z.of_nat (countChar LF content) + 1 |}
        (changesFiles stats)) /\
  (countChar LF (Scenario.terminatedLines 150) = 150%nat /\
   getLineStats (Scenario.env_of Scenario.repoDterminated)
     = Ok (Some Scenario.statsDterminated) /\
   changesFiles Scenario.statsDterminated
     = [{| path := Some "new.txt";
           linesAdded := 151;
           linesDeleted := 0;
           netLines := 151;
           status := New;
           totalLines := 151 |}]) /\
  (countChar LF (Scenario.textOfLines 150) = 149%nat /\
   getLineStats (Scenario.env_of Scenario.repoD) = Ok (Some Scenario.statsD) /\
   changesFiles Scenario.statsD
     = [{| path := Some "new.txt";
           linesAdded := 150;
           linesDeleted := 0;
           netLines := 150;
           status := New;
           totalLines := 150 |}]).
Proof.
  intros H Herr Hroot Hgit Hstatus Hin Hq.
  destruct (getLineStats_success env stats H Herr)
    as (root' & git' & changes & staged & Hr' & Htruthy & Hg' & _ & Hc & ->).
  rewrite Hroot in Hr'. injection Hr' as <-.
  rewrite Hgit in Hg'. injection Hg' as <-.
  apply collectAreas_inv in Hc
    as (workingDiff & status' & changes0 & stagedDiff
        & _ & Hs' & _ & Hloop & _ & _).
  rewrite Hstatus in Hs'. injection Hs' as <-.
  assert (Hrec : exists total,
             getFileTotalLines env (Some (sf_path file)) = Ok total /\
             In (untrackedRecord file total)
                (Array_sort byNetLinesDesc (areaFiles changes))).
  { destruct (for_of_untracked_In env _ _ _ Hloop) as [_ Hnew].
    destruct (Hnew file) as (total & Ht & Hrec).
    - apply filter_In. split; [exact Hin |]. rewrite Hq. reflexivity.
    - exists total. split; [exact Ht |].
      eapply Permutation_in; [apply Array_sort_perm | exact Hrec]. }
  split; [exact Hrec |]. split.
  - intros content Hex Hread.
    destruct Hrec as (total & Ht & Hrec).
    rewrite (resolve_on_disk env rootPath (sf_path file) Hroot Htruthy Hex),
      Hread in Ht.
    injection Ht as <-.
    assert (Hcount : countLines content = Z.of_nat (countChar LF content) + 1).
    { unfold countLines. rewrite length_split. lia. }
    rewrite <- Hcount. exact Hrec.
  - split; (split; [reflexivity |]); split; vm_compute; reflexivity.
Qed.

Lemma untracked_is_new_witness :
  getLineStats (Scenario.env_of Scenario.repoDterminated)
    = Ok (Some Scenario.statsDterminated) /\
  countChar LF (Scenario.terminatedLines 150) = 150%nat /\
  In {| path := Some "new.txt";
        linesAdded := 151;
        linesDeleted := 0;
        netLines := 151;
        status := New;
        totalLines := 151 |} (changesFiles Scenario.statsDterminated).
Proof.
  assert (H : getLineStats (Scenario.env_of Scenario.repoDterminated)
              = Ok (Some Scenario.statsDterminated))
    by (vm_compute; reflexivity).
  split; [exact H |]. split; [reflexivity |].
  destruct (untracked_is_new (Scenario.env_of Scenario.repoDterminated)
              Scenario.statsDterminated
              "/w" (Scenario.git_of Scenario.repoDterminated)
              {| files := Scenario.listing Scenario.repoDterminated |}
              {| sf_path := "new.txt"; index := "?"; working_dir := "?" |}
              H eq_refl eq_refl eq_refl eq_refl
              (or_introl eq_refl) eq_refl)
    as (_ & Hdisk & _).
  exact (Hdisk (Scenario.terminatedLines 150) eq_refl eq_refl).
Defined.

(** C9, as stated, fails: an untracked file of 150 lines, each ended by a
    newline, gets a record with [linesAdded = 151] and
    [totalLines = 151]. *)
Lemma untracked_150_lines_counterexample :
  Scenario.terminatedLines 150 = String.concat "" (repeat ("x" ++ nl) 150) /\
  readFileSync (Scenario.env_of Scenario.repoDterminated)
               (Scenario.posix_join "/w" "new.txt")
    = Ok (Scenario.terminatedLines 150) /\
  getLineStats (Scenario.env_of Scenario.repoDterminated)
    = Ok (Some Scenario.statsDterminated) /\
  error Scenario.statsDterminated = None /\
  changesFiles Scenario.statsDterminated
    = [{| path := Some "new.txt";
          linesAdded := 151;
          linesDeleted := 0;
          netLines := 151;
          status := New;
          totalLines := 151 |}] /\
  ~ In {| path := Some "new.txt";
          linesAdded := 150;
          linesDeleted := 0;
          netLines := 150;
          status := New;
          totalLines := 150 |} (changesFiles Scenario.statsDterminated).
Proof.
  repeat split; try (vm_compute; reflexivity).
  intros [Heq | []]. discriminate Heq.
Qed.

(** ** Parsing the numeric diff *)

Lemma digitValue_nonneg (c : ascii) (d : Z) : digitValue c = Some d -> 0 <= d.
Proof.
  unfold digitValue.
  repeat match goal with
         | |- context [if ?b then _ else _] => destruct b eqn:?
         end; intros H; try discriminate; injection H as <-;
    repeat match goal with
           | E : (_ && _)%bool = true |- _ => apply andb_prop in E as [? ?]
           | E : (_ <=? _) = true |- _ => apply Z.leb_le in E
           | E : _ = false |- _ => clear E
           end; lia.
Qed.

Lemma digitsPrefix_nonneg (radix : Z) (s : string) :
  Forall (fun d => 0 <= d) (digitsPrefix radix s).
Proof.
  induction s as [| c s IH]; simpl; [constructor |].
  destruct (digitValue c) as [d |] eqn:Hd; [| constructor].
  destruct (d <? radix); constructor; [| exact IH].
  eapply digitValue_nonneg; eassumption.
Qed.

Lemma digitsValue_nonneg (radix : Z) (ds : list Z) :
  0 <= radix -> Forall (fun d => 0 <= d) ds -> 0 <= digitsValue radix ds.
Proof.
  intros Hr. unfold digitsValue.
  assert (Hgen : forall acc, 0 <= acc -> Forall (fun d => 0 <= d) ds ->
                   0 <= fold_left (fun acc d => acc * radix + d) ds acc).
  { induction ds as [| d ds IH]; simpl; intros acc Hacc Hds; [exact Hacc |].
    inversion Hds; subst. apply IH; [nia | assumption]. }
  apply Hgen. lia.
Qed.

Lemma parseDigits_nonneg (radix : Z) (s : string) (n : Z) :
  0 <= radix -> parseDigits radix s = Some n -> 0 <= n.
Proof.
  intros Hr. unfold parseDigits.
  pose proof (digitsPrefix_nonneg radix s) as Hds.
  destruct (digitsPrefix radix s) as [| d ds]; [discriminate |].
  intros H. injection H as <-. apply digitsValue_nonneg; assumption.
Qed.

Lemma parseUnsigned_nonneg (s : string) (n : Z) :
  parseUnsigned s = Some n -> 0 <= n.
Proof.
  unfold parseUnsigned.
  destruct s as [| c0 [| c1 s']];
    try destruct (Ascii.eqb c0 "0" && (Ascii.eqb c1 "x" || Ascii.eqb c1 "X"));
    apply parseDigits_nonneg; lia.
Qed.

(** A field that is not a minus sign in front of digits gives a count
    that is not negative. *)
Lemma orZero_parseInt_nonneg (v : option string) :
  minusDigits v = false -> 0 <= orZero (parseInt v).
Proof.
  unfold minusDigits, parseInt, orZero.
  destruct (trimStart (strOf v)) as [| c s']; [lia |].
  destruct (Ascii.eqb c "-"); cbn [andb].
  - destruct (parseUnsigned s'); simpl; [discriminate | lia].
  - intros _.
    destruct (Ascii.eqb c "+").
    + destruct (parseUnsigned s') as [n |] eqn:Hn; [| apply Z.le_refl].
      apply parseUnsigned_nonneg in Hn. destruct (n =? 0); lia.
    + destruct (parseUnsigned (String c s')) as [n |] eqn:Hn;
        [| apply Z.le_refl].
      apply parseUnsigned_nonneg in Hn. destruct (n =? 0); lia.
Qed.

(** A loop whose body keeps a property on the elements it is given. *)
Lemma for_of_invariant_In {A S : Type} (P : S -> Prop)
    (body : S -> A -> result S) (xs : list A) :
  (forall acc x acc', In x xs -> P acc -> body acc x = Ok acc' -> P acc') ->
  forall acc acc', P acc -> for_of body xs acc = Ok acc' -> P acc'.
Proof.
  induction xs as [| x xs IH]; simpl; intros Hstep acc acc' HP H.
  - injection H as <-. exact HP.
  - apply bind_Ok in H as (acc1 & H1 & H2).
    apply (IH (fun a y a' Hy => Hstep a y a' (or_intror Hy)) acc1 acc').
    + eapply Hstep; [left; reflexivity | exact HP | exact H1].
    + exact H2.
Qed.

Lemma diffLine_nonNegative env slot status acc line acc' :
  unsignedLine line = true ->
  Forall nonNegative (areaFiles acc) ->
  diffLine env slot status acc line = Ok acc' ->
  Forall nonNegative (areaFiles acc').
Proof.
  unfold unsignedLine, diffLine. intros Hline Hacc.
  apply andb_prop in Hline as [Ha Hd].
  apply negb_true_iff in Ha, Hd.
  destruct (truthy (trim line)); [| intros H; injection H as <-; exact Hacc].
  intros H. apply bind_Ok in H as (total & _ & H). injection H as <-. simpl.
  apply Forall_app. split; [exact Hacc |].
  constructor; [| constructor].
  split; simpl; apply orZero_parseInt_nonneg; assumption.
Qed.

Lemma untrackedFile_nonNegative env acc file acc' :
  Forall nonNegative (areaFiles acc) ->
  untrackedFile env acc file = Ok acc' ->
  Forall nonNegative (areaFiles acc').
Proof.
  intros Hacc H.
  destruct (getFileTotalLines_total env (Some (sf_path file)))
    as (total & Ht & Hpos).
  unfold untrackedFile in H. rewrite Ht in H. injection H as <-. simpl.
  apply Forall_app. split; [exact Hacc |].
  constructor; [| constructor]. split; simpl; lia.
Qed.

Lemma Forall_Array_sort {A : Type} (P : A -> Prop) (cmp : A -> A -> Z)
    (l : list A) :
  Forall P l -> Forall P (Array_sort cmp l).
Proof.
  intros H. apply Forall_forall. intros x Hx.
  eapply Forall_forall; [exact H |].
  eapply Permutation_in; [apply Permutation_sym, Array_sort_perm | exact Hx].
Qed.

(** What one line of the numeric diff does to an area. *)
Lemma diffLine_spec env slot status acc line :
  exists acc',
    diffLine env slot status acc line = Ok acc' /\
    (truthy (trim line) = false -> acc' = acc) /\
    (truthy (trim line) = true ->
     exists f,
       areaFiles acc' = (areaFiles acc ++ [f])%list /\
       path f = nth_error (split TAB line) 2 /\
       linesAdded f = orZero (parseInt (nth_error (split TAB line) 0)) /\
       linesDeleted f = orZero (parseInt (nth_error (split TAB line) 1)) /\
       netLines f = linesAdded f - linesDeleted f).
Proof.
  unfold diffLine. destruct (truthy (trim line)).
  - destruct (getFileTotalLines_total env (nth_error (split TAB line) 2))
      as (n & -> & _).
    simpl. eexists. split; [reflexivity |]. split; [discriminate |].
    intros _. eexists. split; [reflexivity |]. simpl. auto.
  - exists acc. split; [reflexivity |]. split; [reflexivity | discriminate].
Qed.

Lemma collectAreas_nonNegative env git changes staged workingDiff stagedDiff :
  collectAreas env git = Ok (changes, staged) ->
  diff git ["--numstat"] = Ok workingDiff ->
  diff git ["--cached"; "--numstat"] = Ok stagedDiff ->
  forallb unsignedLine (split LF (trim workingDiff)) = true ->
  forallb unsignedLine (split LF (trim stagedDiff)) = true ->
  Forall nonNegative (areaFiles changes) /\ Forall nonNegative (areaFiles staged).
Proof.
  intros H Hw Hs Hwl Hsl.
  apply collectAreas_inv in H
    as (workingDiff' & status & changes0 & stagedDiff'
        & Hw' & _ & H0 & H1 & Hs' & H2).
  rewrite Hw in Hw'. injection Hw' as <-.
  rewrite Hs in Hs'. injection Hs' as <-.
  rewrite forallb_forall in Hwl, Hsl.
  split.
  - eapply (for_of_invariant (fun a => Forall nonNegative (areaFiles a)));
      [| | exact H1].
    + intros; eapply untrackedFile_nonNegative; eassumption.
    + eapply (for_of_invariant_In (fun a => Forall nonNegative (areaFiles a)));
        [| | exact H0]; [| constructor].
      intros a line a' Hin Ha Hstep.
      eapply diffLine_nonNegative; [apply Hwl, Hin | exact Ha | exact Hstep].
  - eapply (for_of_invariant_In (fun a => Forall nonNegative (areaFiles a)));
      [| | exact H2]; [| constructor].
    intros a line a' Hin Ha Hstep.
    eapply diffLine_nonNegative; [apply Hsl, Hin | exact Ha | exact Hstep].
Qed.

(** A count as git prints it is not a minus sign in front of digits. *)
Lemma numstatCount_unsigned (field : string) :
  numstatCount field = true -> minusDigits (Some field) = false.
Proof.
  unfold numstatCount, minusDigits. cbn [strOf].
  destruct (String.eqb_spec field "-") as [-> | _]; [reflexivity |].
  cbn [orb]. intros H. apply andb_prop in H as [_ H].
  destruct field as [| c s]; [reflexivity |].
  cbn [allDigits] in H. apply andb_prop in H as [Hc _].
  assert (Hws : isWhiteSpace c = false /\ Ascii.eqb c "-" = false).
  { revert Hc. clear.
    destruct c as [[] [] [] [] [] [] [] []]; vm_compute; intros Hc;
      try discriminate Hc; split; reflexivity. }
  destruct Hws as [Hws Hminus].
  cbn [trimStart]. rewrite Hws, Hminus. reflexivity.
Qed.

Lemma numstatLine_unsigned (line : string) :
  numstatLine line = true -> unsignedLine line = true.
Proof.
  unfold numstatLine, unsignedLine.
  destruct (split TAB line) as [| added [| deleted [| p rest]]];
    try discriminate.
  intros H. apply andb_prop in H as [Ha Hd]. cbn [nth_error].
  rewrite (numstatCount_unsigned added Ha), (numstatCount_unsigned deleted Hd).
  reflexivity.
Qed.

(** One line of a text of git: a blank line pushes nothing, and a line
    of the numeric diff pushes a record with counts that are not
    negative. *)
Lemma diffLine_numstat env slot status acc line acc' :
  negb (truthy (trim line)) || numstatLine line = true ->
  Forall nonNegative (areaFiles acc) ->
  diffLine env slot status acc line = Ok acc' ->
  Forall nonNegative (areaFiles acc').
Proof.
  intros Hline Hacc H.
  destruct (truthy (trim line)) eqn:Hblank.
  - cbn [negb orb] in Hline.
    eapply diffLine_nonNegative;
      [apply numstatLine_unsigned, Hline | exact Hacc | exact H].
  - unfold diffLine in H. rewrite Hblank in H. injection H as <-. exact Hacc.
Qed.

Lemma collectAreas_numstat env git changes staged workingDiff stagedDiff :
  collectAreas env git = Ok (changes, staged) ->
  diff git ["--numstat"] = Ok workingDiff ->
  diff git ["--cached"; "--numstat"] = Ok stagedDiff ->
  numstatText workingDiff = true -> numstatText stagedDiff = true ->
  Forall nonNegative (areaFiles changes) /\ Forall nonNegative (areaFiles staged).
Proof.
  intros H Hw Hs Hwl Hsl.
  apply collectAreas_inv in H
    as (workingDiff' & status & changes0 & stagedDiff'
        & Hw' & _ & H0 & H1 & Hs' & H2).
  rewrite Hw in Hw'. injection Hw' as <-.
  rewrite Hs in Hs'. injection Hs' as <-.
  unfold numstatText in Hwl, Hsl. rewrite forallb_forall in Hwl, Hsl.
  split.
  - eapply (for_of_invariant (fun a => Forall nonNegative (areaFiles a)));
      [| | exact H1].
    + intros; eapply untrackedFile_nonNegative; eassumption.
    + eapply (for_of_invariant_In (fun a => Forall nonNegative (areaFiles a)));
        [| | exact H0]; [| constructor].
      intros a line a' Hin Ha Hstep.
      eapply diffLine_numstat; [apply Hwl, Hin | exact Ha | exact Hstep].
  - eapply (for_of_invariant_In (fun a => Forall nonNegative (areaFiles a)));
      [| | exact H2]; [| constructor].
    intros a line a' Hin Ha Hstep.
    eapply diffLine_numstat; [apply Hsl, Hin | exact Ha | exact Hstep].
Qed.

(** C10.  A field of a line of the numeric diff that [parseInt] cannot
    read as a number (the [-] of a binary file, a missing field) becomes
    the count 0, not [NaN]; the loops over the lines of a diff never
    reject, whatever the text, malformed lines included; and in a pass
    over the output of [git diff --numstat], where every non-blank line
    has two counts and a path and a count is a decimal numeral or [-],
    every record of both areas has [linesAdded] and [linesDeleted] at
    least 0.  The same holds of any diff text in which no count is a minus
    sign in front of digits. *)
Theorem numstat_parsing (env : Env) :
  (parseInt (Some "-") = None /\ parseInt None = None /\
   forall v, parseInt v = None -> orZero (parseInt v) = 0) /\
  (forall slot status acc line,
     exists acc',
       diffLine env slot status acc line = Ok acc' /\
       (truthy (trim line) = true ->
        exists f,
          areaFiles acc' = (areaFiles acc ++ [f])%list /\
          (parseInt (nth_error (split TAB line) 0) = None -> linesAdded f = 0) /\
          (parseInt (nth_error (split TAB line) 1) = None -> linesDeleted f = 0) /\
          (minusDigits (nth_error (split TAB line) 0) = false ->
           0 <= linesAdded f) /\
          (minusDigits (nth_error (split TAB line) 1) = false ->
           0 <= linesDeleted f))) /\
  (forall slot status lines acc,
     exists acc', for_of (diffLine env slot status) lines acc = Ok acc') /\
  (forall stats rootPath git workingDiff stagedDiff,
     getLineStats env = Ok (Some stats) ->
     fsPath env = Some rootPath -> simpleGit env rootPath = Ok git ->
     diff git ["--numstat"] = Ok workingDiff ->
     diff git ["--cached"; "--numstat"] = Ok stagedDiff ->
     numstatText workingDiff = true -> numstatText stagedDiff = true ->
     Forall nonNegative (changesFiles stats) /\
     Forall nonNegative (stagedFiles stats)) /\
  (forall stats rootPath git workingDiff stagedDiff,
     getLineStats env = Ok (Some stats) ->
     fsPath env = Some rootPath -> simpleGit env rootPath = Ok git ->
     diff git ["--numstat"] = Ok workingDiff ->
     diff git ["--cached"; "--numstat"] = Ok stagedDiff ->
     forallb unsignedLine (split LF (trim workingDiff)) = true ->
     forallb unsignedLine (split LF (trim stagedDiff)) = true ->
     Forall nonNegative (changesFiles stats) /\
     Forall nonNegative (stagedFiles stats)).
Proof.
  split; [| split; [| split; [| split]]].
  - split; [reflexivity |]. split; [reflexivity |].
    intros v ->. reflexivity.
  - intros slot status acc line.
    destruct (diffLine_spec env slot status acc line) as (acc' & H & _ & Hrec).
    exists acc'. split; [exact H |].
    intros Ht. destruct (Hrec Ht) as (f & Hf & _ & Ha & Hd & _).
    exists f. split; [exact Hf |]. rewrite Ha, Hd.
    repeat split.
    + intros ->. reflexivity.
    + intros ->. reflexivity.
    + apply orZero_parseInt_nonneg.
    + apply orZero_parseInt_nonneg.
  - intros slot status lines acc.
    apply for_of_total. intros a line. apply diffLine_total.
  - intros stats rootPath git workingDiff stagedDiff H Hroot Hgit Hw Hs Hwl Hsl.
    destruct (getLineStats_inv env stats H)
      as [-> | [-> | (root' & git' & changes & staged
                      & Hr' & _ & Hg' & _ & Hc & ->)]].
    + split; constructor.
    + split; constructor.
    + rewrite Hroot in Hr'. injection Hr' as <-.
      rewrite Hgit in Hg'. injection Hg' as <-.
      destruct (collectAreas_numstat _ _ _ _ _ _ Hc Hw Hs Hwl Hsl)
        as [Hch Hst].
      split; apply Forall_Array_sort; assumption.
  - intros stats rootPath git workingDiff stagedDiff H Hroot Hgit Hw Hs Hwl Hsl.
    destruct (getLineStats_inv env stats H)
      as [-> | [-> | (root' & git' & changes & staged
                      & Hr' & _ & Hg' & _ & Hc & ->)]].
    + split; constructor.
    + split; constructor.
    + rewrite Hroot in Hr'. injection Hr' as <-.
      rewrite Hgit in Hg'. injection Hg' as <-.
      destruct (collectAreas_nonNegative _ _ _ _ _ _ Hc Hw Hs Hwl Hsl)
        as [Hch Hst].
      split; apply Forall_Array_sort; assumption.
Qed.

Lemma numstat_parsing_witness :
  getLineStats (Scenario.env_of Scenario.repoNumstat)
    = Ok (Some Scenario.statsNumstat) /\
  (numstatText (Scenario.working Scenario.repoNumstat) = true /\
   numstatText (Scenario.staged Scenario.repoNumstat) = true) /\
  map (fun f => (path f, linesAdded f, linesDeleted f))
      (changesFiles Scenario.statsNumstat)
    = [(Some "a.ts", 3, 1); (Some "logo.png", 0, 0)] /\
  map (fun f => (path f, linesAdded f, linesDeleted f))
      (stagedFiles Scenario.statsNumstat)
    = [(Some "b.ts", 0, 12)] /\
  Forall nonNegative (changesFiles Scenario.statsNumstat) /\
  Forall nonNegative (stagedFiles Scenario.statsNumstat).
Proof.
  assert (H : getLineStats (Scenario.env_of Scenario.repoNumstat)
              = Ok (Some Scenario.statsNumstat)) by (vm_compute; reflexivity).
  split; [exact H |]. split; [split; reflexivity |].
  split; [reflexivity |]. split; [reflexivity |].
  destruct (numstat_parsing (Scenario.env_of Scenario.repoNumstat))
    as (_ & _ & _ & Hpass & _).
  apply (Hpass Scenario.statsNumstat "/w" (Scenario.git_of Scenario.repoNumstat)
           (Scenario.working Scenario.repoNumstat)
           (Scenario.staged Scenario.repoNumstat) H);
    reflexivity.
Defined.

(** Outside the format of git: a count written with a minus sign in
    front of digits would be read as a negative number. *)
Example signed_count_is_negative :
  numstatText (Scenario.working Scenario.repoSigned) = false /\
  getLineStats (Scenario.env_of Scenario.repoSigned)
    = Ok (Some Scenario.statsSigned) /\
  map (fun f => (path f, linesAdded f, linesDeleted f))
      (changesFiles Scenario.statsSigned)
    = [(Some "f.txt", -5, 0)].
Proof.
  repeat split; vm_compute; reflexivity.
Qed.

(** ** The scenarios, end to end *)

Example scenarioB_display :
  updateStatusBar (Scenario.env_of Scenario.repoB) Scenario.blankItem
    = {| text := "$(git-commit) +10 (+15-5)";
         tooltip := "Staged: +0 (+0-0)" ++ nl ++ nl
                    ++ "Changes: +10 (+15-5)" ++ nl
                    ++ "  +10 (+15-5)=30 [Mod] a.ts" ++ nl ++ nl
                    ++ "Total: +10 (+15-5)" |}.
Proof. vm_compute. reflexivity. Qed.

Example scenarioC_display :
  updateStatusBar (Scenario.env_of Scenario.repoC) Scenario.blankItem
    = {| text := "$(git-commit) Staged:+2 (+5-3), Changes:+8 (+10-2), Total:+10 (+15-5)";
         tooltip := "Staged: +2 (+5-3)" ++ nl
                    ++ "  +2 (+5-3)=5 [New] a.ts" ++ nl ++ nl
                    ++ "Changes: +8 (+10-2)" ++ nl
                    ++ "  +8 (+10-2)=20 [Mod] b.py" ++ nl ++ nl
                    ++ "Total: +10 (+15-5)" |}.
Proof. vm_compute. reflexivity. Qed.

Example scenarioD_display :
  updateStatusBar (Scenario.env_of Scenario.repoD) Scenario.blankItem
    = {| text := "$(git-commit) +150 (+150-0)";
         tooltip := "Staged: +0 (+0-0)" ++ nl ++ nl
                    ++ "Changes: +150 (+150-0)" ++ nl
                    ++ "  +150 (+150-0)=150 [New] new.txt" ++ nl ++ nl
                    ++ "Total: +150 (+150-0)" |}.
Proof. vm_compute. reflexivity. Qed.

Example scenarioE_display :
  updateStatusBar (Scenario.env_of Scenario.repoE) Scenario.blankItem
    = {| text := "$(git-commit) -41 (+0-41)";
         tooltip := "Staged: +0 (+0-0)" ++ nl ++ nl
                    ++ "Changes: -41 (+0-41)" ++ nl
                    ++ "  -41 (+0-41)=42 [Del] old.txt" ++ nl ++ nl
                    ++ "Total: -41 (+0-41)" |}.
Proof. vm_compute. reflexivity. Qed.

(** A line without a path makes [path.basename] throw while the tooltip
    is built: the summary already written is replaced by the error text. *)
Example missing_path_display :
  getLineStats (Scenario.env_of Scenario.repoBinary)
    = Ok (Some Scenario.statsBinary) /\
  summaryText Scenario.statsBinary = "$(git-commit) +2 (+3-1)" /\
  updateStatusBar (Scenario.env_of Scenario.repoBinary) Scenario.blankItem
    = {| text := "$(git-commit) Git: Error";
         tooltip := "Error updating git status" |}.
Proof. repeat split; vm_compute; reflexivity. Qed.

(** A text of 42 newline-terminated lines counts 43. *)
Example countLines_terminated :
  countLines (Scenario.textOfLines 42 ++ nl) = 43.
Proof. vm_compute. reflexivity. Qed.

(** * More of the statistics pass *)

(** ** Closed form of the loops *)

Lemma Area_eq (a b : Area) :
  areaLinesAdded a = areaLinesAdded b ->
  areaLinesDeleted a = areaLinesDeleted b ->
  areaFiles a = areaFiles b -> a = b.
Proof. destruct a, b. simpl. intros -> -> ->. reflexivity. Qed.

Lemma getFileTotalLines_resolved (env : Env) (filePath : option string) :
  getFileTotalLines env filePath = Ok (resolved env filePath).
Proof.
  unfold resolved.
  destruct (getFileTotalLines_total env filePath) as (n & -> & _). reflexivity.
Qed.

Lemma resolved_nonneg (env : Env) (filePath : option string) :
  0 <= resolved env filePath.
Proof.
  unfold resolved.
  destruct (getFileTotalLines_total env filePath) as (n & -> & Hn). exact Hn.
Qed.

Lemma diffLine_closed env slot status acc line :
  diffLine env slot status acc line =
    Ok (if nonBlank line then pushed acc [lineRecord env slot status line]
        else acc).
Proof.
  unfold diffLine, nonBlank. destruct (truthy (trim line)); [| reflexivity].
  rewrite getFileTotalLines_resolved. simpl. f_equal.
  apply Area_eq; simpl; try reflexivity; lia.
Qed.

Lemma untrackedFile_closed env acc file :
  untrackedFile env acc file =
    Ok (pushed acc [untrackedRecord file (resolved env (Some (sf_path file)))]).
Proof.
  unfold untrackedFile. rewrite getFileTotalLines_resolved. simpl. f_equal.
  apply Area_eq; simpl; try reflexivity; lia.
Qed.

Lemma pushed_nil (acc : Area) : pushed acc [] = acc.
Proof.
  apply Area_eq; simpl; try lia. apply app_nil_r.
Qed.

Lemma pushed_pushed (acc : Area) (l1 l2 : list FileChange) :
  pushed (pushed acc l1) l2 = pushed acc (l1 ++ l2).
Proof.
  apply Area_eq; simpl; rewrite ?sumOf_app; try lia.
  symmetry. apply app_assoc.
Qed.

Lemma for_of_diffLine_closed env slot status lines :
  forall acc,
    for_of (diffLine env slot status) lines acc =
      Ok (pushed acc (map (lineRecord env slot status) (filter nonBlank lines))).
Proof.
  induction lines as [| line lines IH]; intros acc; simpl.
  - rewrite pushed_nil. reflexivity.
  - rewrite diffLine_closed. simpl. rewrite IH.
    destruct (nonBlank line); simpl; [| reflexivity].
    rewrite pushed_pushed. reflexivity.
Qed.

Lemma for_of_untracked_closed env files :
  forall acc,
    for_of (untrackedFile env) files acc =
      Ok (pushed acc
            (map (fun f => untrackedRecord f (resolved env (Some (sf_path f))))
                 files)).
Proof.
  induction files as [| file files IH]; intros acc; simpl.
  - rewrite pushed_nil. reflexivity.
  - rewrite untrackedFile_closed. simpl. rewrite IH, pushed_pushed. reflexivity.
Qed.

Lemma collectAreas_closed env git workingDiff status stagedDiff :
  diff git ["--numstat"] = Ok workingDiff ->
  git_status git = Ok status ->
  diff git ["--cached"; "--numstat"] = Ok stagedDiff ->
  collectAreas env git =
    Ok (pushed emptyArea (diffRecords env working_dir status workingDiff
                          ++ untrackedRecords env status),
        pushed emptyArea (diffRecords env index status stagedDiff)).
Proof.
  intros Hw Hs Hd. unfold collectAreas. rewrite Hw. simpl. rewrite Hs. simpl.
  rewrite for_of_diffLine_closed. simpl.
  rewrite for_of_untracked_closed. simpl. rewrite Hd. simpl.
  rewrite for_of_diffLine_closed. simpl.
  rewrite pushed_pushed. reflexivity.
Qed.

Lemma length_Array_sort {A : Type} (cmp : A -> A -> Z) (l : list A) :
  List.length (Array_sort cmp l) = List.length l.
Proof. symmetry. apply Permutation_length, Array_sort_perm. Qed.

(** The pass on a repository whose git commands resolve. *)
Lemma pass_closed (env : Env) (rootPath : string) (git : SimpleGit)
    (workingDiff stagedDiff : string) (listing : StatusResult) :
  fsPath env = Some rootPath -> truthy rootPath = true ->
  simpleGit env rootPath = Ok git -> checkIsRepo git = Ok true ->
  diff git ["--numstat"] = Ok workingDiff ->
  git_status git = Ok listing ->
  diff git ["--cached"; "--numstat"] = Ok stagedDiff ->
  exists stats,
    getLineStats env = Ok (Some stats) /\ error stats = None /\
    changesFiles stats =
      Array_sort byNetLinesDesc
        (diffRecords env working_dir listing workingDiff
         ++ untrackedRecords env listing) /\
    stagedFiles stats =
      Array_sort byNetLinesDesc (diffRecords env index listing stagedDiff) /\
    List.length (changesFiles stats) =
      (List.length (filter nonBlank (split LF (trim workingDiff)))
       + List.length (untracked listing))%nat /\
    List.length (stagedFiles stats) =
      List.length (filter nonBlank (split LF (trim stagedDiff))).
Proof.
  intros Hroot Htruthy Hgit Hrepo Hw Hs Hd.
  exists (statsOf
            (pushed emptyArea (diffRecords env working_dir listing workingDiff
                               ++ untrackedRecords env listing))
            (pushed emptyArea (diffRecords env index listing stagedDiff))).
  split; [| split; [reflexivity |]].
  - unfold getLineStats, getLineStats_try, ifNoRoot.
    rewrite Hroot, Htruthy, Hgit. simpl. rewrite Hrepo. simpl.
    rewrite (collectAreas_closed env git _ _ _ Hw Hs Hd). reflexivity.
  - simpl. split; [reflexivity |]. split; [reflexivity |].
    rewrite !length_Array_sort. unfold diffRecords, untrackedRecords.
    rewrite length_app, !length_map. split; reflexivity.
Qed.

(** X1. On a root that is a repository where the two numeric diffs and
    the status listing resolve, the pass resolves to a record without
    error tag whose changes area is the stable sort of one record per
    non-blank line of the working diff, in line order, followed by one
    record per untracked entry of the listing, in listing order, and
    whose staged area is the stable sort of one record per non-blank line
    of the staged diff.  Blank lines give no record, and no failure of the
    resolver on a file makes the pass fail. *)
Theorem pass_closed_form (env : Env) (rootPath : string) (git : SimpleGit)
    (workingDiff stagedDiff : string) (listing : StatusResult) :
  fsPath env = Some rootPath -> truthy rootPath = true ->
  simpleGit env rootPath = Ok git -> checkIsRepo git = Ok true ->
  diff git ["--numstat"] = Ok workingDiff ->
  git_status git = Ok listing ->
  diff git ["--cached"; "--numstat"] = Ok stagedDiff ->
  exists stats,
    getLineStats env = Ok (Some stats) /\ error stats = None /\
    changesFiles stats =
      Array_sort byNetLinesDesc
        (diffRecords env working_dir listing workingDiff
         ++ untrackedRecords env listing) /\
    stagedFiles stats =
      Array_sort byNetLinesDesc (diffRecords env index listing stagedDiff) /\
    List.length (changesFiles stats) =
      (List.length (filter nonBlank (split LF (trim workingDiff)))
       + List.length (untracked listing))%nat /\
    List.length (stagedFiles stats) =
      List.length (filter nonBlank (split LF (trim stagedDiff))).
Proof.
  intros Hroot Htruthy Hgit Hrepo Hw Hs Hd.
  exact (pass_closed env rootPath git workingDiff stagedDiff listing
           Hroot Htruthy Hgit Hrepo Hw Hs Hd).
Qed.

Lemma pass_closed_form_witness :
  map path (diffRecords (Scenario.env_of Scenario.repoTies) working_dir
              {| files := Scenario.listing Scenario.repoTies |}
              (Scenario.working Scenario.repoTies))
    = [Some "a"; Some "b"; Some "c"] /\
  exists stats,
    getLineStats (Scenario.env_of Scenario.repoTies) = Ok (Some stats) /\
    List.length (changesFiles stats) = 4%nat /\
    List.length (stagedFiles stats) = 0%nat.
Proof.
  split; [reflexivity |].
  destruct (pass_closed_form (Scenario.env_of Scenario.repoTies) "/w"
              (Scenario.git_of Scenario.repoTies)
              (Scenario.working Scenario.repoTies)
              (Scenario.staged Scenario.repoTies)
              {| files := Scenario.listing Scenario.repoTies |}
              eq_refl eq_refl eq_refl eq_refl eq_refl eq_refl eq_refl)
    as (stats & Hpass & _ & _ & _ & Hlc & Hls).
  exists stats. split; [exact Hpass |]. split; [exact Hlc | exact Hls].
Defined.

(** X2. A pass resolves to a record without error tag exactly when the
    workspace has a root, the git handle is created, the repository test
    answers yes, and the two numeric diffs and the status listing all
    resolve. *)
Theorem pass_succeeds_iff (env : Env) :
  (exists stats, getLineStats env = Ok (Some stats) /\ error stats = None) <->
  (exists rootPath git,
     fsPath env = Some rootPath /\ truthy rootPath = true /\
     simpleGit env rootPath = Ok git /\ checkIsRepo git = Ok true /\
     (exists workingDiff, diff git ["--numstat"] = Ok workingDiff) /\
     (exists listing, git_status git = Ok listing) /\
     (exists stagedDiff, diff git ["--cached"; "--numstat"] = Ok stagedDiff)).
Proof.
  split.
  - intros (stats & H & Herr).
    destruct (getLineStats_success env stats H Herr)
      as (root & git & changes & staged & Hr & Ht & Hg & Hrepo & Hc & _).
    apply collectAreas_inv in Hc
      as (wd & st & _ & sd & Hw & Hs & _ & _ & Hd & _).
    exists root, git. eauto 12.
  - intros (root & git & Hr & Ht & Hg & Hrepo & (wd & Hw) & (st & Hs) & (sd & Hd)).
    destruct (pass_closed env root git wd sd st Hr Ht Hg Hrepo Hw Hs Hd)
      as (stats & H & Herr & _).
    eauto.
Qed.

Lemma pass_succeeds_iff_witness :
  (exists stats,
     getLineStats (Scenario.env_of Scenario.repoSigned) = Ok (Some stats) /\
     error stats = None) /\
  ~ (exists stats,
       getLineStats Scenario.envBroken = Ok (Some stats) /\ error stats = None).
Proof.
  split.
  - apply (proj2 (pass_succeeds_iff (Scenario.env_of Scenario.repoSigned))).
    exists "/w", (Scenario.git_of Scenario.repoSigned).
    repeat split; try reflexivity; eexists; reflexivity.
  - intros H.
    apply (proj1 (pass_succeeds_iff Scenario.envBroken)) in H.
    destruct H as (root & git & Hr & _ & Hg & _ & (wd & Hw) & _).
    injection Hr as <-. injection Hg as <-. discriminate Hw.
Defined.

(** ** Records of a pass *)

(** Where the records of a pass without error tag come from. *)
Lemma pass_records (env : Env) (stats : LineStats) (rootPath : string)
    (git : SimpleGit) (listing : StatusResult) :
  getLineStats env = Ok (Some stats) -> error stats = None ->
  fsPath env = Some rootPath -> simpleGit env rootPath = Ok git ->
  git_status git = Ok listing ->
  exists workingDiff stagedDiff,
    diff git ["--numstat"] = Ok workingDiff /\
    diff git ["--cached"; "--numstat"] = Ok stagedDiff /\
    changesFiles stats =
      Array_sort byNetLinesDesc
        (diffRecords env working_dir listing workingDiff
         ++ untrackedRecords env listing) /\
    stagedFiles stats =
      Array_sort byNetLinesDesc (diffRecords env index listing stagedDiff).
Proof.
  intros H Herr Hroot Hgit Hstatus.
  destruct (getLineStats_success env stats H Herr)
    as (root' & git' & changes & staged & Hr' & Ht & Hg' & Hrepo & Hc & _).
  rewrite Hroot in Hr'. injection Hr' as <-.
  rewrite Hgit in Hg'. injection Hg' as <-.
  apply collectAreas_inv in Hc
    as (wd & st & _ & sd & Hw & Hs & _ & _ & Hd & _).
  rewrite Hstatus in Hs. injection Hs as <-.
  destruct (pass_closed env rootPath git wd sd listing
              Hroot Ht Hgit Hrepo Hw Hstatus Hd)
    as (stats' & H' & _ & Hcf & Hsf & _).
  rewrite H in H'. injection H' as <-.
  exists wd, sd. auto.
Qed.

Lemma In_Array_sort {A : Type} (cmp : A -> A -> Z) (l : list A) (x : A) :
  In x (Array_sort cmp l) <-> In x l.
Proof.
  split; apply Permutation_in;
    [apply Permutation_sym |]; apply Array_sort_perm.
Qed.

(** X3. In every record of every pass, [netLines] is [linesAdded] minus
    [linesDeleted], and [totalLines] is not negative. *)
Theorem net_is_added_minus_deleted (env : Env) (stats : LineStats)
    (f : FileChange) :
  getLineStats env = Ok (Some stats) ->
  In f (changesFiles stats) \/ In f (stagedFiles stats) ->
  netLines f = linesAdded f - linesDeleted f /\ 0 <= totalLines f.
Proof.
  intros H Hin.
  destruct (getLineStats_inv env stats H)
    as [-> | [-> | (root & git & changes & staged & Hr & _ & Hg & _ & Hc & ->)]];
    try (destruct Hin as [[] | []]).
  pose proof Hc as Hc'.
  apply collectAreas_inv in Hc'
    as (wd & st & _ & sd & Hw & Hs & _ & _ & Hd & _).
  rewrite (collectAreas_closed env git wd st sd Hw Hs Hd) in Hc.
  injection Hc as <- <-. simpl in Hin.
  rewrite !In_Array_sort, in_app_iff in Hin.
  unfold diffRecords, untrackedRecords in Hin. rewrite !in_map_iff in Hin.
  destruct Hin as [[(line & <- & _) | (e & <- & _)] | (line & <- & _)]; simpl;
    (split; [lia | apply resolved_nonneg]).
Qed.

Lemma net_is_added_minus_deleted_witness :
  getLineStats (Scenario.env_of Scenario.repoE) = Ok (Some Scenario.statsE) /\
  In {| path := Some "old.txt"; linesAdded := 0; linesDeleted := 41;
        netLines := -41; status := Del; totalLines := 42 |}
     (changesFiles Scenario.statsE) /\
  -41 = 0 - 41 /\ 0 <= 42.
Proof.
  assert (H : getLineStats (Scenario.env_of Scenario.repoE)
              = Ok (Some Scenario.statsE)) by (vm_compute; reflexivity).
  split; [exact H |]. split; [left; reflexivity |].
  exact (net_is_added_minus_deleted _ _
           {| path := Some "old.txt"; linesAdded := 0; linesDeleted := 41;
              netLines := -41; status := Del; totalLines := 42 |}
           H (or_introl (or_introl eq_refl))).
Defined.

(** ** Classification *)

Lemma classify_undefined slot listing : classify slot listing None = Mod.
Proof.
  unfold classify.
  assert (Hf : forall l : list StatusFile,
             find (fun _ => false) l = None)
    by (induction l; simpl; auto).
  rewrite Hf. reflexivity.
Qed.

Lemma classify_absent slot listing p :
  (forall e, In e (files listing) -> sf_path e <> p) ->
  classify slot listing (Some p) = Mod.
Proof.
  unfold classify. intros Habs.
  destruct (find _ (files listing)) as [e |] eqn:Hfind; [| reflexivity].
  apply find_some in Hfind as [Hin Heq].
  apply String.eqb_eq in Heq. exfalso. exact (Habs e Hin Heq).
Qed.

Lemma classify_first slot listing p pre e post :
  files listing = (pre ++ e :: post)%list -> sf_path e = p ->
  (forall x, In x pre -> sf_path x <> p) ->
  classify slot listing (Some p) = slotStatus (slot e).
Proof.
  unfold classify. intros -> He Hpre.
  induction pre as [| x pre IH]; simpl.
  - rewrite He, String.eqb_refl. reflexivity.
  - destruct (String.eqb_spec (sf_path x) p) as [Hx | _].
    + exfalso. apply (Hpre x); [left; reflexivity | exact Hx].
    + apply IH. intros y Hy. apply Hpre. right. exact Hy.
Qed.

(** X4. In a pass without error tag, the status of a record built from a
    line of a numeric diff is read off the first entry of the listing
    that has the path of the line: [New] when its state character is [A],
    [Del] when it is [D], [Mod] otherwise, and [Mod] when no entry has
    that path or the line has no path.  The staged area reads the index
    character, the changes area the working-tree character; the only
    other records are those of untracked entries, in the changes area,
    with status [New]. *)
Theorem file_status_rule (env : Env) (stats : LineStats) (rootPath : string)
    (git : SimpleGit) (listing : StatusResult) (f : FileChange) :
  getLineStats env = Ok (Some stats) -> error stats = None ->
  fsPath env = Some rootPath -> simpleGit env rootPath = Ok git ->
  git_status git = Ok listing ->
  let rule (slot : StatusFile -> string) :=
    (path f = None -> status f = Mod) /\
    (forall p, path f = Some p ->
       (forall e, In e (files listing) -> sf_path e <> p) -> status f = Mod) /\
    (forall p pre e post, path f = Some p ->
       files listing = (pre ++ e :: post)%list -> sf_path e = p ->
       (forall x, In x pre -> sf_path x <> p) ->
       status f = slotStatus (slot e)) in
  (In f (stagedFiles stats) -> rule index) /\
  (In f (changesFiles stats) ->
   rule working_dir \/
   (status f = New /\
    exists e, In e (files listing) /\ working_dir e = "?" /\
              path f = Some (sf_path e))).
Proof.
  intros H Herr Hroot Hgit Hstatus rule.
  destruct (pass_records env stats rootPath git listing H Herr Hroot Hgit Hstatus)
    as (wd & sd & _ & _ & Hcf & Hsf).
  assert (Hline : forall slot line,
             f = lineRecord env slot listing line -> rule slot).
  { intros slot line ->. unfold rule. simpl. repeat split.
    - intros ->. apply classify_undefined.
    - intros p -> Habs. apply classify_absent, Habs.
    - intros p pre e post -> Hl He Hpre. eapply classify_first; eassumption. }
  split.
  - rewrite Hsf, In_Array_sort. unfold diffRecords. rewrite in_map_iff.
    intros (line & <- & _). eapply Hline. reflexivity.
  - rewrite Hcf, In_Array_sort, in_app_iff. unfold diffRecords, untrackedRecords.
    rewrite !in_map_iff.
    intros [(line & <- & _) | (e & <- & He)].
    + left. eapply Hline. reflexivity.
    + right. split; [reflexivity |].
      apply filter_In in He as [Hin Hq]. apply String.eqb_eq in Hq.
      exists e. auto.
Qed.

Lemma file_status_rule_witness :
  getLineStats (Scenario.env_of Scenario.repoC) = Ok (Some Scenario.statsC) /\
  In {| path := Some "a.ts"; linesAdded := 5; linesDeleted := 3;
        netLines := 2; status := New; totalLines := 5 |}
     (stagedFiles Scenario.statsC) /\
  New = slotStatus "A".
Proof.
  assert (H : getLineStats (Scenario.env_of Scenario.repoC)
              = Ok (Some Scenario.statsC)) by (vm_compute; reflexivity).
  split; [exact H |]. split; [left; reflexivity |].
  destruct (file_status_rule (Scenario.env_of Scenario.repoC)
              Scenario.statsC "/w" (Scenario.git_of Scenario.repoC)
              {| files := Scenario.listing Scenario.repoC |}
              {| path := Some "a.ts"; linesAdded := 5; linesDeleted := 3;
                 netLines := 2; status := New; totalLines := 5 |}
              H eq_refl eq_refl eq_refl eq_refl) as [Hstaged _].
  destruct (Hstaged (or_introl eq_refl)) as (_ & _ & Hfirst).
  apply (Hfirst "a.ts" []
           {| sf_path := "a.ts"; index := "A"; working_dir := " " |}
           [{| sf_path := "b.py"; index := " "; working_dir := "M" |}]
           eq_refl eq_refl eq_refl).
  intros x [].
Defined.

(** ** Counting lines *)

(** X5. The total of a file read from disk is the number of newline
    characters of its text plus one: an empty file counts one line, and
    no readable file counts zero. *)
Theorem line_count_is_newlines_plus_one (env : Env)
    (rootPath filePath content : string) :
  fsPath env = Some rootPath -> truthy rootPath = true ->
  existsSync env (path_join env rootPath filePath) = true ->
  readFileSync env (path_join env rootPath filePath) = Ok content ->
  getFileTotalLines env (Some filePath)
    = Ok (Z.of_nat (countChar LF content) + 1) /\
  (content = "" -> getFileTotalLines env (Some filePath) = Ok 1).
Proof.
  intros Hroot Htruthy Hex Hread.
  assert (H : getFileTotalLines env (Some filePath)
              = Ok (Z.of_nat (countChar LF content) + 1)).
  { rewrite (resolve_on_disk env rootPath filePath Hroot Htruthy Hex), Hread.
    unfold countLines. rewrite length_split. f_equal. lia. }
  split; [exact H |]. intros ->. exact H.
Qed.

Lemma line_count_is_newlines_plus_one_witness :
  countChar LF (Scenario.textOfLines 30) = 29%nat /\
  getFileTotalLines (Scenario.env_of Scenario.repoB) (Some "src/a.ts") = Ok 30.
Proof.
  split; [reflexivity |].
  exact (proj1 (line_count_is_newlines_plus_one
                  (Scenario.env_of Scenario.repoB) "/w" "src/a.ts"
                  (Scenario.textOfLines 30) eq_refl eq_refl eq_refl eq_refl)).
Defined.

(** ** The tooltip *)

Lemma fileRow_hasPath (env : Env) (f : FileChange) :
  fileRow env f =
    if hasPath f then Ok (rowOf env f) else Throw TypeError.
Proof.
  unfold rowOf, fileRow, hasPath, basename.
  destruct (path f); reflexivity.
Qed.

Lemma pushRows_closed (env : Env) (files : list FileChange) :
  forall rows,
    pushRows env files rows =
      if forallb hasPath files then Ok (rows ++ map (rowOf env) files)%list
      else Throw TypeError.
Proof.
  unfold pushRows.
  induction files as [| f files IH]; intros rows; simpl.
  - rewrite app_nil_r. reflexivity.
  - rewrite fileRow_hasPath. destruct (hasPath f); simpl; [| reflexivity].
    rewrite IH. destruct (forallb hasPath files); [| reflexivity].
    rewrite <- app_assoc. reflexivity.
Qed.

(** The tooltip, or the throw of [path.basename]. *)
Lemma tooltipText_closed (env : Env) (stats : LineStats) :
  tooltipText env stats =
    if forallb hasPath (stagedFiles stats ++ changesFiles stats)
    then Ok (join nl
               ([stagedHeader stats] ++ map (rowOf env) (stagedFiles stats)
                ++ [nl ++ changesHeader stats]
                ++ map (rowOf env) (changesFiles stats)
                ++ [nl ++ totalHeader stats]))
    else Throw TypeError.
Proof.
  unfold tooltipText. rewrite forallb_app, pushRows_closed.
  destruct (forallb hasPath (stagedFiles stats)); cbn [bind andb];
    [| reflexivity].
  rewrite pushRows_closed.
  destruct (forallb hasPath (changesFiles stats)); cbn [bind];
    [| reflexivity].
  unfold stagedHeader, changesHeader, totalHeader, delta, stagedNet,
    changesNet.
  reflexivity.
Qed.

(** X6. The tooltip can be built exactly when every record of both
    areas has a path.  It is then, joined by newlines: the staged header,
    one row per staged file, a blank line and the changes header, one row
    per changed file, a blank line and the total header; the rows follow
    the order of the two file sequences, and each reads
    [  {±net} (+{add}-{del})={totalLines} [{status}] {base name}].
    Otherwise building it throws a [TypeError]. *)
Theorem tooltip_closed_form (env : Env) (stats : LineStats) :
  tooltipText env stats =
    (if forallb hasPath (stagedFiles stats ++ changesFiles stats)
     then Ok (join nl
                ([stagedHeader stats] ++ map (rowOf env) (stagedFiles stats)
                 ++ [nl ++ changesHeader stats]
                 ++ map (rowOf env) (changesFiles stats)
                 ++ [nl ++ totalHeader stats]))
     else Throw TypeError) /\
  (forall f p, path f = Some p ->
     rowOf env f =
       "  " ++ delta (netLines f) (linesAdded f) (linesDeleted f)
            ++ "=" ++ toString (totalLines f)
            ++ " [" ++ statusName (status f) ++ "] " ++ path_basename env p).
Proof.
  split; [apply tooltipText_closed |].
  - intros f p Hp. unfold rowOf, fileRow, basename, delta, addDel.
    rewrite Hp. cbn [bind]. repeat (rewrite !append_assoc; simpl).
    reflexivity.
Qed.

(** The item after a pass without error tag. *)
Lemma updateStatusBar_closed (env : Env) (item : StatusBarItem)
    (stats : LineStats) :
  getLineStats env = Ok (Some stats) -> error stats = None ->
  updateStatusBar env item =
    if forallb hasPath (stagedFiles stats ++ changesFiles stats)
    then {| text := summaryText stats;
            tooltip :=
              join nl
                ([stagedHeader stats] ++ map (rowOf env) (stagedFiles stats)
                 ++ [nl ++ changesHeader stats]
                 ++ map (rowOf env) (changesFiles stats)
                 ++ [nl ++ totalHeader stats]) |}
    else {| text := icon ++ "Git: Error";
            tooltip := "Error updating git status" |}.
Proof.
  intros H Herr. unfold updateStatusBar, onStats. rewrite H, Herr.
  rewrite tooltipText_closed.
  destruct (forallb hasPath _); reflexivity.
Qed.

(** X7. After a pass without error tag, the item shows the summary and
    the tooltip when every record has a path, and the error text
    [Git: Error] with the tooltip [Error updating git status] when some
    record has none: the summary written first does not remain. *)
Theorem display_after_pass (env : Env) (item : StatusBarItem)
    (stats : LineStats) :
  getLineStats env = Ok (Some stats) -> error stats = None ->
  updateStatusBar env item =
    if forallb hasPath (stagedFiles stats ++ changesFiles stats)
    then {| text := summaryText stats;
            tooltip :=
              join nl
                ([stagedHeader stats] ++ map (rowOf env) (stagedFiles stats)
                 ++ [nl ++ changesHeader stats]
                 ++ map (rowOf env) (changesFiles stats)
                 ++ [nl ++ totalHeader stats]) |}
    else {| text := icon ++ "Git: Error";
            tooltip := "Error updating git status" |}.
Proof.
  intros H Herr. exact (updateStatusBar_closed env item stats H Herr).
Qed.

Lemma display_after_pass_witness :
  (getLineStats (Scenario.env_of Scenario.repoC) = Ok (Some Scenario.statsC) /\
   tooltip (updateStatusBar (Scenario.env_of Scenario.repoC) Scenario.blankItem)
     = "Staged: +2 (+5-3)" ++ nl
       ++ "  +2 (+5-3)=5 [New] a.ts" ++ nl ++ nl
       ++ "Changes: +8 (+10-2)" ++ nl
       ++ "  +8 (+10-2)=20 [Mod] b.py" ++ nl ++ nl
       ++ "Total: +10 (+15-5)") /\
  (getLineStats (Scenario.env_of Scenario.repoBinary)
     = Ok (Some Scenario.statsBinary) /\
   updateStatusBar (Scenario.env_of Scenario.repoBinary) Scenario.blankItem
     = {| text := icon ++ "Git: Error";
          tooltip := "Error updating git status" |}).
Proof.
  assert (HC : getLineStats (Scenario.env_of Scenario.repoC)
               = Ok (Some Scenario.statsC)) by (vm_compute; reflexivity).
  assert (HB : getLineStats (Scenario.env_of Scenario.repoBinary)
               = Ok (Some Scenario.statsBinary)) by (vm_compute; reflexivity).
  split; (split; [assumption |]).
  - rewrite (display_after_pass _ Scenario.blankItem _ HC eq_refl).
    vm_compute. reflexivity.
  - rewrite (display_after_pass _ Scenario.blankItem _ HB eq_refl).
    reflexivity.
Defined.

Lemma tooltip_closed_form_witness :
  tooltipText (Scenario.env_of Scenario.repoC) Scenario.statsC
    = Ok ("Staged: +2 (+5-3)" ++ nl
          ++ "  +2 (+5-3)=5 [New] a.ts" ++ nl ++ nl
          ++ "Changes: +8 (+10-2)" ++ nl
          ++ "  +8 (+10-2)=20 [Mod] b.py" ++ nl ++ nl
          ++ "Total: +10 (+15-5)") /\
  tooltipText (Scenario.env_of Scenario.repoBinary) Scenario.statsBinary
    = Throw TypeError.
Proof.
  split.
  - rewrite (proj1 (tooltip_closed_form _ _)). vm_compute. reflexivity.
  - rewrite (proj1 (tooltip_closed_form _ _)). reflexivity.
Defined.

(** ** Both nets at zero *)

(** C5, as the code has it.  For every pass without error in which both
    nets are 0, the summary is the icon token followed by the literal
    [Clean] and nothing else, and the callback writes it to the status
    text.  When moreover the pass found no file in either area, the item
    ends with that text and with the tooltip of three headers
    [Staged: +0 (+0-0)], [Changes: +0 (+0-0)], [Total: +0 (+0-0)] and no
    file row.  When it found files and every record has a path, the item
    ends with that text and with a tooltip whose three headers read [+0]
    followed by the sums of lines added and deleted of the area, which
    are the sums over its files, and which has one row per file under the
    header of its area.  A repository without any change is a pass of the
    first kind. *)
Theorem clean_summary_and_tooltip (env : Env) (item : StatusBarItem)
    (stats : LineStats) :
  getLineStats env = Ok (Some stats) -> error stats = None ->
  stagedNet stats = 0 -> changesNet stats = 0 ->
  (summaryText stats = icon ++ "Clean" /\
   text (fst (onStats env (Some stats) item)) = icon ++ "Clean") /\
  (changesFiles stats = [] -> stagedFiles stats = [] ->
   updateStatusBar env item
     = {| text := icon ++ "Clean"; tooltip := cleanTooltip |}) /\
  (forallb hasPath (stagedFiles stats ++ changesFiles stats) = true ->
   updateStatusBar env item
     = {| text := icon ++ "Clean";
          tooltip :=
            join nl
              (["Staged: +0 " ++ addDel (stagedLinesAdded stats)
                                        (stagedLinesDeleted stats)]
               ++ map (rowOf env) (stagedFiles stats)
               ++ [nl ++ "Changes: +0 "
                      ++ addDel (changesLinesAdded stats)
                                (changesLinesDeleted stats)]
               ++ map (rowOf env) (changesFiles stats)
               ++ [nl ++ "Total: +0 "
                      ++ addDel (stagedLinesAdded stats + changesLinesAdded stats)
                                (stagedLinesDeleted stats
                                 + changesLinesDeleted stats)]) |} /\
   stagedLinesAdded stats = sumOf linesAdded (stagedFiles stats) /\
   stagedLinesDeleted stats = sumOf linesDeleted (stagedFiles stats) /\
   changesLinesAdded stats = sumOf linesAdded (changesFiles stats) /\
   changesLinesDeleted stats = sumOf linesDeleted (changesFiles stats)) /\
  updateStatusBar (Scenario.env_of Scenario.cleanRepo) Scenario.blankItem
    = {| text := icon ++ "Clean"; tooltip := cleanTooltip |}.
Proof.
  intros H Herr Hs Hc.
  pose proof (summaryText_clean stats Hs Hc) as Hsum.
  destruct (sums_agree_of_pass env stats H) as [Hca Hsa].
  split; [split |]; [exact Hsum | | split; [| split]].
  - rewrite onStats_text by exact Herr. exact Hsum.
  - intros Hcf Hsf.
    rewrite (updateStatusBar_success env item stats cleanTooltip H Herr),
      Hsum; [reflexivity |].
    apply tooltipText_no_files; assumption.
  - intros Hpaths.
    rewrite (updateStatusBar_closed env item stats H Herr), Hpaths, Hsum.
    unfold stagedHeader, changesHeader, totalHeader. rewrite Hs, Hc.
    destruct Hca as [Hca1 Hca2]. destruct Hsa as [Hsa1 Hsa2].
    simpl in Hca1, Hca2, Hsa1, Hsa2.
    split; [reflexivity |]. auto.
  - vm_compute. reflexivity.
Qed.

Lemma clean_summary_and_tooltip_witness :
  (getLineStats (Scenario.env_of Scenario.cleanRepo)
     = Ok (Some Scenario.statsClean) /\
   (stagedNet Scenario.statsClean = 0 /\ changesNet Scenario.statsClean = 0) /\
   updateStatusBar (Scenario.env_of Scenario.cleanRepo) Scenario.blankItem
     = {| text := icon ++ "Clean"; tooltip := cleanTooltip |}) /\
  (getLineStats (Scenario.env_of Scenario.repoBalanced)
     = Ok (Some Scenario.statsBalanced) /\
   (stagedNet Scenario.statsBalanced = 0 /\
    changesNet Scenario.statsBalanced = 0) /\
   updateStatusBar (Scenario.env_of Scenario.repoBalanced) Scenario.blankItem
     = {| text := icon ++ "Clean";
          tooltip := "Staged: +0 (+0-0)" ++ nl ++ nl
                     ++ "Changes: +0 (+3-3)" ++ nl
                     ++ "  +0 (+3-3)=4 [Mod] f.txt" ++ nl ++ nl
                     ++ "Total: +0 (+3-3)" |}).
Proof.
  assert (H : getLineStats (Scenario.env_of Scenario.cleanRepo)
              = Ok (Some Scenario.statsClean)) by (vm_compute; reflexivity).
  assert (HB : getLineStats (Scenario.env_of Scenario.repoBalanced)
               = Ok (Some Scenario.statsBalanced)) by (vm_compute; reflexivity).
  split; (split; [assumption |]); (split; [split; reflexivity |]).
  - destruct (clean_summary_and_tooltip _ Scenario.blankItem _ H
                eq_refl eq_refl eq_refl) as (_ & Hfiles & _).
    apply Hfiles; reflexivity.
  - destruct (clean_summary_and_tooltip _ Scenario.blankItem _ HB
                eq_refl eq_refl eq_refl) as (_ & _ & Hrows & _).
    destruct (Hrows eq_refl) as [Hitem _].
    rewrite Hitem. vm_compute. reflexivity.
Defined.

(** ** Lines without a path *)

Lemma forallb_Array_sort {A : Type} (p : A -> bool) (cmp : A -> A -> Z)
    (l : list A) :
  forallb p (Array_sort cmp l) = forallb p l.
Proof.
  apply eq_true_iff_eq. rewrite !forallb_forall.
  split; intros H x Hx; apply H; apply (In_Array_sort cmp l x); exact Hx.
Qed.

Lemma hasPath_lineRecord env slot status line :
  hasPath (lineRecord env slot status line) = threeFields line.
Proof.
  unfold hasPath, threeFields. simpl.
  destruct (split TAB line) as [| a [| b [| c l]]]; reflexivity.
Qed.

Lemma hasPath_diffRecords env slot status diffText :
  forallb hasPath (diffRecords env slot status diffText)
    = completeLines diffText.
Proof.
  unfold diffRecords, completeLines.
  induction (split LF (trim diffText)) as [| line lines IH]; simpl;
    [reflexivity |].
  destruct (nonBlank line); simpl; [| exact IH].
  rewrite hasPath_lineRecord, IH. reflexivity.
Qed.

Lemma hasPath_untrackedRecords env status :
  forallb hasPath (untrackedRecords env status) = true.
Proof.
  unfold untrackedRecords.
  induction (untracked status) as [| e l IH]; simpl; [reflexivity | exact IH].
Qed.

(** X8. On a repository where the git commands resolve, the item after
    the pass is the summary and the tooltip when every non-blank line of
    both numeric diffs has three tab-separated fields, and the error item
    when some non-blank line has fewer: one line without a path hides the
    statistics of all the others.  Untracked entries never cause this. *)
Theorem display_needs_complete_lines (env : Env) (item : StatusBarItem)
    (rootPath : string) (git : SimpleGit) (workingDiff stagedDiff : string)
    (listing : StatusResult) :
  fsPath env = Some rootPath -> truthy rootPath = true ->
  simpleGit env rootPath = Ok git -> checkIsRepo git = Ok true ->
  diff git ["--numstat"] = Ok workingDiff ->
  git_status git = Ok listing ->
  diff git ["--cached"; "--numstat"] = Ok stagedDiff ->
  exists stats,
    getLineStats env = Ok (Some stats) /\
    if completeLines stagedDiff && completeLines workingDiff
    then text (updateStatusBar env item) = summaryText stats /\
         tooltipText env stats = Ok (tooltip (updateStatusBar env item))
    else updateStatusBar env item = errorItem.
Proof.
  intros Hroot Htruthy Hgit Hrepo Hw Hs Hd.
  destruct (pass_closed env rootPath git workingDiff stagedDiff listing
              Hroot Htruthy Hgit Hrepo Hw Hs Hd)
    as (stats & H & Herr & Hcf & Hsf & _).
  exists stats. split; [exact H |].
  rewrite (updateStatusBar_closed env item stats H Herr).
  rewrite tooltipText_closed.
  rewrite forallb_app, Hcf, Hsf, !forallb_Array_sort, forallb_app,
    !hasPath_diffRecords, hasPath_untrackedRecords, andb_true_r.
  destruct (completeLines stagedDiff && completeLines workingDiff);
    [split |]; reflexivity.
Qed.

Lemma display_needs_complete_lines_witness :
  (completeLines (Scenario.staged Scenario.repoBinary) = false /\
   updateStatusBar (Scenario.env_of Scenario.repoBinary) Scenario.blankItem
     = errorItem) /\
  (completeLines (Scenario.staged Scenario.repoB)
     && completeLines (Scenario.working Scenario.repoB) = true /\
   text (updateStatusBar (Scenario.env_of Scenario.repoB) Scenario.blankItem)
     = icon ++ "+10 (+15-5)").
Proof.
  split; (split; [reflexivity |]).
  - destruct (display_needs_complete_lines
                (Scenario.env_of Scenario.repoBinary) Scenario.blankItem "/w"
                (Scenario.git_of Scenario.repoBinary)
                (Scenario.working Scenario.repoBinary)
                (Scenario.staged Scenario.repoBinary)
                {| files := Scenario.listing Scenario.repoBinary |}
                eq_refl eq_refl eq_refl eq_refl eq_refl eq_refl eq_refl)
      as (stats & _ & Hshow).
    exact Hshow.
  - destruct (display_needs_complete_lines
                (Scenario.env_of Scenario.repoB) Scenario.blankItem "/w"
                (Scenario.git_of Scenario.repoB)
                (Scenario.working Scenario.repoB)
                (Scenario.staged Scenario.repoB)
                {| files := Scenario.listing Scenario.repoB |}
                eq_refl eq_refl eq_refl eq_refl eq_refl eq_refl eq_refl)
      as (stats & Hpass & Hshow).
    assert (Hs : stats = Scenario.statsB).
    { assert (HB : getLineStats (Scenario.env_of Scenario.repoB)
                   = Ok (Some Scenario.statsB)) by (vm_compute; reflexivity).
      rewrite HB in Hpass. injection Hpass as <-. reflexivity. }
    subst stats. destruct Hshow as [Htext _]. rewrite Htext.
    vm_compute. reflexivity.
Defined.

(** ** What the item shows never depends on what it showed *)

(** X9. The item after a pass is the same whatever the item was before:
    no text or tooltip of an earlier pass survives, and a second pass on
    an unchanged host leaves the item as the first one did. *)
Theorem display_forgets_previous (env : Env) (item item' : StatusBarItem) :
  updateStatusBar env item = updateStatusBar env item' /\
  updateStatusBar env (updateStatusBar env item) = updateStatusBar env item.
Proof.
  assert (H : forall a b, updateStatusBar env a = updateStatusBar env b).
  { intros a b. unfold updateStatusBar, onStats.
    destruct (getLineStats env) as [[stats |] | e]; try reflexivity.
    destruct (error stats) as [[|] |]; try reflexivity.
    destruct (tooltipText env stats); reflexivity. }
  split; apply H.
Qed.

Lemma summaryText_icon (stats : LineStats) :
  exists rest, summaryText stats = icon ++ rest.
Proof.
  unfold summaryText, icon.
  repeat match goal with
         | |- context [if ?b then _ else _] => destruct b
         end;
    rewrite ?append_assoc; eexists; reflexivity.
Qed.

(** X10. Whatever the host answers, the status text after a pass starts
    with the icon token [$(git-commit) ]. *)
Theorem status_text_has_icon (env : Env) (item : StatusBarItem) :
  exists rest, text (updateStatusBar env item) = icon ++ rest.
Proof.
  unfold updateStatusBar, onStats.
  destruct (getLineStats env) as [[stats |] | e];
    try (eexists; reflexivity).
  destruct (error stats) as [[|] |]; try (eexists; reflexivity).
  destruct (tooltipText env stats); simpl;
    [apply summaryText_icon | eexists; reflexivity].
Qed.

(** ** Printing and parsing numbers *)

Lemma digitsPrefix_string_of_uint (d : Decimal.uint) :
  digitsPrefix 10 (NilEmpty.string_of_uint d) = uintDigits d.
Proof.
  induction d; simpl; try rewrite IHd; reflexivity.
Qed.

Lemma of_uint_acc_horner (d : Decimal.uint) :
  forall acc,
    Z.pos (Pos.of_uint_acc d acc)
    = fold_left (fun a x => a * 10 + x) (uintDigits d) (Z.pos acc).
Proof.
  induction d; intros acc; cbn [Pos.of_uint_acc uintDigits fold_left];
    try reflexivity; rewrite IHd; f_equal; lia.
Qed.

Lemma of_uint_horner (d : Decimal.uint) :
  Z.of_N (Pos.of_uint d) = digitsValue 10 (uintDigits d).
Proof.
  unfold digitsValue.
  induction d; simpl; try reflexivity; try exact IHd;
    rewrite of_uint_acc_horner; reflexivity.
Qed.

Lemma parseDigits_to_uint (p : positive) :
  parseDigits 10 (NilEmpty.string_of_uint (Pos.to_uint p)) = Some (Z.pos p).
Proof.
  unfold parseDigits. rewrite digitsPrefix_string_of_uint.
  pose proof (of_uint_horner (Pos.to_uint p)) as H.
  rewrite DecimalPos.Unsigned.of_to in H. simpl in H.
  destruct (uintDigits (Pos.to_uint p)) as [| x l]; [discriminate |].
  rewrite <- H. reflexivity.
Qed.

(** A decimal numeral never starts with a [0x] prefix, a sign or white
    space. *)
Lemma parseUnsigned_string_of_uint (d : Decimal.uint) :
  parseUnsigned (NilEmpty.string_of_uint d)
  = parseDigits 10 (NilEmpty.string_of_uint d).
Proof.
  destruct d as [| d | d | d | d | d | d | d | d | d | d]; try reflexivity;
    destruct d; reflexivity.
Qed.

Lemma parseInt_string_of_uint (d : Decimal.uint) :
  d <> Decimal.Nil ->
  parseInt (Some (NilEmpty.string_of_uint d))
  = parseUnsigned (NilEmpty.string_of_uint d).
Proof.
  intros Hd. destruct d; [contradiction | ..]; reflexivity.
Qed.

Lemma string_of_uint_nonnil (d : Decimal.uint) :
  d <> Decimal.Nil ->
  NilZero.string_of_uint d = NilEmpty.string_of_uint d.
Proof. destruct d; [contradiction | ..]; reflexivity. Qed.

(** In the model, where a number is an integer of any size, [parseInt]
    reads back every integer as the templates print it.  The numbers of
    the source agree with these integers below [2 ^ 53]. *)
Lemma parseInt_toString (n : Z) :
  parseInt (Some (toString n)) = Some n /\
  orZero (parseInt (Some (toString n))) = n.
Proof.
  assert (H : parseInt (Some (toString n)) = Some n).
  { unfold toString. destruct n as [| p | p]; simpl Z.to_int.
    - reflexivity.
    - unfold NilZero.string_of_int.
      pose proof (DecimalPos.Unsigned.to_uint_nonnil p) as Hp.
      rewrite (string_of_uint_nonnil _ Hp),
        (parseInt_string_of_uint _ Hp), parseUnsigned_string_of_uint.
      apply parseDigits_to_uint.
    - unfold NilZero.string_of_int.
      pose proof (DecimalPos.Unsigned.to_uint_nonnil p) as Hp.
      rewrite (string_of_uint_nonnil _ Hp).
      unfold parseInt. cbn [strOf trimStart isWhiteSpace].
      change (isWhiteSpace "-") with false. cbn iota.
      change (Ascii.eqb "-" "-") with true. cbn iota.
      rewrite parseUnsigned_string_of_uint, parseDigits_to_uint. reflexivity. }
  split; [exact H |].
  rewrite H. unfold orZero. destruct (Z.eqb_spec n 0); congruence.
Qed.

Lemma allDigits_string_of_uint (d : Decimal.uint) :
  allDigits (NilEmpty.string_of_uint d) = true.
Proof.
  induction d; simpl; try exact IHd; reflexivity.
Qed.

(** A count that is not negative is printed as git prints counts. *)
Lemma numstatCount_toString (n : Z) :
  0 <= n -> numstatCount (toString n) = true.
Proof.
  intros Hn. unfold toString. destruct n as [| p | p]; [reflexivity | | lia].
  simpl Z.to_int. unfold NilZero.string_of_int.
  pose proof (DecimalPos.Unsigned.to_uint_nonnil p) as Hp.
  rewrite (string_of_uint_nonnil _ Hp).
  unfold numstatCount. rewrite allDigits_string_of_uint, andb_true_r.
  destruct (Pos.to_uint p); [contradiction | ..]; apply orb_true_r.
Qed.

Lemma allDigits_no_TAB (s : string) :
  allDigits s = true -> countChar TAB s = 0%nat.
Proof.
  induction s as [| c s IH]; simpl; [reflexivity |].
  intros H. apply andb_prop in H as [Hc Hs]. rewrite (IH Hs).
  revert Hc. clear.
  destruct c as [[] [] [] [] [] [] [] []]; vm_compute; intros Hc;
    try discriminate Hc; reflexivity.
Qed.

Lemma numstatCount_no_TAB (s : string) :
  numstatCount s = true -> countChar TAB s = 0%nat.
Proof.
  unfold numstatCount.
  destruct (String.eqb_spec s "-") as [-> | _]; [reflexivity |].
  cbn [orb]. intros H. apply andb_prop in H as [_ H].
  apply allDigits_no_TAB, H.
Qed.

Lemma split_no_sep (sep : ascii) (s : string) :
  countChar sep s = 0%nat -> split sep s = [s].
Proof.
  induction s as [| c s IH]; simpl; [reflexivity |].
  destruct (Ascii.eqb c sep); [discriminate |].
  intros H. rewrite (IH H). reflexivity.
Qed.

Lemma split_app_sep (sep : ascii) (s t : string) :
  countChar sep s = 0%nat ->
  split sep (s ++ String sep t) = s :: split sep t.
Proof.
  induction s as [| c s IH]; simpl.
  - rewrite Ascii.eqb_refl. reflexivity.
  - destruct (Ascii.eqb c sep); [discriminate |].
    intros H. rewrite (IH H). reflexivity.
Qed.

(** A line that starts with a count is not blank. *)
Lemma nonBlank_count (s rest : string) :
  numstatCount s = true -> nonBlank (s ++ rest) = true.
Proof.
  intros Hs.
  assert (Hc : exists c s', s = String c s' /\ isWhiteSpace c = false).
  { unfold numstatCount in Hs.
    destruct (String.eqb_spec s "-") as [-> | _];
      [eexists; eexists; split; reflexivity |].
    cbn [orb] in Hs. apply andb_prop in Hs as [Hne Hd].
    destruct s as [| c s']; [discriminate |].
    exists c, s'. split; [reflexivity |].
    cbn [allDigits] in Hd. apply andb_prop in Hd as [Hc _].
    revert Hc. clear.
    destruct c as [[] [] [] [] [] [] [] []]; vm_compute; intros Hc;
      try discriminate Hc; reflexivity. }
  destruct Hc as (c & s' & -> & Hws).
  unfold nonBlank, trim. cbn [append trimStart]. rewrite Hws.
  cbn [trimEnd]. destruct (trimEnd (s' ++ rest)); [rewrite Hws |]; reflexivity.
Qed.

(** X11. A line of the numeric diff that gives two counts below
    [2 ^ 53] as git prints them, in decimal, and a path is turned into a
    record with exactly these counts and this path, whose net is their
    difference; and the row of that record in the tooltip shows the two
    counts with the digits git printed. *)
Theorem count_shown_as_written (env : Env) (slot : StatusFile -> string)
    (listing : StatusResult) (acc : Area) (a d : Z) (p : string) :
  0 <= a < 2 ^ 53 -> 0 <= d < 2 ^ 53 -> countChar TAB p = 0%nat ->
  exists f,
    diffLine env slot listing acc
      (toString a ++ String TAB (toString d ++ String TAB p))
      = Ok (pushed acc [f]) /\
    path f = Some p /\ linesAdded f = a /\ linesDeleted f = d /\
    netLines f = a - d /\
    fileRow env f
      = Ok ("  " ++ signed (a - d) ++ " (+" ++ toString a ++ "-" ++ toString d
            ++ ")=" ++ toString (totalLines f)
            ++ " [" ++ statusName (status f) ++ "] " ++ path_basename env p).
Proof.
  intros Ha Hd Hp.
  assert (Hca : numstatCount (toString a) = true)
    by (apply numstatCount_toString; lia).
  assert (Hcd : numstatCount (toString d) = true)
    by (apply numstatCount_toString; lia).
  assert (Hsplit : split TAB (toString a ++ String TAB (toString d ++ String TAB p))
                   = [toString a; toString d; p]).
  { rewrite (split_app_sep TAB _ _ (numstatCount_no_TAB _ Hca)),
      (split_app_sep TAB _ _ (numstatCount_no_TAB _ Hcd)),
      (split_no_sep TAB p Hp).
    reflexivity. }
  exists (lineRecord env slot listing
            (toString a ++ String TAB (toString d ++ String TAB p))).
  rewrite diffLine_closed, (nonBlank_count _ _ Hca).
  split; [reflexivity |].
  unfold lineRecord, fileRow, basename. rewrite Hsplit.
  cbn [nth_error path linesAdded linesDeleted netLines status totalLines].
  rewrite (proj2 (parseInt_toString a)), (proj2 (parseInt_toString d)).
  repeat (split; [reflexivity |]).
  cbn [bind]. unfold addDel. repeat (rewrite !append_assoc; simpl).
  reflexivity.
Qed.

Lemma count_shown_as_written_witness :
  exists f,
    diffLine (Scenario.env_of Scenario.repoB) working_dir
      {| files := Scenario.listing Scenario.repoB |} emptyArea
      ("15" ++ String TAB ("5" ++ String TAB "src/a.ts"))
      = Ok (pushed emptyArea [f]) /\
    linesAdded f = 15 /\ linesDeleted f = 5 /\ netLines f = 10 /\
    fileRow (Scenario.env_of Scenario.repoB) f
      = Ok ("  +10 (+15-5)=" ++ toString (totalLines f)
            ++ " [" ++ statusName (status f) ++ "] a.ts").
Proof.
  destruct (count_shown_as_written (Scenario.env_of Scenario.repoB) working_dir
              {| files := Scenario.listing Scenario.repoB |} emptyArea
              15 5 "src/a.ts")
    as (f & Hline & _ & Hadd & Hdel & Hnet & Hrow);
    [lia | lia | reflexivity |].
  exists f. split; [exact Hline |].
  split; [exact Hadd |]. split; [exact Hdel |]. split; [exact Hnet |].
  exact Hrow.
Defined.

(** * Debounce and events *)

Section EventLoopFacts.
Import EventLoop.

Lemma nil_of_no_In {A : Type} (l : list A) : (forall x, ~ In x l) -> l = [].
Proof.
  destruct l as [| a l]; [reflexivity |].
  intros H. exfalso. apply (H a). left. reflexivity.
Qed.

Lemma passTimers_In (st : State) (t : Timer) :
  In t (passTimers st) <-> In t (pending st) /\ callback t = RunPass.
Proof.
  unfold passTimers. rewrite filter_In.
  destruct (callback t); split; intros [H1 H2]; split;
    auto; discriminate.
Qed.

(** The state between the [clearTimeout] and the [setTimeout] of
    [updateStatusBar]. *)
Lemma cleared_no_pass_timer (st : State) :
  Inv st ->
  passTimers (match updateTimeout st with
              | Some h => clearTimeout h st
              | None => st
              end) = [].
Proof.
  intros HI. apply nil_of_no_In. intros t Ht.
  destruct (updateTimeout st) as [h |] eqn:Hu.
  - apply passTimers_In in Ht as [Hin Hcb]. simpl in Hin.
    apply filter_In in Hin as [Hin Hne].
    destruct (pass_timer_kept st HI t) as [Hk _];
      [apply passTimers_In; auto |].
    rewrite Hu in Hk. injection Hk as ->.
    rewrite Nat.eqb_refl in Hne. discriminate.
  - destruct (pass_timer_kept st HI t Ht) as [Hk _].
    rewrite Hu in Hk. discriminate.
Qed.

Lemma cleared_pending_incl (st : State) (t : Timer) :
  In t (pending (match updateTimeout st with
                 | Some h => clearTimeout h st
                 | None => st
                 end)) -> In t (pending st).
Proof.
  destruct (updateTimeout st); simpl; [| auto].
  intros H. apply filter_In in H. tauto.
Qed.

(** Dropping timers keeps the handles of the others distinct. *)
Lemma distinct_handles_filter (keep : Timer -> bool) (timers : list Timer) :
  NoDup (map handle timers) -> NoDup (map handle (filter keep timers)).
Proof.
  intros Hnd. induction timers as [| t timers IH]; simpl; [constructor |].
  simpl in Hnd. apply NoDup_cons_iff in Hnd as [Hnot Hnd].
  destruct (keep t); simpl; [| apply IH, Hnd].
  apply NoDup_cons; [| apply IH, Hnd].
  intros Hin. apply Hnot.
  apply in_map_iff in Hin as (x & Hx & Hin).
  apply filter_In in Hin as [Hin _]. apply in_map_iff. eauto.
Qed.

Lemma NoDup_snoc {A : Type} (l : list A) (x : A) :
  NoDup l -> ~ In x l -> NoDup (l ++ [x]).
Proof.
  intros Hl Hx.
  apply (Permutation_NoDup (Permutation_cons_append l x)).
  constructor; assumption.
Qed.

Lemma cleared_distinct (st : State) :
  Inv st ->
  NoDup (map handle (pending (match updateTimeout st with
                              | Some h => clearTimeout h st
                              | None => st
                              end))).
Proof.
  intros HI. destruct (updateTimeout st); simpl.
  - apply distinct_handles_filter, (handles_distinct st HI).
  - apply (handles_distinct st HI).
Qed.

Lemma updateStatusBar_fields (st : State) :
  let cleared := match updateTimeout st with
                 | Some h => clearTimeout h st
                 | None => st
                 end in
  clock (updateStatusBar st) = clock st /\
  nextHandle (updateStatusBar st) = S (nextHandle st) /\
  pending (updateStatusBar st) =
    (pending cleared ++
     [{| handle := nextHandle st; due := clock st + 500;
         callback := RunPass |}])%list /\
  updateTimeout (updateStatusBar st) = Some (nextHandle st) /\
  calls (updateStatusBar st) = clock st :: calls st /\
  passes (updateStatusBar st) = passes st.
Proof.
  unfold updateStatusBar. destruct (updateTimeout st); simpl; auto 10.
Qed.

Lemma passTimers_app (st : State) (l1 l2 : list Timer) :
  pending st = (l1 ++ l2)%list ->
  passTimers st =
    (filter (fun t => match callback t with RunPass => true | _ => false end) l1
     ++ filter (fun t => match callback t with RunPass => true | _ => false end)
          l2)%list.
Proof. unfold passTimers. intros ->. apply filter_app. Qed.

(** After a call of [updateStatusBar] the only timer that will run the
    pass is the one just set. *)
Lemma updateStatusBar_passTimers (st : State) :
  Inv st ->
  passTimers (updateStatusBar st) =
    [{| handle := nextHandle st; due := clock st + 500; callback := RunPass |}].
Proof.
  intros HI.
  destruct (updateStatusBar_fields st) as (_ & _ & Hp & _).
  rewrite (passTimers_app _ _ _ Hp).
  pose proof (cleared_no_pass_timer st HI) as Hnil.
  unfold passTimers in Hnil. rewrite Hnil. reflexivity.
Qed.

Lemma Inv_updateStatusBar (st : State) : Inv st -> Inv (updateStatusBar st).
Proof.
  intros HI.
  pose proof (updateStatusBar_passTimers st HI) as Hpt.
  destruct (updateStatusBar_fields st) as (Hc & Hn & Hp & Hu & Hcalls & Hpasses).
  assert (Hold : forall t,
             In t (pending (match updateTimeout st with
                            | Some h => clearTimeout h st
                            | None => st
                            end)) -> (handle t < nextHandle st)%nat).
  { intros t Ht. apply cleared_pending_incl in Ht.
    pose proof (handles_fresh st HI) as Hf. rewrite Forall_forall in Hf.
    apply Hf, Ht. }
  constructor.
  - rewrite Hn, Hp. apply Forall_app. split.
    + apply Forall_forall. intros t Ht. apply Hold in Ht. lia.
    + constructor; [simpl; lia | constructor].
  - rewrite Hp, map_app. simpl.
    apply NoDup_snoc; [apply cleared_distinct, HI |].
    intros Hin. apply in_map_iff in Hin as (t & Ht & Hin).
    apply Hold in Hin. lia.
  - rewrite Hpt. intros t [<- | []]. split; [exact Hu |].
    rewrite Hcalls. eauto.
  - rewrite Hu, Hn. intros h Hh. injection Hh as <-. lia.
  - rewrite Hp, Hu. intros t Ht Hcb Heq.
    apply in_app_iff in Ht as [Ht | [<- | []]]; [| discriminate].
    apply Hold in Ht. injection Heq as Heq. lia.
  - rewrite Hcalls, Hc. constructor; [lia | apply (calls_past st HI)].
  - rewrite Hpasses, Hpt, Hcalls. simpl.
    pose proof (passes_counted st HI). lia.
Qed.

Lemma length_filter_filter {A : Type} (p q : A -> bool) (l : list A) :
  (List.length (filter p (filter q l)) <= List.length (filter p l))%nat.
Proof.
  induction l as [| a l IH]; simpl; [lia |].
  destruct (q a); simpl; destruct (p a); simpl; lia.
Qed.

Lemma Inv_clearTimeout (h : nat) (st : State) :
  Inv st -> Inv (clearTimeout h st).
Proof.
  intros HI. constructor; simpl.
  - pose proof (handles_fresh st HI) as Hf. rewrite Forall_forall in *.
    intros t Ht. apply filter_In in Ht as [Ht _]. apply Hf, Ht.
  - apply distinct_handles_filter, (handles_distinct st HI).
  - intros t Ht. apply passTimers_In in Ht as [Hin Hcb]. simpl in Hin.
    apply filter_In in Hin as [Hin _].
    apply (pass_timer_kept st HI). apply passTimers_In. auto.
  - apply (kept_fresh st HI).
  - intros t Ht. apply filter_In in Ht as [Ht _].
    apply (delayed_not_kept st HI t Ht).
  - apply (calls_past st HI).
  - pose proof (passes_counted st HI) as Hc.
    unfold passTimers in *. simpl.
    pose proof (length_filter_filter
                  (fun t => match callback t with
                            | RunPass => true
                            | _ => false
                            end)
                  (fun t => negb (Nat.eqb (handle t) h)) (pending st)).
    lia.
Qed.

Lemma Inv_delayed (st : State) :
  Inv st -> Inv (snd (setTimeout DelayedUpdate 100 st)).
Proof.
  intros HI.
  pose proof (handles_fresh st HI) as Hf. rewrite Forall_forall in Hf.
  assert (Hpt : passTimers (snd (setTimeout DelayedUpdate 100 st))
                = passTimers st).
  { unfold passTimers. simpl. rewrite filter_app. simpl. apply app_nil_r. }
  constructor.
  - simpl. apply Forall_app. split.
    + apply Forall_forall. intros t Ht. apply Hf in Ht. lia.
    + constructor; [simpl; lia | constructor].
  - simpl. rewrite map_app. simpl.
    apply NoDup_snoc; [apply (handles_distinct st HI) |].
    intros Hin. apply in_map_iff in Hin as (t & Ht & Hin).
    apply Hf in Hin. lia.
  - rewrite Hpt. exact (pass_timer_kept st HI).
  - simpl. intros h Hh. apply (kept_fresh st HI) in Hh. lia.
  - simpl. intros t Ht Hcb Heq.
    apply in_app_iff in Ht as [Ht | [<- | []]].
    + exact (delayed_not_kept st HI t Ht Hcb Heq).
    + simpl in Heq. apply (kept_fresh st HI) in Heq. lia.
  - exact (calls_past st HI).
  - rewrite Hpt. exact (passes_counted st HI).
Qed.

Lemma Inv_dispatch (host : GitExtension) (ev : Event) (st : State) :
  Inv st -> Inv (dispatch host ev st).
Proof.
  intros HI. unfold dispatch. destruct (subscribed host ev); [| exact HI].
  destruct ev; simpl; try (apply Inv_updateStatusBar, HI).
  destruct (includes name "git" || includes name "Git");
    [apply Inv_delayed, HI | exact HI].
Qed.

(** A timer that will run the pass is the only one of its kind. *)
Lemma pass_timer_alone (st : State) (t : Timer) :
  Inv st -> In t (passTimers st) -> passTimers st = [t].
Proof.
  intros HI Ht.
  assert (Hnd : NoDup (map handle (passTimers st)))
    by (apply distinct_handles_filter, (handles_distinct st HI)).
  assert (Hsame : forall x, In x (passTimers st) -> handle x = handle t).
  { intros x Hx.
    destruct (pass_timer_kept st HI x Hx) as [Hx' _].
    destruct (pass_timer_kept st HI t Ht) as [Ht' _].
    congruence. }
  assert (Hinj : forall x, In x (passTimers st) -> x = t).
  { intros x Hx.
    destruct (In_nth_error _ _ Hx) as [i Hi].
    destruct (In_nth_error _ _ Ht) as [j Hj].
    assert (i = j).
    { apply (proj1 (NoDup_nth_error (map handle (passTimers st))) Hnd).
      - apply nth_error_Some. rewrite nth_error_map, Hi. discriminate.
      - rewrite !nth_error_map, Hi, Hj. simpl. f_equal. apply Hsame, Hx. }
    subst j. congruence. }
  destruct (passTimers st) as [| a [| b l]] eqn:E.
  - destruct Ht.
  - f_equal. apply Hinj. left. reflexivity.
  - exfalso. inversion Hnd as [| ? ? Hnot _]; subst. apply Hnot.
    left. rewrite (Hsame a), (Hsame b); auto; [right; left | left]; reflexivity.
Qed.

Lemma find_handle (st : State) (t : Timer) :
  Inv st -> In t (pending st) ->
  find (fun x => Nat.eqb (handle x) (handle t)) (pending st) = Some t.
Proof.
  intros HI. pose proof (handles_distinct st HI) as Hnd.
  induction (pending st) as [| a l IH]; simpl; intros Hin; [destruct Hin |].
  inversion Hnd as [| ? ? Hnot Hnd']; subst.
  destruct (Nat.eqb_spec (handle a) (handle t)) as [He | Hne].
  - destruct Hin as [-> | Hin]; [reflexivity |].
    exfalso. apply Hnot. rewrite He. apply in_map, Hin.
  - destruct Hin as [-> | Hin]; [contradiction |]. apply IH; assumption.
Qed.

Lemma Inv_step (host : GitExtension) (st : State) (input : Input) :
  Inv st -> Inv (step host st input).
Proof.
  intros HI. destruct input as [ev | ms | h]; simpl.
  - apply Inv_dispatch, HI.
  - constructor; simpl.
    + exact (handles_fresh st HI).
    + exact (handles_distinct st HI).
    + exact (pass_timer_kept st HI).
    + exact (kept_fresh st HI).
    + exact (delayed_not_kept st HI).
    + pose proof (calls_past st HI) as Hc. rewrite Forall_forall in *.
      intros c Hin. apply Hc in Hin. lia.
    + exact (passes_counted st HI).
  - destruct (find _ (pending st)) as [t |] eqn:Hfind; [| exact HI].
    destruct (due t <=? clock st)%nat; [| exact HI].
    apply find_some in Hfind as [Hin Hh]. apply Nat.eqb_eq in Hh. subst h.
    pose proof (Inv_clearTimeout (handle t) st HI) as HI1.
    destruct (callback t) eqn:Hcb; simpl;
      [| apply Inv_updateStatusBar, HI1].
    assert (Hnone : passTimers (clearTimeout (handle t) st) = []).
    { apply nil_of_no_In. intros x Hx.
      apply passTimers_In in Hx as [Hx Hxcb]. simpl in Hx.
      apply filter_In in Hx as [Hx Hne].
      assert (Ht : In t (passTimers st)) by (apply passTimers_In; auto).
      assert (Hx' : In x (passTimers st)) by (apply passTimers_In; auto).
      rewrite (pass_timer_alone st t HI Ht) in Hx'.
      destruct Hx' as [<- | []].
      rewrite Nat.eqb_refl in Hne. discriminate. }
    assert (Hsome : (1 <= List.length (passTimers st))%nat).
    { assert (Ht : In t (passTimers st)) by (apply passTimers_In; auto).
      destruct (passTimers st); [destruct Ht | simpl; lia]. }
    constructor.
    + exact (handles_fresh _ HI1).
    + exact (handles_distinct _ HI1).
    + unfold passTimers in *. simpl in *. rewrite Hnone. intros x [].
    + exact (kept_fresh _ HI1).
    + exact (delayed_not_kept _ HI1).
    + exact (calls_past _ HI1).
    + pose proof (passes_counted st HI) as Hc.
      unfold passTimers in *. simpl in *. rewrite Hnone. simpl. lia.
Qed.

Lemma Inv_run (host : GitExtension) (inputs : list Input) :
  forall st, Inv st -> Inv (run host inputs st).
Proof.
  unfold run. induction inputs as [| i inputs IH]; simpl; intros st HI;
    [exact HI | apply IH, Inv_step, HI].
Qed.

Lemma Inv_initial (t0 : nat) : Inv (initial t0).
Proof.
  constructor; simpl; try constructor; try discriminate; try lia;
    intros t [].
Qed.

Lemma Inv_activate (t0 : nat) : Inv (activate t0).
Proof. apply Inv_updateStatusBar, (Inv_initial t0). Qed.

End EventLoopFacts.

Section EventLoopTheorems.
Import EventLoop.

Lemma run_app (host : GitExtension) (l1 l2 : list Input) (st : State) :
  run host (l1 ++ l2) st = run host l2 (run host l1 st).
Proof. unfold run. apply fold_left_app. Qed.

Lemma dispatch_trigger (host : GitExtension) (ev : Event) (st : State) :
  triggers host ev = true -> dispatch host ev st = updateStatusBar st.
Proof.
  unfold triggers, dispatch. intros H. apply andb_prop in H as [-> H].
  destruct ev; try reflexivity. discriminate.
Qed.

Lemma passes_updateStatusBar (st : State) :
  passes (updateStatusBar st) = passes st.
Proof. apply (updateStatusBar_fields st). Qed.

Lemma passes_dispatch (host : GitExtension) (ev : Event) (st : State) :
  passes (dispatch host ev st) = passes st.
Proof.
  unfold dispatch. destruct (subscribed host ev); [| reflexivity].
  destruct ev; simpl; try apply passes_updateStatusBar.
  destruct (includes name "git" || includes name "Git"); reflexivity.
Qed.

Lemma passes_arrivals (host : GitExtension) (burst : list (Event * nat)) :
  forall st, passes (run host (arrivals burst) st) = passes st.
Proof.
  unfold run, arrivals.
  induction burst as [| [ev ms] burst IH]; intros st; simpl; [reflexivity |].
  rewrite IH. simpl. apply passes_dispatch.
Qed.

(** Firing the timer that will run the pass, once it is due. *)
Lemma fire_pass_timer (host : GitExtension) (st : State) (t : Timer) :
  Inv st -> In t (passTimers st) -> (due t <= clock st)%nat ->
  passes (step host st (Fire (handle t))) = clock st :: passes st /\
  passTimers (step host st (Fire (handle t))) = [] /\
  clock (step host st (Fire (handle t))) = clock st.
Proof.
  intros HI Ht Hdue.
  pose proof Ht as Hin. apply passTimers_In in Hin as [Hin Hcb].
  simpl. rewrite (find_handle st t HI Hin).
  apply Nat.leb_le in Hdue. rewrite Hdue, Hcb. simpl.
  split; [reflexivity |]. split; [| reflexivity].
  apply nil_of_no_In. intros x Hx.
  apply passTimers_In in Hx as [Hx Hxcb]. simpl in Hx.
  apply filter_In in Hx as [Hx Hne].
  assert (Hx' : In x (passTimers st)) by (apply passTimers_In; auto).
  rewrite (pass_timer_alone st t HI Ht) in Hx'. destruct Hx' as [<- | []].
  rewrite Nat.eqb_refl in Hne. discriminate.
Qed.

(** X12. Whatever events arrive and whatever timers the host fires after
    [activate], at most one timer that will run the pass is pending; it
    is the one kept in [updateTimeout], and it is due 500 ms after the
    most recent call of [updateStatusBar].  The passes run so far and the
    pass still pending never outnumber the calls. *)
Theorem one_pending_pass (host : GitExtension) (t0 : nat)
    (inputs : list Input) :
  let st := run host inputs (activate t0) in
  (List.length (passTimers st) <= 1)%nat /\
  (forall t, In t (passTimers st) ->
     passTimers st = [t] /\
     updateTimeout st = Some (handle t) /\
     exists c rest, calls st = c :: rest /\ due t = (c + 500)%nat) /\
  (List.length (passes st) + List.length (passTimers st)
   <= List.length (calls st))%nat.
Proof.
  intros st.
  assert (HI : Inv st) by (apply Inv_run, Inv_activate).
  split; [| split].
  - destruct (passTimers st) as [| t l] eqn:E; [simpl; lia |].
    assert (Ht : In t (passTimers st)) by (rewrite E; left; reflexivity).
    rewrite (pass_timer_alone st t HI Ht) in E. injection E as <-. simpl. lia.
  - intros t Ht. split; [apply pass_timer_alone; assumption |].
    apply (pass_timer_kept st HI t Ht).
  - apply (passes_counted st HI).
Qed.

(** X13. A pass starts only when the host fires the pending timer of
    [updateStatusBar], and then at least 500 ms have passed since the
    most recent call of [updateStatusBar]; no call is later than the
    clock. *)
Theorem pass_after_quiet (host : GitExtension) (t0 : nat)
    (inputs : list Input) (input : Input) :
  let st := run host inputs (activate t0) in
  passes (step host st input) <> passes st ->
  exists h c rest,
    input = Fire h /\
    updateTimeout st = Some h /\
    calls st = c :: rest /\
    (c + 500 <= clock st)%nat /\
    Forall (fun c' => (c' <= clock st)%nat) (calls st) /\
    passes (step host st input) = clock st :: passes st.
Proof.
  intros st Hchg.
  assert (HI : Inv st) by (apply Inv_run, Inv_activate).
  destruct input as [ev | ms | h].
  - exfalso. apply Hchg. apply passes_dispatch.
  - exfalso. apply Hchg. reflexivity.
  - cbn [step] in *.
    destruct (find _ (pending st)) as [t |] eqn:Hfind;
      [| exfalso; apply Hchg; reflexivity].
    destruct (Nat.leb_spec (due t) (clock st)) as [Hdue | _];
      [| exfalso; apply Hchg; reflexivity].
    apply find_some in Hfind as [Hin Hh]. apply Nat.eqb_eq in Hh. subst h.
    destruct (callback t) eqn:Hcb; cbn [runCallback] in *.
    + assert (Ht : In t (passTimers st)) by (apply passTimers_In; auto).
      destruct (pass_timer_kept st HI t Ht) as (Hk & c & rest & Hc & Hd).
      exists (handle t), c, rest.
      split; [reflexivity |]. split; [exact Hk |]. split; [exact Hc |].
      split; [lia |]. split; [apply (calls_past st HI) | reflexivity].
    + exfalso. apply Hchg. rewrite passes_updateStatusBar. reflexivity.
Qed.

Lemma pass_after_quiet_witness :
  calls (run withGit twoSaves (activate 0)) = [200; 0; 0]%nat /\
  clock (run withGit twoSaves (activate 0)) = 700%nat /\
  passes (step withGit (run withGit twoSaves (activate 0)) (Fire 2))
    = [700%nat].
Proof.
  split; [reflexivity |]. split; [reflexivity |].
  assert (Hchg : passes (step withGit (run withGit twoSaves (activate 0))
                           (Fire 2))
                 <> passes (run withGit twoSaves (activate 0)))
    by (vm_compute; discriminate).
  destruct (pass_after_quiet withGit 0 twoSaves (Fire 2) Hchg)
    as (h & c & rest & _ & _ & _ & _ & _ & Hp).
  exact Hp.
Defined.

(** X14. However many events arrive, and however they are spaced, while
    the host fires no timer, once a last event that calls
    [updateStatusBar] has arrived exactly one timer that will run the
    pass is pending, due 500 ms after that last event, and no pass has
    run; when it is fired, 500 ms or more later, one pass runs and none
    remains pending. *)
Theorem burst_collapses (host : GitExtension) (t0 : nat)
    (inputs : list Input) (burst : list (Event * nat)) (last : Event)
    (ms : nat) :
  triggers host last = true -> (500 <= ms)%nat ->
  let st := run host inputs (activate t0) in
  let st' := run host (arrivals burst ++ [Dispatch last]) st in
  exists h,
    passTimers st' =
      [{| handle := h; due := clock st' + 500; callback := RunPass |}] /\
    passes st' = passes st /\
    let st'' := run host [Elapse ms; Fire h] st' in
    passes st'' = (clock st' + ms)%nat :: passes st /\
    passTimers st'' = [].
Proof.
  intros Htrig Hms st st'.
  assert (HI : Inv st) by (apply Inv_run, Inv_activate).
  set (st1 := run host (arrivals burst) st).
  assert (HI1 : Inv st1) by (apply Inv_run, HI).
  assert (Hst' : st' = updateStatusBar st1).
  { unfold st'. rewrite run_app. fold st1. unfold run. simpl.
    apply dispatch_trigger, Htrig. }
  assert (HI' : Inv st') by (rewrite Hst'; apply Inv_updateStatusBar, HI1).
  destruct (updateStatusBar_fields st1) as (Hc & _ & _ & _ & _ & Hp).
  exists (nextHandle st1).
  assert (Hpt : passTimers st' =
                [{| handle := nextHandle st1; due := clock st' + 500;
                    callback := RunPass |}]).
  { rewrite Hst', Hc. apply updateStatusBar_passTimers, HI1. }
  split; [exact Hpt |].
  assert (Hpasses : passes st' = passes st).
  { rewrite Hst', Hp. apply passes_arrivals. }
  split; [exact Hpasses |].
  set (elapsed := step host st' (Elapse ms)).
  assert (HIe : Inv elapsed) by (apply Inv_step, HI').
  assert (Hte : In {| handle := nextHandle st1; due := clock st' + 500;
                      callback := RunPass |} (passTimers elapsed)).
  { unfold elapsed, passTimers. simpl. fold (passTimers st').
    rewrite Hpt. left. reflexivity. }
  destruct (fire_pass_timer host elapsed _ HIe Hte) as (Hf1 & Hf2 & _);
    [simpl; lia |].
  cbv zeta.
  change (run host [Elapse ms; Fire (nextHandle st1)] st')
    with (step host elapsed (Fire (nextHandle st1))).
  split; [| exact Hf2].
  etransitivity; [exact Hf1 |].
  change (clock elapsed :: passes elapsed)
    with ((clock st' + ms)%nat :: passes st').
  rewrite Hpasses. reflexivity.
Qed.

Lemma burst_collapses_witness :
  clock (run withoutGit (arrivals mixedBurst ++ [Dispatch DidSaveTextDocument])
           (activate 0)) = 740%nat /\
  passTimers (run withoutGit
                (arrivals mixedBurst ++ [Dispatch DidSaveTextDocument])
                (activate 0))
    = [{| handle := 2; due := 1240; callback := RunPass |}] /\
  passes (run withoutGit [Elapse 500; Fire 2]
            (run withoutGit
               (arrivals mixedBurst ++ [Dispatch DidSaveTextDocument])
               (activate 0))) = [1240%nat].
Proof.
  split; [reflexivity |]. split; [reflexivity |].
  destruct (burst_collapses withoutGit 0 [] mixedBurst
              DidSaveTextDocument 500 eq_refl (le_n 500))
    as (h & Hpt & _ & Hfire & _).
  injection Hpt as <-. exact Hfire.
Defined.

Lemma one_pending_pass_witness :
  passTimers (run withGit twoSaves (activate 0))
    = [{| handle := 2; due := 700; callback := RunPass |}] /\
  updateTimeout (run withGit twoSaves (activate 0)) = Some 2%nat.
Proof.
  destruct (one_pending_pass withGit 0 twoSaves) as (_ & Hone & _).
  destruct (Hone {| handle := 2; due := 700; callback := RunPass |}
              (or_introl eq_refl)) as (Halone & Hkept & _).
  split; [exact Halone | exact Hkept].
Defined.

End EventLoopTheorems.

Section TerminalWatcher.
Import EventLoop.

(** X15. Closing a terminal whose name contains neither [git] nor [Git]
    changes nothing.  Closing one whose name does leaves the pending
    debounce timer as it is and starts a timer of 100 ms; when the host
    fires that timer, [ms] milliseconds after the close, it calls
    [updateStatusBar], so that the pass is then due [ms + 500]
    milliseconds after the close: never before 600. *)
Theorem terminal_close (host : GitExtension) (t0 : nat)
    (inputs : list Input) (name : string) (ms : nat) :
  let st := run host inputs (activate t0) in
  let closed := dispatch host (DidCloseTerminal name) st in
  (includes name "git" || includes name "Git" = false -> closed = st) /\
  (includes name "git" || includes name "Git" = true ->
   passTimers closed = passTimers st /\
   updateTimeout closed = updateTimeout st /\
   pending closed =
     (pending st ++
      [{| handle := nextHandle st; due := clock st + 100;
          callback := DelayedUpdate |}])%list /\
   ((100 <= ms)%nat ->
    let fired := run host [Elapse ms; Fire (nextHandle st)] closed in
    passTimers fired =
      [{| handle := S (nextHandle st); due := clock st + ms + 500;
          callback := RunPass |}] /\
    calls fired = (clock st + ms)%nat :: calls st /\
    passes fired = passes st)).
Proof.
  intros st closed.
  assert (HI : Inv st) by (apply Inv_run, Inv_activate).
  unfold closed, dispatch. cbn [subscribed listener].
  destruct (includes name "git" || includes name "Git");
    (split; [intros H; try discriminate; reflexivity |]);
    intros H; try discriminate.
  set (st1 := snd (setTimeout DelayedUpdate 100 st)).
  assert (HI1 : Inv st1) by (apply Inv_delayed, HI).
  split.
  { unfold passTimers. simpl. rewrite filter_app. simpl. apply app_nil_r. }
  split; [reflexivity |]. split; [reflexivity |].
  intros Hms. cbv zeta.
  set (elapsed := step host st1 (Elapse ms)).
  assert (HIe : Inv elapsed) by (apply Inv_step, HI1).
  set (t := {| handle := nextHandle st; due := clock st + 100;
               callback := DelayedUpdate |}).
  assert (Hin : In t (pending elapsed)).
  { simpl. apply in_or_app. right. left. reflexivity. }
  change (run host [Elapse ms; Fire (nextHandle st)] st1)
    with (step host elapsed (Fire (handle t))).
  cbn [step]. rewrite (find_handle elapsed t HIe Hin).
  assert (Hdue : (due t <=? clock elapsed)%nat = true)
    by (apply Nat.leb_le; simpl; lia).
  rewrite Hdue. cbn [callback t runCallback].
  set (cleared := clearTimeout (handle t) elapsed).
  assert (HIc : Inv cleared) by (apply Inv_clearTimeout, HIe).
  destruct (updateStatusBar_fields cleared) as (_ & _ & _ & _ & Hcalls & Hp).
  split; [apply (updateStatusBar_passTimers cleared HIc) |].
  split; [exact Hcalls | exact Hp].
Qed.

Lemma terminal_close_witness :
  dispatch withGit (DidCloseTerminal "GIT shell") (activate 0) = activate 0 /\
  includes "legit" "git" = true /\
  passTimers (run withGit [Elapse 150; Fire 1]
                (dispatch withGit (DidCloseTerminal "legit") (activate 0)))
    = [{| handle := 2; due := 650; callback := RunPass |}].
Proof.
  destruct (terminal_close withGit 0 [] "GIT shell" 150) as [Hno _].
  destruct (terminal_close withGit 0 [] "legit" 150) as [_ Hyes].
  split; [exact (Hno eq_refl) |]. split; [reflexivity |].
  destruct (Hyes eq_refl) as (_ & _ & _ & Hfired).
  assert (Hms : (100 <= 150)%nat) by (repeat constructor).
  exact (proj1 (Hfired Hms)).
Defined.

(** X16. A timer started by the terminal watcher stays pending until
    the host fires it: no event and no other timer cancels it. *)
Theorem delayed_update_kept (host : GitExtension) (t0 : nat)
    (inputs : list Input) (t : Timer) (input : Input) :
  let st := run host inputs (activate t0) in
  In t (pending st) -> callback t = DelayedUpdate ->
  input <> Fire (handle t) ->
  In t (pending (step host st input)).
Proof.
  intros st Hin Hcb Hinput.
  assert (HI : Inv st) by (apply Inv_run, Inv_activate).
  assert (Hkeep : forall s, Inv s -> In t (pending s) ->
                    In t (pending (updateStatusBar s))).
  { intros s HIs Hs.
    destruct (updateStatusBar_fields s) as (_ & _ & Hp & _).
    rewrite Hp. apply in_or_app. left.
    destruct (updateTimeout s) as [h |] eqn:Hu; [| exact Hs].
    simpl. apply filter_In. split; [exact Hs |].
    apply negb_true_iff, Nat.eqb_neq. intros He.
    apply (delayed_not_kept s HIs t Hs Hcb). rewrite Hu, He. reflexivity. }
  destruct input as [ev | ms | h]; cbn [step].
  - unfold dispatch. destruct (subscribed host ev); [| exact Hin].
    destruct ev; cbn [listener]; try (apply Hkeep; assumption).
    destruct (includes name "git" || includes name "Git"); [| exact Hin].
    simpl. apply in_or_app. left. exact Hin.
  - exact Hin.
  - destruct (find _ (pending st)) as [x |] eqn:Hfind; [| exact Hin].
    destruct (due x <=? clock st)%nat; [| exact Hin].
    assert (Hc : In t (pending (clearTimeout h st))).
    { simpl. apply filter_In. split; [exact Hin |].
      apply negb_true_iff, Nat.eqb_neq. intros He. apply Hinput.
      rewrite He. reflexivity. }
    destruct (callback x); cbn [runCallback]; [exact Hc |].
    apply Hkeep; [apply Inv_clearTimeout, HI | exact Hc].
Qed.

Lemma delayed_update_kept_witness :
  pending (run withGit [Dispatch (DidCloseTerminal "git")] (activate 0))
    = [{| handle := 0; due := 500; callback := RunPass |};
       {| handle := 1; due := 100; callback := DelayedUpdate |}] /\
  In {| handle := 1; due := 100; callback := DelayedUpdate |}
     (pending (step withGit
                 (run withGit [Dispatch (DidCloseTerminal "git")] (activate 0))
                 (Dispatch DidSaveTextDocument))).
Proof.
  split; [reflexivity |].
  apply (delayed_update_kept withGit 0 [Dispatch (DidCloseTerminal "git")]
           {| handle := 1; due := 100; callback := DelayedUpdate |}
           (Dispatch DidSaveTextDocument)).
  - right. left. reflexivity.
  - reflexivity.
  - discriminate.
Defined.

End TerminalWatcher.

(** * The minimal variant *)

Lemma minimal_Area_eq (a b : Minimal.Area) :
  Minimal.areaLinesAdded a = Minimal.areaLinesAdded b ->
  Minimal.areaLinesDeleted a = Minimal.areaLinesDeleted b ->
  Minimal.areaFiles a = Minimal.areaFiles b -> a = b.
Proof. destruct a, b. simpl. intros -> -> ->. reflexivity. Qed.

(** The loop of the minimal variant pushes the records of the richer
    one, without their totals. *)
Lemma minimal_loop_closed (env : Env) slot listing lines :
  forall acc,
    fold_left (Minimal.diffLine slot listing) lines acc =
      {| Minimal.areaLinesAdded :=
           Minimal.areaLinesAdded acc
           + sumOf linesAdded
               (map (lineRecord env slot listing) (filter nonBlank lines));
         Minimal.areaLinesDeleted :=
           Minimal.areaLinesDeleted acc
           + sumOf linesDeleted
               (map (lineRecord env slot listing) (filter nonBlank lines));
         Minimal.areaFiles :=
           Minimal.areaFiles acc ++
           map forget
             (map (lineRecord env slot listing) (filter nonBlank lines)) |}.
Proof.
  induction lines as [| line lines IH]; intros acc; simpl.
  - apply minimal_Area_eq; simpl; try lia. symmetry. apply app_nil_r.
  - rewrite IH. unfold Minimal.diffLine, nonBlank.
    destruct (truthy (trim line)); simpl; [| reflexivity].
    apply minimal_Area_eq; simpl; try lia.
    rewrite <- app_assoc. reflexivity.
Qed.

Lemma sort_insert_forget (a : FileChange) (l : list FileChange) :
  sort_insert Minimal.byNetLinesDesc (forget a) (map forget l)
  = map forget (sort_insert byNetLinesDesc a l).
Proof.
  induction l as [| b l IH]; simpl; [reflexivity |].
  unfold Minimal.byNetLinesDesc, byNetLinesDesc in *. simpl.
  destruct (netLines b - netLines a <=? 0); simpl; [reflexivity |].
  rewrite IH. reflexivity.
Qed.

Lemma Array_sort_forget (l : list FileChange) :
  Array_sort Minimal.byNetLinesDesc (map forget l)
  = map forget (Array_sort byNetLinesDesc l).
Proof.
  induction l as [| a l IH]; simpl; [reflexivity |].
  rewrite IH. apply sort_insert_forget.
Qed.

Lemma minimal_pass_closed (env : Env) (rootPath : string) (git : SimpleGit)
    (workingDiff stagedDiff : string) (listing : StatusResult) :
  fsPath env = Some rootPath -> truthy rootPath = true ->
  simpleGit env rootPath = Ok git -> checkIsRepo git = Ok true ->
  diff git ["--numstat"] = Ok workingDiff ->
  git_status git = Ok listing ->
  diff git ["--cached"; "--numstat"] = Ok stagedDiff ->
  Minimal.getLineStats env =
    Ok (Some
      {| Minimal.changesLinesAdded :=
           sumOf linesAdded (diffRecords env working_dir listing workingDiff);
         Minimal.changesLinesDeleted :=
           sumOf linesDeleted (diffRecords env working_dir listing workingDiff);
         Minimal.changesFiles :=
           map forget
             (Array_sort byNetLinesDesc
                (diffRecords env working_dir listing workingDiff));
         Minimal.stagedLinesAdded :=
           sumOf linesAdded (diffRecords env index listing stagedDiff);
         Minimal.stagedLinesDeleted :=
           sumOf linesDeleted (diffRecords env index listing stagedDiff);
         Minimal.stagedFiles :=
           map forget
             (Array_sort byNetLinesDesc
                (diffRecords env index listing stagedDiff)) |}).
Proof.
  intros Hroot Htruthy Hgit Hrepo Hw Hs Hd.
  unfold Minimal.getLineStats, Minimal.getLineStats_try, ifNoRoot.
  rewrite Hroot, Htruthy, Hgit. cbn [bind try_catch]. rewrite Hrepo.
  cbn [bind negb]. rewrite Hs. cbn [bind]. rewrite Hw. cbn [bind].
  rewrite Hd. cbn [bind try_catch].
  rewrite !(minimal_loop_closed env). cbn [Minimal.areaLinesAdded
    Minimal.areaLinesDeleted Minimal.areaFiles Minimal.emptyArea app].
  rewrite !Array_sort_forget. reflexivity.
Qed.

(** X17. On every pass of the richer variant without error tag, the
    minimal variant resolves too; its staged area is the one of the
    richer variant without the totals, with the same sums; its changes
    area has the same deleted sum, and its added sum is short of the
    richer one by exactly the totals of the untracked files, which it
    does not list; when the listing has no untracked entry, the changes
    areas agree as well. *)
Theorem minimal_vs_richer (env : Env) (stats : LineStats) (rootPath : string)
    (git : SimpleGit) (listing : StatusResult) :
  getLineStats env = Ok (Some stats) -> error stats = None ->
  fsPath env = Some rootPath -> simpleGit env rootPath = Ok git ->
  git_status git = Ok listing ->
  exists minimal,
    Minimal.getLineStats env = Ok (Some minimal) /\
    Minimal.stagedFiles minimal = map forget (stagedFiles stats) /\
    Minimal.stagedLinesAdded minimal = stagedLinesAdded stats /\
    Minimal.stagedLinesDeleted minimal = stagedLinesDeleted stats /\
    Minimal.changesLinesDeleted minimal = changesLinesDeleted stats /\
    changesLinesAdded stats =
      Minimal.changesLinesAdded minimal
      + sumOf linesAdded (untrackedRecords env listing) /\
    (untracked listing = [] ->
     Minimal.changesFiles minimal = map forget (changesFiles stats) /\
     Minimal.changesLinesAdded minimal = changesLinesAdded stats).
Proof.
  intros H Herr Hroot Hgit Hstatus.
  destruct (getLineStats_success env stats H Herr)
    as (root' & git' & changes & staged & Hr' & Ht & Hg' & Hrepo & Hc & ->).
  rewrite Hroot in Hr'. injection Hr' as <-.
  rewrite Hgit in Hg'. injection Hg' as <-.
  pose proof Hc as Hc'.
  apply collectAreas_inv in Hc'
    as (wd & st & _ & sd & Hw & Hs & _ & _ & Hd & _).
  rewrite Hstatus in Hs. injection Hs as <-.
  rewrite (collectAreas_closed env git wd listing sd Hw Hstatus Hd) in Hc.
  injection Hc as <- <-.
  eexists. split.
  { apply (minimal_pass_closed env rootPath git wd sd listing); assumption. }
  cbn. rewrite !sumOf_app.
  assert (Hdel : sumOf linesDeleted (untrackedRecords env listing) = 0).
  { unfold untrackedRecords.
    induction (untracked listing) as [| e l IH]; simpl; [reflexivity | lia]. }
  repeat split; try lia.
  - unfold untrackedRecords.
    match goal with Hnone : untracked listing = [] |- _ => rewrite Hnone end.
    simpl. rewrite app_nil_r. reflexivity.
  - unfold untrackedRecords.
    match goal with Hnone : untracked listing = [] |- _ => rewrite Hnone end.
    simpl. lia.
Qed.

Lemma minimal_vs_richer_witness :
  getLineStats (Scenario.env_of Scenario.repoTies) = Ok (Some Scenario.statsTies) /\
  exists minimal,
    Minimal.getLineStats (Scenario.env_of Scenario.repoTies) = Ok (Some minimal) /\
    Minimal.changesLinesAdded minimal = 7 /\
    changesLinesAdded Scenario.statsTies = 7 + 1.
Proof.
  assert (H : getLineStats (Scenario.env_of Scenario.repoTies)
              = Ok (Some Scenario.statsTies)) by (vm_compute; reflexivity).
  split; [exact H |].
  destruct (minimal_vs_richer (Scenario.env_of Scenario.repoTies)
              Scenario.statsTies "/w" (Scenario.git_of Scenario.repoTies)
              {| files := Scenario.listing Scenario.repoTies |}
              H eq_refl eq_refl eq_refl eq_refl)
    as (minimal & Hmin & _ & _ & _ & _ & Hadd & _).
  exists minimal. split; [exact Hmin |].
  assert (Hm : Minimal.changesLinesAdded minimal = 7).
  { vm_compute in Hmin. injection Hmin as <-. reflexivity. }
  split; [exact Hm |]. rewrite Hadd, Hm. reflexivity.
Defined.

(** X18. The minimal variant has one error text: without a workspace
    root, on a root that is not a repository, and when anything throws in
    the [try] block, the pass resolves to [null] and the item shows
    [Git: No repo] with the tooltip [No git repository found]. *)
Theorem minimal_one_error_text (env : Env) (item : StatusBarItem) :
  (fsPath env = None \/ fsPath env = Some "") \/
  (exists rootPath git,
     fsPath env = Some rootPath /\ truthy rootPath = true /\
     simpleGit env rootPath = Ok git /\ checkIsRepo git = Ok false) \/
  (exists e, Minimal.getLineStats_try env = Throw e) ->
  Minimal.getLineStats env = Ok None /\
  Minimal.updateStatusBar env item =
    ({| text := icon ++ "Git: No repo";
        tooltip := "No git repository found" |}, Ok tt).
Proof.
  intros Hcase.
  assert (H : Minimal.getLineStats env = Ok None).
  { unfold Minimal.getLineStats.
    destruct Hcase as [[Hr | Hr] | [(root & git & Hr & Ht & Hg & Hrepo) | (e & He)]].
    - unfold Minimal.getLineStats_try, ifNoRoot. rewrite Hr. reflexivity.
    - unfold Minimal.getLineStats_try, ifNoRoot. rewrite Hr. reflexivity.
    - unfold Minimal.getLineStats_try, ifNoRoot. rewrite Hr, Ht, Hg.
      cbn [bind]. rewrite Hrepo. reflexivity.
    - rewrite He. reflexivity. }
  split; [exact H |]. unfold Minimal.updateStatusBar. rewrite H. reflexivity.
Qed.

Lemma minimal_one_error_text_witness :
  fst (Minimal.updateStatusBar Scenario.envNoWorkspace Scenario.blankItem)
    = {| text := icon ++ "Git: No repo"; tooltip := "No git repository found" |} /\
  fst (Minimal.updateStatusBar Scenario.envNoRepo Scenario.blankItem)
    = {| text := icon ++ "Git: No repo"; tooltip := "No git repository found" |} /\
  fst (Minimal.updateStatusBar Scenario.envBroken Scenario.blankItem)
    = {| text := icon ++ "Git: No repo"; tooltip := "No git repository found" |}.
Proof.
  split; [| split].
  - rewrite (proj2 (minimal_one_error_text Scenario.envNoWorkspace
                      Scenario.blankItem (or_introl (or_introl eq_refl)))).
    reflexivity.
  - rewrite (proj2 (minimal_one_error_text Scenario.envNoRepo
                      Scenario.blankItem
                      (or_intror (or_introl
                         (ex_intro _ "/w"
                            (ex_intro _ Scenario.notARepo
                               (conj eq_refl (conj eq_refl
                                  (conj eq_refl eq_refl))))))))).
    reflexivity.
  - rewrite (proj2 (minimal_one_error_text Scenario.envBroken
                      Scenario.blankItem
                      (or_intror (or_intror
                         (ex_intro _ (HostError "spawn git ENOENT")
                            eq_refl))))).
    reflexivity.
Defined.

(** X19. The summary of the minimal variant: [Clean] when both nets are
    0; otherwise the areas whose net is not 0, each with its label, then
    a total, also when a single area is shown, in which case the total
    repeats the net of that area. *)
Theorem minimal_summary (stats : Minimal.LineStats) :
  let staged :=
    Minimal.stagedLinesAdded stats - Minimal.stagedLinesDeleted stats in
  let changes :=
    Minimal.changesLinesAdded stats - Minimal.changesLinesDeleted stats in
  (staged = 0 -> changes = 0 ->
   Minimal.summaryText stats = icon ++ "Clean") /\
  (staged <> 0 -> changes = 0 ->
   Minimal.summaryText stats =
     icon ++ "Staged:" ++ signed staged ++ ", Total:" ++ signed staged) /\
  (staged = 0 -> changes <> 0 ->
   Minimal.summaryText stats =
     icon ++ "Changes:" ++ signed changes ++ ", Total:" ++ signed changes) /\
  (staged <> 0 -> changes <> 0 ->
   Minimal.summaryText stats =
     icon ++ "Staged:" ++ signed staged ++ ", Changes:" ++ signed changes
          ++ ", Total:" ++ signed (changes + staged)).
Proof.
  intros staged changes. unfold Minimal.summaryText, icon.
  fold staged. fold changes.
  repeat split; intros Hs Hc.
  - rewrite Hs, Hc. reflexivity.
  - rewrite Hc. destruct (Z.eqb_spec staged 0) as [E | _]; [contradiction |].
    cbn [negb andb Z.eqb]. rewrite Z.add_0_l, !append_assoc. reflexivity.
  - rewrite Hs. destruct (Z.eqb_spec changes 0) as [E | _]; [contradiction |].
    cbn [negb andb Z.eqb]. rewrite Z.add_0_r, !append_assoc. reflexivity.
  - destruct (Z.eqb_spec staged 0) as [E | _]; [contradiction |].
    destruct (Z.eqb_spec changes 0) as [E | _]; [contradiction |].
    cbn [negb andb]. rewrite !append_assoc. reflexivity.
Qed.

Lemma minimal_summary_witness :
  exists stats,
    Minimal.getLineStats (Scenario.env_of Scenario.repoC) = Ok (Some stats) /\
    Minimal.summaryText stats = icon ++ "Staged:+2, Changes:+8, Total:+10".
Proof.
  eexists. split; [vm_compute; reflexivity |].
  match goal with |- Minimal.summaryText ?s = _ =>
    destruct (minimal_summary s) as (_ & _ & _ & Hboth)
  end.
  rewrite Hboth; [vm_compute; reflexivity | vm_compute; discriminate
                  | vm_compute; discriminate].
Defined.

(** The rows of the minimal tooltip: a file without path stops them. *)
Lemma minimal_pushRows (env : Env) (files : list Minimal.FileChange) :
  forall rows,
    (exists f, In f files /\ Minimal.path f = None) ->
    Minimal.pushRows env files rows = Throw TypeError.
Proof.
  unfold Minimal.pushRows.
  induction files as [| f files IH]; intros rows (x & Hin & Hx);
    [destruct Hin |].
  simpl.
  destruct (Minimal.path f) as [p |] eqn:Hp.
  - assert (Hrow : exists row, Minimal.fileRow env f = Ok row).
    { unfold Minimal.fileRow, basename. rewrite Hp. cbn [bind]. eauto. }
    destruct Hrow as [row ->]. cbn [bind]. apply IH.
    destruct Hin as [<- | Hin]; [congruence | eauto].
  - unfold Minimal.fileRow, basename. rewrite Hp. reflexivity.
Qed.

Lemma minimal_pushRows_cases (env : Env) (files : list Minimal.FileChange) :
  forall rows,
    (exists rows', Minimal.pushRows env files rows = Ok rows') \/
    Minimal.pushRows env files rows = Throw TypeError.
Proof.
  unfold Minimal.pushRows.
  induction files as [| f files IH]; intros rows; simpl; [eauto |].
  assert (Hrow : (exists row, Minimal.fileRow env f = Ok row) \/
                 Minimal.fileRow env f = Throw TypeError).
  { unfold Minimal.fileRow, basename.
    destruct (Minimal.path f); cbn [bind]; eauto. }
  destruct Hrow as [[row ->] | ->]; cbn [bind]; [apply IH | auto].
Qed.

(** X20. In the minimal variant nothing catches a throw of the callback:
    when some record of a pass has no path, the summary of the pass is
    written to the text, the tooltip stays what it was before, and the
    promise rejects with a [TypeError]. *)
Theorem minimal_keeps_old_tooltip (env : Env) (item : StatusBarItem)
    (stats : Minimal.LineStats) :
  Minimal.getLineStats env = Ok (Some stats) ->
  (exists f,
     In f (Minimal.stagedFiles stats ++ Minimal.changesFiles stats) /\
     Minimal.path f = None) ->
  Minimal.updateStatusBar env item =
    ({| text := Minimal.summaryText stats; tooltip := tooltip item |},
     Throw TypeError).
Proof.
  intros H (f & Hin & Hf).
  unfold Minimal.updateStatusBar. rewrite H.
  assert (Htip : Minimal.tooltipText env stats = Throw TypeError).
  { unfold Minimal.tooltipText.
    apply in_app_iff in Hin as [Hin | Hin].
    - rewrite minimal_pushRows by eauto. reflexivity.
    - match goal with
      | |- bind (Minimal.pushRows env ?fs ?rows) _ = _ =>
          destruct (minimal_pushRows_cases env fs rows) as [[rows' ->] | ->]
      end; [| reflexivity].
      cbn [bind]. rewrite minimal_pushRows by eauto. reflexivity. }
  rewrite Htip. reflexivity.
Qed.

Lemma minimal_keeps_old_tooltip_witness :
  exists stats,
    Minimal.getLineStats (Scenario.env_of Scenario.repoBinary)
      = Ok (Some stats) /\
    Minimal.updateStatusBar (Scenario.env_of Scenario.repoBinary)
      {| text := "old text"; tooltip := "old tooltip" |}
    = ({| text := icon ++ "Changes:+2, Total:+2"; tooltip := "old tooltip" |},
       Throw TypeError).
Proof.
  eexists. split; [vm_compute; reflexivity |].
  match goal with |- Minimal.updateStatusBar ?e ?i = _ =>
    rewrite (minimal_keeps_old_tooltip e i _ eq_refl)
  end.
  - vm_compute. reflexivity.
  - eexists. split; [left; reflexivity | reflexivity].
Defined.

(** * The resolver of the intermediate variant *)

(** X21. The resolver that reads from disk only never rejects; it agrees
    with the resolver of the richer variant on every file that is on
    disk and when there is no workspace root or no path, and gives 0 for
    a file that is not on disk, where the richer one asks the history. *)
Theorem disk_only_resolver (env : Env) (filePath : option string) :
  (exists n, DiskOnly.getFileTotalLines env filePath = Ok n /\ 0 <= n) /\
  (fsPath env = None \/ fsPath env = Some "" \/ filePath = None ->
   DiskOnly.getFileTotalLines env filePath = getFileTotalLines env filePath) /\
  (forall rootPath p,
     fsPath env = Some rootPath -> truthy rootPath = true ->
     filePath = Some p ->
     (existsSync env (path_join env rootPath p) = true ->
      DiskOnly.getFileTotalLines env filePath
        = getFileTotalLines env filePath) /\
     (existsSync env (path_join env rootPath p) = false ->
      DiskOnly.getFileTotalLines env filePath = Ok 0 /\
      getFileTotalLines env filePath
        = getDeletedFileLinesFromGit env filePath)).
Proof.
  split; [| split].
  - unfold DiskOnly.getFileTotalLines, ifNoRoot, try_catch, bind, join_path.
    repeat break_match; eexists; (split; [reflexivity |]);
      try apply countLines_nonneg; lia.
  - unfold DiskOnly.getFileTotalLines, getFileTotalLines, ifNoRoot.
    intros [-> | [-> | ->]]; reflexivity.
  - intros rootPath p Hroot Htruthy ->. split; intros Hex.
    + rewrite (resolve_on_disk env rootPath p Hroot Htruthy Hex).
      unfold DiskOnly.getFileTotalLines, ifNoRoot, join_path.
      rewrite Hroot, Htruthy. cbn [bind]. rewrite Hex. cbn [negb].
      destruct (readFileSync env _); reflexivity.
    + split; [| apply (resolve_off_disk env rootPath p Hroot Htruthy Hex)].
      unfold DiskOnly.getFileTotalLines, ifNoRoot, join_path.
      rewrite Hroot, Htruthy. cbn [bind]. rewrite Hex. reflexivity.
Qed.

Lemma disk_only_resolver_witness :
  DiskOnly.getFileTotalLines (Scenario.env_of Scenario.repoE) (Some "old.txt")
    = Ok 0 /\
  getFileTotalLines (Scenario.env_of Scenario.repoE) (Some "old.txt") = Ok 42 /\
  DiskOnly.getFileTotalLines (Scenario.env_of Scenario.repoB) (Some "src/a.ts")
    = getFileTotalLines (Scenario.env_of Scenario.repoB) (Some "src/a.ts").
Proof.
  destruct (disk_only_resolver (Scenario.env_of Scenario.repoE)
              (Some "old.txt")) as (_ & _ & HE).
  destruct (disk_only_resolver (Scenario.env_of Scenario.repoB)
              (Some "src/a.ts")) as (_ & _ & HB).
  destruct (HE "/w" "old.txt" eq_refl eq_refl eq_refl) as [_ Hoff].
  destruct (HB "/w" "src/a.ts" eq_refl eq_refl eq_refl) as [Hon _].
  split; [exact (proj1 (Hoff eq_refl)) |].
  split; [reflexivity | exact (Hon eq_refl)].
Defined.
